(** * Incremental order pipeline: a shallow embedding of [analytics/pipeline.py]

    The development follows the Python module top to bottom: string and
    calendar helpers, the order snapshot as it arrives from the upstream API,
    the returns reconciler, the affected-date-range accumulator, the order
    fetcher, the window computation of [process_single_brand] and the
    incremental summary queries.

    Conventions of the embedding.
    - Money is counted in hundredths (a [Z] number of cents).  The Python code
      holds amounts in floats and rounds them with [round(v, 2)] before they
      reach a [DECIMAL(12,2)] column; on amounts with two decimals both agree
      with exact arithmetic on cents, which is what the model computes.
    - A JSON object is a record with one field per key the code reads; a key
      read with [.get] is an [option], and Python truthiness ([if x:],
      [x or default]) is written out.
    - A Python exception is the [Raised] outcome of the error monad below.
    - A table with a primary key is a [gmap] from the key to the remaining
      columns; a table without one is a list of rows. *)

From Stdlib Require Import ZArith String Ascii List Bool Lia.
From Stdlib Require OrderedTypeEx.
From stdpp Require Import base option list gmap fin_maps fin_sets strings pretty sorting.

Local Open Scope string_scope.
Local Open Scope Z_scope.

(** ** Outcomes of fallible Python code *)

Inductive exn : Type :=
  | ValueError
  | TypeError
  | DatabaseError.

Inductive outcome (A : Type) : Type :=
  | Returned (a : A)
  | Raised (e : exn).

Arguments Returned {A} a.
Arguments Raised {A} e.

Global Instance outcome_ret : MRet outcome := fun A a => Returned a.

Global Instance outcome_bind : MBind outcome := fun A B k m =>
  match m with
  | Returned a => k a
  | Raised e => Raised e
  end.

(** [for x in xs: acc = body(acc, x)], stopping at the first exception. *)
Fixpoint for_each {A S : Type} (body : S -> A -> outcome S) (xs : list A) (acc : S)
  : outcome S :=
  match xs with
  | [] => Returned acc
  | x :: rest => acc' ← body acc x; for_each body rest acc'
  end.

(** ** Python string helpers *)

Module PyStr.

(** [bool(s)] for a value obtained with [.get]: [None] and [''] are falsy. *)
Definition truthy (v : option string) : bool :=
  match v with
  | Some (String _ _) => true
  | _ => false
  end.

(** [s.replace(old, new)] for a non-empty [old]: occurrences are replaced
    from the left and do not overlap; [skip] counts the characters of the
    occurrence being replaced that are still to be dropped. *)
Fixpoint replace_go (old new : string) (skip : nat) (s : string) : string :=
  match s with
  | EmptyString => EmptyString
  | String c rest =>
      match skip with
      | S k => replace_go old new k rest
      | O =>
          if String.prefix old s
          then new +:+ replace_go old new (String.length old - 1) rest
          else String c (replace_go old new 0 rest)
      end
  end.

Definition replace (old new s : string) : string := replace_go old new 0 s.

(** [s.replace('Z', '+00:00')] *)
Definition replace_Z (s : string) : string := replace "Z" "+00:00" s.

Definition lower_char (c : ascii) : ascii :=
  let n := nat_of_ascii c in
  if (Nat.leb 65 n && Nat.leb n 90)%bool then ascii_of_nat (n + 32) else c.

(** [s.lower()] on ASCII text *)
Fixpoint lower (s : string) : string :=
  match s with
  | EmptyString => EmptyString
  | String c rest => String (lower_char c) (lower rest)
  end.

(** [needle in hay] *)
Fixpoint contains (needle hay : string) : bool :=
  String.prefix needle hay ||
  match hay with
  | EmptyString => false
  | String _ rest => contains needle rest
  end.

(** [s.split(sep)] for a one-character separator *)
Fixpoint split (sep : ascii) (s : string) : list string :=
  match s with
  | EmptyString => [EmptyString]
  | String c rest =>
      if Ascii.eqb c sep then EmptyString :: split sep rest
      else match split sep rest with
           | [] => [String c EmptyString]
           | hd :: tl => String c hd :: tl
           end
  end.

Definition in_chars (chars : list ascii) (c : ascii) : bool :=
  existsb (Ascii.eqb c) chars.

Fixpoint lstrip (chars : list ascii) (s : string) : string :=
  match s with
  | EmptyString => EmptyString
  | String c rest => if in_chars chars c then lstrip chars rest else s
  end.

Fixpoint rstrip (chars : list ascii) (s : string) : string :=
  match s with
  | EmptyString => EmptyString
  | String c rest =>
      match rstrip chars rest with
      | EmptyString => if in_chars chars c then EmptyString else String c EmptyString
      | kept => String c kept
      end
  end.

(** [s.strip(chars)] *)
Definition strip (chars : list ascii) (s : string) : string :=
  rstrip chars (lstrip chars s).

(** [s[:n]] *)
Definition take (n : nat) (s : string) : string := String.substring 0 n s.

End PyStr.

(** ** The proleptic Gregorian calendar of [datetime] *)

Module Calendar.

(** Day number (days since 1970-01-01) of a civil date. *)
Definition days_from_civil (y m d : Z) : Z :=
  let y' := if m <=? 2 then y - 1 else y in
  let era := y' / 400 in
  let yoe := y' - era * 400 in
  let mp := if 2 <? m then m - 3 else m + 9 in
  let doy := (153 * mp + 2) / 5 + d - 1 in
  let doe := yoe * 365 + yoe / 4 - yoe / 100 + doy in
  era * 146097 + doe - 719468.

(** Civil date (year, month, day) of a day number. *)
Definition civil_from_days (n : Z) : Z * Z * Z :=
  let z := n + 719468 in
  let era := z / 146097 in
  let doe := z - era * 146097 in
  let yoe := (doe - doe / 1460 + doe / 36524 - doe / 146096) / 365 in
  let doy := doe - (365 * yoe + yoe / 4 - yoe / 100) in
  let mp := (5 * doy + 2) / 153 in
  let d := doy - (153 * mp + 2) / 5 + 1 in
  let m := if mp <? 10 then mp + 3 else mp - 9 in
  let y := yoe + era * 400 in
  (if m <=? 2 then y + 1 else y, m, d).

Definition is_leap (y : Z) : bool :=
  ((y mod 4 =? 0) && negb (y mod 100 =? 0)) || (y mod 400 =? 0).

Definition days_in_month (y m : Z) : Z :=
  if m =? 2 then (if is_leap y then 29 else 28)
  else if (m =? 4) || (m =? 6) || (m =? 9) || (m =? 11) then 30
  else 31.

Definition valid_date (y m d : Z) : bool :=
  (1 <=? y) && (y <=? 9999) && (1 <=? m) && (m <=? 12) &&
  (1 <=? d) && (d <=? days_in_month y m).

Definition digit (n : Z) : ascii := ascii_of_nat (48 + Z.to_nat (n mod 10)).

(** ["%02d"] *)
Definition pad2 (n : Z) : string :=
  String (digit (n / 10)) (String (digit n) EmptyString).

(** ["%04d"] *)
Definition pad4 (n : Z) : string :=
  String (digit (n / 1000)) (String (digit (n / 100))
    (String (digit (n / 10)) (String (digit n) EmptyString))).

(** [date.isoformat()] of the day with number [n]; [datetime] only has the
    years 1 to 9999 and raises [OverflowError] outside them. *)
Definition isoformat_date (n : Z) : option string :=
  let '(y, m, d) := civil_from_days n in
  if (1 <=? y) && (y <=? 9999)
  then Some (pad4 y +:+ "-" +:+ pad2 m +:+ "-" +:+ pad2 d)
  else None.

(** Seconds east of UTC of [ZoneInfo("Asia/Kolkata")] (+05:30, the offset
    in force since 1945). *)
Definition IST_offset : Z := 19800.

(** [dt.astimezone(IST).date()] as a day number, for the instant [t]
    (seconds since 1970-01-01T00:00:00Z). *)
Definition ist_day (t : Z) : Z := (t + IST_offset) / 86400.

End Calendar.

(** ** Timestamps in the format of the upstream API

    [datetime.fromisoformat] is library code.  The model takes it as a
    parameter below; [IsoFormat.instant] is the instance used for concrete
    runs, covering [YYYY-MM-DD?HH:MM:SS[.f+](+|-)HH:MM], the shape of every
    timestamp the upstream API emits once [Z] has been replaced. *)

Module IsoFormat.

Definition digit_val (c : ascii) : option Z :=
  let n := nat_of_ascii c in
  if (Nat.leb 48 n && Nat.leb n 57)%bool then Some (Z.of_nat n - 48) else None.

(** The value of a string made of decimal digits only. *)
Fixpoint digits_acc (s : string) (acc : Z) : option Z :=
  match s with
  | EmptyString => Some acc
  | String c rest =>
      match digit_val c with
      | Some v => digits_acc rest (10 * acc + v)
      | None => None
      end
  end.

Definition number (width : nat) (s : string) : option Z :=
  if Nat.eqb (String.length s) width then
    match s with
    | EmptyString => None
    | _ => digits_acc s 0
    end
  else None.

Definition field (s : string) (start len : nat) : option Z :=
  number len (String.substring start len s).

Definition char_at (s : string) (i : nat) : option ascii := String.get i s.

Definition is_char (s : string) (i : nat) (c : ascii) : bool :=
  match char_at s i with
  | Some c' => Ascii.eqb c c'
  | None => false
  end.

(** Drops the optional fraction [.f+] in front of the offset. *)
Fixpoint skip_digits (s : string) : string :=
  match s with
  | EmptyString => EmptyString
  | String c rest =>
      match digit_val c with
      | Some _ => skip_digits rest
      | None => s
      end
  end.

Definition skip_fraction (s : string) : option string :=
  match s with
  | String "."%char (String c rest) =>
      match digit_val c with
      | Some _ => Some (skip_digits rest)
      | None => None
      end
  | String "."%char EmptyString => None
  | _ => Some s
  end.

(** [(+|-)HH:MM] as seconds east of UTC. *)
Definition offset_seconds (s : string) : option Z :=
  if Nat.eqb (String.length s) 6 && is_char s 3 ":"%char then
    match field s 1 2, field s 4 2 with
    | Some h, Some m =>
        if (h <? 24) && (m <? 60) then
          if is_char s 0 "+"%char then Some (h * 3600 + m * 60)
          else if is_char s 0 "-"%char then Some (- (h * 3600 + m * 60))
          else None
        else None
    | _, _ => None
    end
  else None.

(** The instant a timestamp denotes, in seconds since the epoch; [None]
    where [fromisoformat] raises [ValueError]. *)
Definition instant (s : string) : option Z :=
  match field s 0 4, field s 5 2, field s 8 2,
        field s 11 2, field s 14 2, field s 17 2 with
  | Some y, Some mo, Some d, Some h, Some mi, Some sec =>
      if is_char s 4 "-"%char && is_char s 7 "-"%char &&
         is_char s 13 ":"%char && is_char s 16 ":"%char &&
         (match char_at s 10 with Some _ => true | None => false end) &&
         Calendar.valid_date y mo d && (h <? 24) && (mi <? 60) && (sec <? 60)
      then
        match skip_fraction (String.substring 19 (String.length s - 19) s) with
        | Some tail =>
            match offset_seconds tail with
            | Some off =>
                Some (Calendar.days_from_civil y mo d * 86400
                      + h * 3600 + mi * 60 + sec - off)
            | None => None
            end
        | None => None
        end
      else None
  | _, _, _, _, _, _ => None
  end.

End IsoFormat.

(** ** Order snapshots (the JSON objects of the upstream API) *)

(** A monetary JSON value as [float(v or 0.0)] sees it. *)
Inductive money : Type :=
  | MoneyNone              (* key absent, [null], [''] or [0]: falsy *)
  | MoneyOf (cents : Z)    (* a number, or a string [float] accepts *)
  | MoneyBad.              (* any other value: [float] raises *)

Record transaction : Type := mk_transaction {
  t_kind : option string;
  t_amount : money;
}.

Record refund : Type := mk_refund {
  rf_created_at : option string;
  rf_transactions : list transaction;
}.

Record order : Type := mk_order {
  o_id : option Z;
  o_created_at : option string;
  o_updated_at : option string;
  o_cancelled_at : option string;
  o_total_price : money;
  o_refunds : list refund;
}.

(** [float(v or 0.0)] *)
Definition float_or_zero (v : money) : outcome Z :=
  match v with
  | MoneyNone => Returned 0
  | MoneyOf c => Returned c
  | MoneyBad => Raised ValueError
  end.

(** [str(o.get('id')) if o.get('id') else None]; the identifier is kept as
    the integer that [int(k[0])] recovers when the rows are built. *)
Definition order_oid (o : order) : option Z :=
  match o_id o with
  | Some n => if n =? 0 then None else Some n
  | None => None
  end.

(** ** The fact store [returns_fact] *)

Inductive event_type : Type := CANCEL | REFUND.

Global Instance event_type_eq_dec : EqDecision event_type.
Proof. solve_decision. Defined.

Global Instance event_type_countable : Countable event_type.
Proof.
  refine (inj_countable' (fun e => match e with CANCEL => false | REFUND => true end)
                         (fun b => if b then REFUND else CANCEL) _).
  intros []; reflexivity.
Defined.

(** PRIMARY KEY (order_id, event_type, event_date) *)
Abbreviation fact_key := (Z * event_type * string)%type.

(** ** Returns reconciliation and affected dates *)

Section Reconciliation.

(** [datetime.fromisoformat]: the instant denoted by a timestamp, [None]
    where the library raises. *)
Variable fromisoformat : string -> option Z.

Definition _parse_iso_to_ist_date (iso_ts : option string) : option string :=
  match iso_ts with
  | Some (String _ _ as s) =>
      t ← fromisoformat (PyStr.replace_Z s);
      Calendar.isoformat_date (Calendar.ist_day t)
  | _ => None
  end.

(** [kind in ('refund', 'chargeback', 'return')] after [.lower()] *)
Definition is_return_kind (t : transaction) : bool :=
  let kind := PyStr.lower (default "" (t_kind t)) in
  String.eqb kind "refund" || String.eqb kind "chargeback" || String.eqb kind "return".

(** One turn of [for t in txns]; a malformed amount is skipped. *)
Definition refund_sum_step (refund_sum : Z) (t : transaction) : Z :=
  if is_return_kind t then
    match float_or_zero (t_amount t) with
    | Returned amt => refund_sum + Z.abs amt
    | Raised _ => refund_sum
    end
  else refund_sum.

(** One turn of [for rf in refunds]. *)
Definition refund_step (oid : Z) (agg : gmap fact_key Z) (rf : refund)
  : gmap fact_key Z :=
  match _parse_iso_to_ist_date (rf_created_at rf) with
  | None => agg
  | Some rdate =>
      let refund_sum := foldl refund_sum_step 0 (rf_transactions rf) in
      if 0 <? refund_sum then
        let key := (oid, REFUND, rdate) in
        <[key := default 0 (agg !! key) + refund_sum]> agg
      else agg
  end.

(** The CANCEL part of one turn of [for o in orders_list]. *)
Definition cancel_step (oid : Z) (agg : gmap fact_key Z) (o : order)
  : outcome (gmap fact_key Z) :=
  if PyStr.truthy (o_cancelled_at o) then
    match _parse_iso_to_ist_date (o_cancelled_at o) with
    | Some d =>
        amt ← float_or_zero (o_total_price o);
        let key := (oid, CANCEL, d) in
        Returned (<[key := Z.max (default 0 (agg !! key)) amt]> agg)
    | None => Returned agg
    end
  else Returned agg.

(** One turn of [for o in orders_list]. *)
Definition reconcile_order (agg : gmap fact_key Z) (o : order)
  : outcome (gmap fact_key Z) :=
  match order_oid o with
  | None => Returned agg
  | Some oid =>
      agg' ← cancel_step oid agg o;
      Returned (foldl (refund_step oid) agg' (o_refunds o))
  end.

(** The dictionary [agg] when the loop over the batch ends. *)
Definition aggregate (orders_list : list order) : outcome (gmap fact_key Z) :=
  for_each reconcile_order orders_list ∅.

(** [(int(k[0]), k[2], k[1], round(v, 2)) for k, v in agg.items()] *)
Definition fact_rows (agg : gmap fact_key Z) : list (Z * string * event_type * Z) :=
  (fun kv : fact_key * Z =>
     let '((oid, ty, d), v) := kv in (oid, d, ty, v)) <$> map_to_list agg.

(** [INSERT ... ON DUPLICATE KEY UPDATE amount = VALUES(amount)] of one row *)
Definition upsert_fact (returns_fact : gmap fact_key Z) (row : Z * string * event_type * Z)
  : gmap fact_key Z :=
  let '(order_id, event_date, ty, amount) := row in
  <[(order_id, ty, event_date) := amount]> returns_fact.

(** [cursor.executemany(insert_sql, rows)] *)
Definition executemany_upsert (rows : list (Z * string * event_type * Z))
    (returns_fact : gmap fact_key Z) : gmap fact_key Z :=
  foldl upsert_fact returns_fact rows.

Definition upsert_returns_fact_from_orders (orders_list : list order)
    (returns_fact : gmap fact_key Z) : outcome (gmap fact_key Z) :=
  match orders_list with
  | [] => Returned returns_fact
  | _ =>
      agg ← aggregate orders_list;
      if decide (agg = ∅) then Returned returns_fact
      else Returned (executemany_upsert (fact_rows agg) returns_fact)
  end.

(** *** Date range tracking *)

Definition add_date (d : option string) (dates : gset string) : gset string :=
  match d with
  | Some d => {[d]} ∪ dates
  | None => dates
  end.

Definition add_field (field : option string) (dates : gset string) : gset string :=
  if PyStr.truthy field then add_date (_parse_iso_to_ist_date field) dates
  else dates.

(** One turn of [for o in orders_list] in [get_affected_date_range]. *)
Definition collect_dates (dates : gset string) (o : order) : gset string :=
  let dates := add_field (o_created_at o) dates in
  let dates := add_field (o_updated_at o) dates in
  let dates := add_field (o_cancelled_at o) dates in
  foldl (fun ds rf => add_date (_parse_iso_to_ist_date (rf_created_at rf)) ds)
        dates (o_refunds o).

Definition str_min (a b : string) : string := if String.leb a b then a else b.
Definition str_max (a b : string) : string := if String.leb a b then b else a.

(** [min(dates)] and [max(dates)] of a set of strings *)
Definition py_min (dates : gset string) : option string :=
  match elements dates with
  | [] => None
  | d :: ds => Some (foldl str_min d ds)
  end.

Definition py_max (dates : gset string) : option string :=
  match elements dates with
  | [] => None
  | d :: ds => Some (foldl str_max d ds)
  end.

Definition get_affected_date_range (orders_list : list order)
  : option string * option string :=
  match orders_list with
  | [] => (None, None)
  | _ =>
      let dates := foldl collect_dates ∅ orders_list in
      if decide (dates = ∅) then (None, None)
      else (py_min dates, py_max dates)
  end.

End Reconciliation.

(** ** Fetching orders from the upstream API *)

Module Fetcher.

(** The [Retry-After] header as [int(headers.get('Retry-After', 2))] sees it. *)
Inductive retry_after : Type :=
  | RetryAbsent
  | RetrySeconds (n : Z)
  | RetryBad.              (* a value [int] rejects *)

(** What one [session.get] produces: a response, or an exception of the
    client (time-out, connection reset). *)
Inductive reply : Type :=
  | Response (status : Z) (retry : retry_after)
             (orders : option (list order))   (* [None]: the body is not JSON *)
             (link : string)                  (* [headers.get('Link', '')] *)
  | ClientError.

(** What the coroutine does to the outside world. *)
Inductive action : Type :=
  | Get (url access_token : string)
  | Sleep (milliseconds : Z).

Definition dquote : ascii := ascii_of_nat 34.

(** The text [rel="next"] *)
Definition rel_next : string :=
  "rel=" +:+ String dquote ("next" +:+ String dquote EmptyString).

(** [for part in link_header.split(','): if 'rel="next"' in part: ...] *)
Fixpoint first_next (parts : list string) : option string :=
  match parts with
  | [] => None
  | part :: rest =>
      if PyStr.contains rel_next part
      then Some (PyStr.strip ["<"%char; ">"%char; " "%char]
                   (hd EmptyString (PyStr.split ";"%char part)))
      else first_next rest
  end.

(** The value of [url] after the [Link] header has been read. *)
Definition next_url (link_header : string) : option string :=
  if PyStr.contains rel_next link_header
  then first_next (PyStr.split ","%char link_header)
  else None.

Definition fields : string :=
  "id,name,created_at,updated_at,cancelled_at,total_price,financial_status," +:+
  "payment_gateway_names,app_id,refunds,refunds/created_at,refunds/transactions," +:+
  "refunds/transactions/amount,refunds/transactions/kind,refunds/transactions/status".

Definition first_url (api_base_url start_date end_date date_filter_field : string) : string :=
  let date_filter_field_max := PyStr.replace "_min" "_max" date_filter_field in
  api_base_url +:+ "/orders.json?status=any&limit=250" +:+
  "&" +:+ date_filter_field +:+ "=" +:+ start_date +:+
  "&" +:+ date_filter_field_max +:+ "=" +:+ end_date +:+
  "&fields=" +:+ fields.

(** [while url: ...].  The environment is the list of replies the client
    obtains, one per request, in order; [None] means the loop is still
    running when the replies are used up.  The trace is kept in reverse. *)
Fixpoint fetch_loop (access_token : string) (replies : list reply)
    (url : option string) (order_list : list order) (trace : list action)
  : option (list order * list action) :=
  if negb (PyStr.truthy url) then Some (order_list, trace)
  else
    match replies with
    | [] => None
    | r :: replies' =>
        let trace := Get (default "" url) access_token :: trace in
        match r with
        | ClientError => Some (order_list, trace)
        | Response status retry orders link =>
            if status =? 429 then
              match retry with
              | RetryBad => Some (order_list, trace)
              | RetryAbsent =>
                  fetch_loop access_token replies' url order_list (Sleep 2000 :: trace)
              | RetrySeconds n =>
                  fetch_loop access_token replies' url order_list
                             (Sleep (1000 * n) :: trace)
              end
            else if negb (status =? 200) then Some (order_list, trace)
            else
              match orders with
              | None => Some (order_list, trace)
              | Some [] => Some (order_list, trace)
              | Some page =>
                  fetch_loop access_token replies' (next_url link)
                             (order_list ++ page) (Sleep 500 :: trace)
              end
        end
    end.

Definition fetch_orders_async (api_base_url access_token start_date end_date
    date_filter_field : string) (replies : list reply)
  : option (list order * list action) :=
  match fetch_loop access_token replies
          (Some (first_url api_base_url start_date end_date date_filter_field)) [] [] with
  | Some (order_list, trace) => Some (order_list, rev trace)
  | None => None
  end.

End Fetcher.

(** ** Rows of [shopify_orders] and [shopify_orders_update]

    Only the columns the pipeline reads back are kept.  A [DATETIME] is the
    number of seconds its wall-clock reading lies after 1970-01-01 00:00:00;
    a money column is in cents; [NULL] is [None]. *)

Record order_row : Type := mk_order_row {
  order_id : option string;
  created_at : option Z;
  updated_at : option Z;
  created_date : option string;
  created_time : option string;
  updated_date : option string;
  order_app_name : option string;
  financial_status : option string;
  payment_gateway_names : option string;
  total_price : option Z;
  discount_amount : option Z;
  line_item_quantity : option Z;
  line_item_price : option Z;
  shipping_price : option Z;
  total_tax : option Z;
}.

(** ** Fetch windows and boundary duplicates ([process_single_brand]) *)

Module Window.

(** A Python [datetime]: its wall-clock reading, and its UTC offset in
    seconds when it is aware. *)
Record datetime : Type := mk_datetime {
  dt_wall : Z;
  dt_utcoffset : option Z;
}.

(** [dt + timedelta(seconds=n)] *)
Definition add_seconds (dt : datetime) (n : Z) : datetime :=
  mk_datetime (dt_wall dt + n) (dt_utcoffset dt).

(** [datetime.now(IST)] at the instant [t] *)
Definition now_ist (t : Z) : datetime :=
  mk_datetime (t + Calendar.IST_offset) (Some Calendar.IST_offset).

(** The value a [DATETIME] column yields: a naive [datetime]. *)
Definition naive (wall : Z) : datetime := mk_datetime wall None.

(** ["%z"] *)
Definition strftime_z (off : option Z) : string :=
  match off with
  | None => EmptyString
  | Some o =>
      (if o <? 0 then "-" else "+") +:+
      Calendar.pad2 (Z.abs o / 3600) +:+ Calendar.pad2 (Z.abs o mod 3600 / 60)
  end.

(** [dt.strftime('%Y-%m-%dT%H:%M:%S%z')] *)
Definition strftime_iso (dt : datetime) : string :=
  let '(y, m, d) := Calendar.civil_from_days (dt_wall dt / 86400) in
  let secs := dt_wall dt mod 86400 in
  Calendar.pad4 y +:+ "-" +:+ Calendar.pad2 m +:+ "-" +:+ Calendar.pad2 d +:+ "T" +:+
  Calendar.pad2 (secs / 3600) +:+ ":" +:+ Calendar.pad2 (secs mod 3600 / 60) +:+ ":" +:+
  Calendar.pad2 (secs mod 60) +:+ strftime_z (dt_utcoffset dt).

Definition convert_to_desired_format (dt_obj : datetime) : string :=
  PyStr.take 22 (strftime_iso dt_obj) +:+ "%2B05:30".

(** The backfill switches as the environment gives them, the two bounds
    already through [_parse_backfill_dt]. *)
Record backfill_env : Type := mk_backfill_env {
  env_BACKFILL_MODE : bool;
  BACKFILL_START_IST : option datetime;
  BACKFILL_END_IST : option datetime;
}.

(** [BACKFILL_MODE] once the module has validated the bounds. *)
Definition BACKFILL_MODE (env : backfill_env) : bool :=
  if env_BACKFILL_MODE env then
    match BACKFILL_START_IST env, BACKFILL_END_IST env with
    | Some s, Some e => if dt_wall e <=? dt_wall s then false else true
    | _, _ => false
    end
  else false.

Inductive feed : Type := NEW | UPDATED.

(** [timestamp_col], read from a row *)
Definition timestamp_col (f : feed) (row : order_row) : option Z :=
  match f with
  | NEW => created_at row
  | UPDATED => updated_at row
  end.

(** Whether the statement a cursor is about to run succeeds. *)
Inductive cursor : Type := Healthy | Failing.

(** [cursor.execute(select); cursor.fetchall()] *)
Definition select_where (c : cursor) (p : order_row -> bool) (table : list order_row)
  : outcome (list order_row) :=
  match c with
  | Healthy => Returned (List.filter p table)
  | Failing => Raised DatabaseError
  end.

Definition same_timestamp (f : feed) (timestamp_value : Z) (row : order_row) : bool :=
  match timestamp_col f row with
  | Some t => t =? timestamp_value
  | None => false
  end.

Definition get_orders_with_same_timestamp (c : cursor) (table : list order_row)
    (timestamp_value : Z) (f : feed) : gset (option string) :=
  match select_where c (same_timestamp f timestamp_value) table with
  | Returned rows => list_to_set (order_id <$> rows)
  | Raised _ => ∅
  end.

(** [ORDER BY col DESC LIMIT 1]: a row with the greatest timestamp, a
    [NULL] timestamp ordering below every value. *)
Definition later (f : feed) (best : option order_row) (row : order_row)
  : option order_row :=
  match best with
  | None => Some row
  | Some b =>
      match timestamp_col f b, timestamp_col f row with
      | Some tb, Some tr => if tb <? tr then Some row else best
      | None, Some _ => Some row
      | _, None => best
      end
  end.

Definition get_last_order (c : cursor) (table : list order_row) (f : feed)
  : option order_row :=
  match select_where c (fun _ => true) table with
  | Returned rows => foldl (later f) None rows
  | Raised _ => None
  end.

(** [r] carries a timestamp at least as late as the one of [r']. *)
Definition dominates (f : feed) (r r' : order_row) : Prop :=
  ∀ t', timestamp_col f r' = Some t' → ∃ t, timestamp_col f r = Some t ∧ t' <= t.

(** The window of one feed, with the identifiers to drop after the fetch;
    [start_dt] and [end_dt] are the two datetimes that are formatted into
    [start_date] and [end_date]. *)
Record window : Type := mk_window {
  start_dt : datetime;
  end_dt : datetime;
  existing_ids : gset (option string);
}.

Definition start_date (w : window) : string := convert_to_desired_format (start_dt w).
Definition end_date (w : window) : string := convert_to_desired_format (end_dt w).

(** The head of one turn of [for process in process_types], up to the call
    of [fetch_orders]: [Returned None] is the [continue] of a feed without
    initial data.  [c_last] and [c_same] say whether the two reads succeed. *)
Definition feed_window (env : backfill_env) (now : Z) (f : feed)
    (c_last c_same : cursor) (table : list order_row) : outcome (option window) :=
  let last_order := get_last_order c_last table f in
  if BACKFILL_MODE env then
    match BACKFILL_START_IST env, BACKFILL_END_IST env with
    | Some s, Some e => Returned (Some (mk_window s e ∅))
    | _, _ => Returned None
    end
  else
    match last_order with
    | None => Returned None
    | Some row =>
        match timestamp_col f row with
        | None => Raised TypeError
        | Some last_ts =>
            let next_ts := add_seconds (naive last_ts) 1 in
            Returned (Some (mk_window next_ts (now_ist now)
              (get_orders_with_same_timestamp c_same table last_ts f)))
        end
    end.

(** [str(o.get('id'))] *)
Definition str_id (o : order) : string :=
  match o_id o with
  | Some n => pretty n
  | None => "None"
  end.

(** [[o for o in orders_list if str(o.get('id')) not in existing_ids]
     if existing_ids else orders_list] *)
Definition dedup (existing_ids : gset (option string)) (orders_list : list order)
  : list order :=
  if decide (existing_ids = ∅) then orders_list
  else List.filter (fun o => bool_decide (Some (str_id o) ∉ existing_ids)) orders_list.

Section Persist.

(** The flattening of snapshots into rows, left abstract. *)
Variable transform_orders_to_df_optimized : list order -> list order_row.

(** [df.to_sql(..., if_exists='append')] *)
Definition load_data_to_sql_optimized (df : list order_row) (table : list order_row)
  : list order_row := table ++ df.

(** One feed from the window to the load: the snapshots kept by the
    duplicate filter and the table after the load.  A feed without a
    window, without fetched orders or without new orders leaves the
    table alone. *)
Definition process_feed (env : backfill_env) (now : Z) (f : feed)
    (c_last c_same : cursor) (fetched : list order) (table : list order_row)
  : outcome (list order * list order_row) :=
  w ← feed_window env now f c_last c_same table;
  match w with
  | None => Returned ([], table)
  | Some w =>
      match fetched with
      | [] => Returned ([], table)
      | _ =>
          match dedup (existing_ids w) fetched with
          | [] => Returned ([], table)
          | filtered =>
              Returned (filtered,
                load_data_to_sql_optimized
                  (transform_orders_to_df_optimized filtered) table)
          end
      end
  end.

End Persist.

End Window.

(** ** Incremental summary tables *)

Module Summary.

(** *** SQL expressions *)

(** [x BETWEEN lo AND hi] on ISO dates *)
Definition between (lo hi x : string) : bool := String.leb lo x && String.leb x hi.

Definition in_range (lo hi : string) (x : option string) : option string :=
  match x with
  | Some d => if between lo hi d then Some d else None
  | None => None
  end.

(** [COALESCE(v, 0)] *)
Definition coalesce (v : option Z) : Z := default 0 v.

(** [text LIKE pattern]: [%] stands for any run of characters and [_] for
    any single one. *)
Fixpoint like_chars (pattern text : list ascii) : bool :=
  match pattern with
  | [] => match text with [] => true | _ => false end
  | p :: pattern' =>
      if Ascii.eqb p "%"%char then
        (fix any_run (t : list ascii) : bool :=
           like_chars pattern' t ||
           match t with
           | [] => false
           | _ :: t' => any_run t'
           end) text
      else
        match text with
        | [] => false
        | c :: text' =>
            (Ascii.eqb p "_"%char || Ascii.eqb p c) && like_chars pattern' text'
        end
  end.

Definition like (text : option string) (pattern : string) : bool :=
  match text with
  | Some t => like_chars (list_ascii_of_string pattern) (list_ascii_of_string t)
  | None => false
  end.

(** [col = 'literal'], false on [NULL] *)
Definition equals (col : option string) (literal : string) : bool :=
  match col with
  | Some s => String.eqb s literal
  | None => false
  end.

(** [SUM(val) ... GROUP BY key]: the groups that exist, with their sums;
    rows whose key is [None] are the ones the [WHERE] clause rejects. *)
Definition group_sum {R K : Type} `{Countable K} (key : R -> option K) (val : R -> Z)
    (rows : list R) : gmap K Z :=
  foldr (fun r acc =>
           match key r with
           | Some k => <[k := default 0 (acc !! k) + val r]> acc
           | None => acc
           end) ∅ rows.

(** The keys of the groups of [... GROUP BY key]. *)
Definition group_keys {R K : Type} `{Countable K} (key : R -> option K) (rows : list R)
  : gset K := list_to_set (omap key rows).

(** The rows of the group [k]. *)
Definition group_rows {R K : Type} `{Countable K} (key : R -> option K) (k : K)
    (rows : list R) : list R :=
  List.filter (fun r => bool_decide (key r = Some k)) rows.

(** [SUM(val)] over a list of rows *)
Definition sum_of {R : Type} (val : R -> Z) (rows : list R) : Z :=
  foldr (fun r acc => val r + acc) 0 rows.

(** [COUNT(DISTINCT CASE WHEN cond THEN order_id END)] *)
Definition count_distinct (cond : order_row -> bool) (rows : list order_row) : Z :=
  Z.of_nat (length (remove_dups (omap order_id (List.filter cond rows)))).

(** A [DECIMAL(12,2)] column receiving [n / 100] cents: rounded half away
    from zero. *)
Definition round_hundredth (n : Z) : Z :=
  Z.sgn n * ((Z.abs n + 50) / 100).

(** [HOUR(created_time)] of a ['HH:MM:SS'] text *)
Definition sql_hour (t : string) : option Z :=
  match IsoFormat.field t 0 2 with
  | Some h => if IsoFormat.is_char t 2 ":"%char then Some h else None
  | None => None
  end.

(** *** Rows of the summary tables (the key column apart) *)

Record channel_figures : Type := mk_figures {
  cf_sales : Z;
  cf_returns : Z;
  cf_actual : Z;
}.

Record sales_summary_row : Type := mk_sales_summary_row {
  ss_gokwik : channel_figures;
  ss_KwikEngage : channel_figures;
  ss_online_store : channel_figures;
  ss_hypd_store : channel_figures;
  ss_draft_order : channel_figures;
  ss_dpanda : channel_figures;
  ss_gkappbrew : channel_figures;
  ss_buykaro : channel_figures;
  ss_appbrewplus : channel_figures;
  ss_overall_WO_hypd : channel_figures;
  overall_sales : Z;
  overall_returns : Z;
  actual_overall_sales : Z;
}.

Record order_summary_row : Type := mk_order_summary_row {
  number_of_orders_created : Z;
  number_of_orders_returned : Z;
  actual_number_of_orders : Z;
  os_cod_orders : Z;
  os_prepaid_orders : Z;
  os_partially_paid_orders : Z;
  overall_cod_orders : Z;
  overall_prepaid_orders : Z;
  overall_partially_paid_orders : Z;
}.

Record discount_summary_row : Type := mk_discount_summary_row {
  total_discounts_given : Z;
  total_discount_on_returns : Z;
  ds_actual_discounts : Z;
}.

Record gross_summary_row : Type := mk_gross_summary_row {
  overall_sale : Z;
  shipping_total : Z;
  discounts_total : Z;
  tax_total : Z;
  gs_gross_sales : Z;
  gs_actual_discounts : Z;
  gs_net_sales : Z;
}.

Record hour_wise_sales_row : Type := mk_hour_wise_sales_row {
  number_of_orders : Z;
  hw_total_sales : Z;
  number_of_prepaid_orders : Z;
  number_of_cod_orders : Z;
  hw_number_of_sessions : Z;
  hw_number_of_atc_sessions : Z;
}.

Record overall_summary_row : Type := mk_overall_summary_row {
  ov_gross_sales : Z;
  total_discount_amount : Z;
  ov_total_sales : Z;
  ov_net_sales : Z;
  total_orders : Z;
  ov_cod_orders : Z;
  ov_prepaid_orders : Z;
  ov_partially_paid_orders : Z;
  total_sessions : Z;
  total_atc_sessions : Z;
  adjusted_total_sessions : Z;
}.

Record sessions_row : Type := mk_sessions_row {
  number_of_sessions : option Z;
  number_of_atc_sessions : option Z;
  adjusted_number_of_sessions : option Z;
}.

Record hourly_sessions_row : Type := mk_hourly_sessions_row {
  hs_number_of_sessions : option Z;
  hs_number_of_atc_sessions : option Z;
}.

(** *** The database of one brand *)

Record db : Type := mk_db {
  shopify_orders : list order_row;
  shopify_orders_update : list order_row;
  returns_fact : gmap fact_key Z;
  sessions_summary : gmap string sessions_row;
  hourly_sessions_summary : gmap (string * Z) hourly_sessions_row;
  sales_summary : gmap string sales_summary_row;
  order_summary : gmap string order_summary_row;
  discount_summary : gmap string discount_summary_row;
  gross_summary : gmap string gross_summary_row;
  hour_wise_sales : gmap (string * Z) hour_wise_sales_row;
  overall_summary : gmap string overall_summary_row;
}.

Definition with_sales_summary (t : gmap string sales_summary_row) (s : db) : db :=
  mk_db (shopify_orders s) (shopify_orders_update s) (returns_fact s)
        (sessions_summary s) (hourly_sessions_summary s)
        t (order_summary s) (discount_summary s) (gross_summary s)
        (hour_wise_sales s) (overall_summary s).

Definition with_order_summary (t : gmap string order_summary_row) (s : db) : db :=
  mk_db (shopify_orders s) (shopify_orders_update s) (returns_fact s)
        (sessions_summary s) (hourly_sessions_summary s)
        (sales_summary s) t (discount_summary s) (gross_summary s)
        (hour_wise_sales s) (overall_summary s).

Definition with_discount_summary (t : gmap string discount_summary_row) (s : db) : db :=
  mk_db (shopify_orders s) (shopify_orders_update s) (returns_fact s)
        (sessions_summary s) (hourly_sessions_summary s)
        (sales_summary s) (order_summary s) t (gross_summary s)
        (hour_wise_sales s) (overall_summary s).

Definition with_gross_summary (t : gmap string gross_summary_row) (s : db) : db :=
  mk_db (shopify_orders s) (shopify_orders_update s) (returns_fact s)
        (sessions_summary s) (hourly_sessions_summary s)
        (sales_summary s) (order_summary s) (discount_summary s) t
        (hour_wise_sales s) (overall_summary s).

Definition with_hour_wise_sales (t : gmap (string * Z) hour_wise_sales_row) (s : db) : db :=
  mk_db (shopify_orders s) (shopify_orders_update s) (returns_fact s)
        (sessions_summary s) (hourly_sessions_summary s)
        (sales_summary s) (order_summary s) (discount_summary s) (gross_summary s)
        t (overall_summary s).

Definition with_overall_summary (t : gmap string overall_summary_row) (s : db) : db :=
  mk_db (shopify_orders s) (shopify_orders_update s) (returns_fact s)
        (sessions_summary s) (hourly_sessions_summary s)
        (sales_summary s) (order_summary s) (discount_summary s) (gross_summary s)
        (hour_wise_sales s) t.

(** *** DELETE and INSERT *)

(** [DELETE FROM t WHERE date BETWEEN lo AND hi], [date_of] reading the
    date off the primary key. *)
Definition delete_between {K V : Type} `{Countable K} (date_of : K -> string)
    (lo hi : string) (t : gmap K V) : gmap K V :=
  filter (fun kv => between lo hi (date_of kv.1) = false) t.

(** The result set of a query that yields the row [row k] for every key
    of [keys]. *)
Definition result_set {K V : Type} `{Countable K} (keys : gset K) (row : K -> V)
  : gmap K V := set_to_map (fun k => (k, row k)) keys.

(** [INSERT INTO t ... SELECT ...]: the selected rows join the table. *)
Definition insert_rows {K V : Type} `{Countable K} (rows t : gmap K V) : gmap K V :=
  rows ∪ t.

(** *** The six queries *)

Section Queries.

Variables min_date max_date : string.
Variable s : db.

(** [WHERE created_date BETWEEN %s AND %s ... GROUP BY date] *)
Definition created_key (r : order_row) : option string :=
  in_range min_date max_date (created_date r).

(** [financial_status NOT IN ('paid', 'pending')], false on [NULL] *)
Definition not_paid_or_pending (r : order_row) : bool :=
  match financial_status r with
  | Some f => negb (String.eqb f "paid") && negb (String.eqb f "pending")
  | None => false
  end.

(** [WHERE financial_status NOT IN ('paid', 'pending')
     AND updated_date BETWEEN %s AND %s ... GROUP BY date] *)
Definition returned_key (r : order_row) : option string :=
  if not_paid_or_pending r then in_range min_date max_date (updated_date r)
  else None.

(** [WHERE event_type = 'REFUND' AND event_date BETWEEN %s AND %s
     GROUP BY event_date] *)
Definition refund_key (fact : fact_key * Z) : option string :=
  match fact with
  | ((_, REFUND, event_date), _) => in_range min_date max_date (Some event_date)
  | ((_, CANCEL, _), _) => None
  end.

(** [CASE WHEN order_app_name = name THEN total_price ELSE 0 END] *)
Definition channel_price (name : string) (r : order_row) : Z :=
  if equals (order_app_name r) name then coalesce (total_price r) else 0.

Definition SalesData (name : string) : gmap string Z :=
  group_sum created_key (channel_price name) (shopify_orders s).

Definition ReturnsData (name : string) : gmap string Z :=
  group_sum returned_key (channel_price name) (shopify_orders_update s).

Definition RefundsByDate : gmap string Z :=
  group_sum refund_key snd (map_to_list (returns_fact s)).

Definition AllDates : gset string :=
  group_keys created_key (shopify_orders s)
  ∪ group_keys returned_key (shopify_orders_update s)
  ∪ group_keys refund_key (map_to_list (returns_fact s)).

Definition figures (name : string) (d : string) : channel_figures :=
  let sales := coalesce (SalesData name !! d) in
  let returns := coalesce (ReturnsData name !! d) in
  mk_figures sales returns (sales - returns).

(** The row the final [SELECT] of [update_sales_summary_incremental]
    yields for the date [d] of [AllDates]. *)
Definition sales_summary_select (d : string) : sales_summary_row :=
  let gokwik := figures "GoKwik" d in
  let kwik_engage := figures "KwikEngage" d in
  let online_store := figures "Online Store" d in
  let hypd_store := figures "HYPD_store" d in
  let draft_order := figures "Draft Order" d in
  let dpanda := figures "Dpanda" d in
  let gkappbrew := figures "GKAppbrew" d in
  let buykaro := figures "BuyKaro" d in
  let appbrewplus := figures "AppbrewPlus" d in
  let sales_WO_hypd :=
    cf_sales gokwik + cf_sales kwik_engage + cf_sales online_store
    + cf_sales draft_order + cf_sales dpanda + cf_sales gkappbrew
    + cf_sales buykaro + cf_sales appbrewplus in
  let returns_WO_hypd :=
    cf_returns gokwik + cf_returns kwik_engage + cf_returns online_store
    + cf_returns draft_order + cf_returns dpanda + cf_returns gkappbrew
    + cf_returns buykaro + cf_returns appbrewplus in
  let all_sales :=
    cf_sales gokwik + cf_sales kwik_engage + cf_sales online_store
    + cf_sales draft_order + cf_sales hypd_store + cf_sales dpanda
    + cf_sales gkappbrew + cf_sales buykaro + cf_sales appbrewplus in
  mk_sales_summary_row gokwik kwik_engage online_store hypd_store draft_order
    dpanda gkappbrew buykaro appbrewplus
    (mk_figures sales_WO_hypd returns_WO_hypd (sales_WO_hypd - returns_WO_hypd))
    all_sales
    (coalesce (RefundsByDate !! d))
    (all_sales - coalesce (RefundsByDate !! d)).

Definition delete_sales_summary : db :=
  with_sales_summary (delete_between id min_date max_date (sales_summary s)) s.

Definition insert_sales_summary : db :=
  with_sales_summary
    (insert_rows (result_set AllDates sales_summary_select) (sales_summary s)) s.

(** [order_summary] *)

Definition cod_pattern : string := "%Cash on Delivery (COD)%".
Definition cash_pattern : string := "%cash_on_delivery%".
Definition ppcod_pattern : string := "%Gokwik PPCOD%".

Definition is_cod (r : order_row) : bool :=
  let p := payment_gateway_names r in
  match p with
  | None => true
  | Some _ => equals p "" || like p cod_pattern || like p cash_pattern
  end.

Definition is_prepaid (r : order_row) : bool :=
  let p := payment_gateway_names r in
  match p with
  | None => false
  | Some _ =>
      negb (equals p "")
      && negb (like p cod_pattern || like p cash_pattern || like p ppcod_pattern)
  end.

Definition is_partially_paid (r : order_row) : bool :=
  like (payment_gateway_names r) ppcod_pattern.

Definition any_row (r : order_row) : bool := true.

Definition order_summary_dates : gset string :=
  group_keys created_key (shopify_orders s)
  ∪ group_keys returned_key (shopify_orders_update s).

Definition order_summary_select (d : string) : order_summary_row :=
  let created := group_rows created_key d (shopify_orders s) in
  let returned := group_rows returned_key d (shopify_orders_update s) in
  let orders_created := count_distinct any_row created in
  let orders_returned := count_distinct any_row returned in
  let cod_created := count_distinct is_cod created in
  let cod_returned := count_distinct is_cod returned in
  let prepaid_created := count_distinct is_prepaid created in
  let prepaid_returned := count_distinct is_prepaid returned in
  let partially_paid_created := count_distinct is_partially_paid created in
  let partially_paid_returned := count_distinct is_partially_paid returned in
  mk_order_summary_row orders_created orders_returned
    (orders_created - orders_returned)
    (cod_created - cod_returned)
    (prepaid_created - prepaid_returned)
    (partially_paid_created - partially_paid_returned)
    cod_created prepaid_created partially_paid_created.

Definition delete_order_summary : db :=
  with_order_summary (delete_between id min_date max_date (order_summary s)) s.

Definition insert_order_summary : db :=
  with_order_summary
    (insert_rows (result_set order_summary_dates order_summary_select)
                 (order_summary s)) s.

(** [discount_summary] *)

Definition discount_of (r : order_row) : Z := coalesce (discount_amount r).

Definition DiscountsGiven : gmap string Z :=
  group_sum created_key discount_of (shopify_orders s).

Definition DiscountsReturned : gmap string Z :=
  group_sum returned_key discount_of (shopify_orders_update s).

Definition discount_summary_dates : gset string :=
  group_keys created_key (shopify_orders s)
  ∪ group_keys returned_key (shopify_orders_update s).

Definition discount_summary_select (d : string) : discount_summary_row :=
  let given := coalesce (DiscountsGiven !! d) in
  let returned := coalesce (DiscountsReturned !! d) in
  mk_discount_summary_row given returned (given - returned).

Definition delete_discount_summary : db :=
  with_discount_summary
    (delete_between id min_date max_date (discount_summary s)) s.

Definition insert_discount_summary : db :=
  with_discount_summary
    (insert_rows (result_set discount_summary_dates discount_summary_select)
                 (discount_summary s)) s.

(** [gross_summary]; it reads [discount_summary] *)

Definition line_total (r : order_row) : Z :=
  coalesce (line_item_quantity r) * coalesce (line_item_price r).

Definition gross_summary_dates : gset string :=
  group_keys created_key (shopify_orders s).

Definition gross_summary_select (d : string) : gross_summary_row :=
  let sale := coalesce (group_sum created_key line_total (shopify_orders s) !! d) in
  let shipping :=
    coalesce (group_sum created_key (fun r => coalesce (shipping_price r))
                        (shopify_orders s) !! d) in
  let tax :=
    coalesce (group_sum created_key (fun r => coalesce (total_tax r))
                        (shopify_orders s) !! d) in
  let ds := discount_summary s !! d in
  let actual := coalesce (ds_actual_discounts <$> ds) in
  mk_gross_summary_row sale shipping
    (coalesce (total_discounts_given <$> ds))
    tax
    (round_hundredth (sale * 84))
    actual
    (round_hundredth (sale * 84 - actual * 100)).

Definition delete_gross_summary : db :=
  with_gross_summary (delete_between id min_date max_date (gross_summary s)) s.

Definition insert_gross_summary : db :=
  with_gross_summary
    (insert_rows (result_set gross_summary_dates gross_summary_select)
                 (gross_summary s)) s.

(** [hour_wise_sales]; it reads [hourly_sessions_summary].  The key
    (date, hour) is [NOT NULL]: a row whose [created_time] has no hour
    cannot be inserted and has no group here. *)

Definition hourly_key (r : order_row) : option (string * Z) :=
  match created_key r, created_time r with
  | Some d, Some t =>
      match sql_hour t with
      | Some h => Some (d, h)
      | None => None
      end
  | _, _ => None
  end.

Definition hw_is_cod (r : order_row) : bool :=
  like (payment_gateway_names r) cod_pattern
  || like (payment_gateway_names r) cash_pattern.

Definition hw_is_prepaid (r : order_row) : bool :=
  let p := payment_gateway_names r in
  match p with
  | None => false
  | Some _ => negb (equals p "") && negb (like p cod_pattern || like p cash_pattern)
  end.

Definition hour_wise_sales_keys : gset (string * Z) :=
  group_keys hourly_key (shopify_orders s).

Definition hour_wise_sales_select (k : string * Z) : hour_wise_sales_row :=
  let rows := group_rows hourly_key k (shopify_orders s) in
  let ss := hourly_sessions_summary s !! k in
  mk_hour_wise_sales_row
    (count_distinct any_row rows)
    (sum_of (fun r => coalesce (total_price r)) rows)
    (count_distinct hw_is_prepaid rows)
    (count_distinct hw_is_cod rows)
    (coalesce (ss ≫= hs_number_of_sessions))
    (coalesce (ss ≫= hs_number_of_atc_sessions)).

Definition delete_hour_wise_sales : db :=
  with_hour_wise_sales
    (delete_between fst min_date max_date (hour_wise_sales s)) s.

Definition insert_hour_wise_sales : db :=
  with_hour_wise_sales
    (insert_rows (result_set hour_wise_sales_keys hour_wise_sales_select)
                 (hour_wise_sales s)) s.

(** [overall_summary]; it reads the five tables above and
    [sessions_summary] *)

Definition overall_summary_dates : gset string :=
  filter (fun d => between min_date max_date d = true) (dom (sales_summary s)).

Definition overall_summary_select (d : string) : overall_summary_row :=
  let sales := sales_summary s !! d in
  let o := order_summary s !! d in
  let sess := sessions_summary s !! d in
  let gs := gross_summary s !! d in
  let ds := discount_summary s !! d in
  mk_overall_summary_row
    (coalesce (gs_gross_sales <$> gs))
    (coalesce (ds_actual_discounts <$> ds))
    (coalesce (actual_overall_sales <$> sales))
    (coalesce (gs_net_sales <$> gs))
    (coalesce (number_of_orders_created <$> o))
    (coalesce (overall_cod_orders <$> o))
    (coalesce (overall_prepaid_orders <$> o))
    (coalesce (overall_partially_paid_orders <$> o))
    (coalesce (sess ≫= number_of_sessions))
    (coalesce (sess ≫= number_of_atc_sessions))
    (default (coalesce (sess ≫= number_of_sessions))
             (sess ≫= adjusted_number_of_sessions)).

Definition delete_overall_summary : db :=
  with_overall_summary
    (delete_between id min_date max_date (overall_summary s)) s.

Definition insert_overall_summary : db :=
  with_overall_summary
    (insert_rows (result_set overall_summary_dates overall_summary_select)
                 (overall_summary s)) s.

End Queries.

(** *** The update functions and the run *)

(** A statement sent through the cursor; with [autocommit=1] its effect
    stays when a later statement fails. *)
Definition statement : Type := db -> db.

Definition update_sales_summary_incremental (min_date max_date : string)
  : list statement :=
  [delete_sales_summary min_date max_date; insert_sales_summary min_date max_date].

Definition update_order_summary_incremental (min_date max_date : string)
  : list statement :=
  [delete_order_summary min_date max_date; insert_order_summary min_date max_date].

Definition update_discount_summary_incremental (min_date max_date : string)
  : list statement :=
  [delete_discount_summary min_date max_date;
   insert_discount_summary min_date max_date].

Definition update_gross_summary_incremental (min_date max_date : string)
  : list statement :=
  [delete_gross_summary min_date max_date; insert_gross_summary min_date max_date].

Definition update_hour_wise_sales_incremental (min_date max_date : string)
  : list statement :=
  [delete_hour_wise_sales min_date max_date;
   insert_hour_wise_sales min_date max_date].

(** The third statement of the function,
    [INSERT INTO overall_summary (date) SELECT NULL WHERE FALSE], selects no
    row and sits in a [try] that swallows its failure: it changes nothing
    and is left out. *)
Definition update_overall_summary_incremental (min_date max_date : string)
  : list statement :=
  [delete_overall_summary min_date max_date;
   insert_overall_summary min_date max_date].

(** The statements in the order [execute_summary_queries_incremental]
    sends them. *)
Definition summary_statements (min_date max_date : string) : list statement :=
  update_sales_summary_incremental min_date max_date
  ++ update_order_summary_incremental min_date max_date
  ++ update_discount_summary_incremental min_date max_date
  ++ update_gross_summary_incremental min_date max_date
  ++ update_hour_wise_sales_incremental min_date max_date
  ++ update_overall_summary_incremental min_date max_date.

(** Sends the statements in turn.  [healthy_for] is the number of
    statements the server still accepts ([None]: all of them); the first
    statement it rejects (connection lost, a value the column cannot hold)
    raises and has no effect of its own. *)
Fixpoint execute_all (stmts : list statement) (healthy_for : option nat) (s : db)
  : db * outcome unit :=
  match stmts with
  | [] => (s, Returned tt)
  | stmt :: rest =>
      match healthy_for with
      | Some O => (s, Raised DatabaseError)
      | Some (S n) => execute_all rest (Some n) (stmt s)
      | None => execute_all rest None (stmt s)
      end
  end.

(** [try: ... except Exception: log]; the outcome is the database the
    run leaves behind. *)
Definition execute_summary_queries_incremental (healthy_for : option nat)
    (min_date max_date : option string) (s : db) : db :=
  if PyStr.truthy min_date && PyStr.truthy max_date then
    fst (execute_all (summary_statements (default "" min_date) (default "" max_date))
                     healthy_for s)
  else s.

End Summary.

(** ** Reference definitions

    What the specification says the reconciler and the range accumulator
    compute, written over the batch as a whole; the theorems below relate
    them to the loops of the code. *)

Definition sumZ (l : list Z) : Z := foldr Z.add 0 l.

(** The amount a well-formed monetary value stands for. *)
Definition price_cents (m : money) : Z :=
  match m with
  | MoneyOf c => c
  | _ => 0
  end.

Definition well_formed (m : money) : Prop := m ≠ MoneyBad.

Section Reference.

Variable fromisoformat : string -> option Z.

(** The IST calendar date of a timestamp field. *)
Definition ist_date (field : option string) : option string :=
  _parse_iso_to_ist_date fromisoformat field.

(** The monetary magnitude of a transaction classified as refund,
    chargeback or return; nothing for any other transaction and for a
    malformed amount. *)
Definition txn_magnitude (t : transaction) : Z :=
  if is_return_kind t then Z.abs (price_cents (t_amount t)) else 0.

Definition refund_magnitude (rf : refund) : Z :=
  sumZ (txn_magnitude <$> rf_transactions rf).

(** Refunded on the day [d] according to one snapshot. *)
Definition snapshot_refund_total (o : order) (d : string) : Z :=
  sumZ (refund_magnitude <$>
          filter (fun rf => ist_date (rf_created_at rf) = Some d) (o_refunds o)).

(** Refunded on the day [d] for the entity [oid] according to the batch. *)
Definition batch_refund_total (batch : list order) (oid : Z) (d : string) : Z :=
  sumZ ((fun o => snapshot_refund_total o d) <$>
          filter (fun o => order_oid o = Some oid) batch).

(** The total prices observed in the batch for the cancellation of the
    entity [oid] on the day [d]. *)
Definition cancel_observations (batch : list order) (oid : Z) (d : string) : list Z :=
  (fun o => price_cents (o_total_price o)) <$>
    filter (fun o => order_oid o = Some oid ∧ ist_date (o_cancelled_at o) = Some d)
           batch.

(** A snapshot whose cancellation the reconciler turns into a fact. *)
Definition cancelled (o : order) : Prop :=
  is_Some (order_oid o) ∧ is_Some (ist_date (o_cancelled_at o)).

(** Every date implied by the timestamp fields of a snapshot. *)
Definition snapshot_dates (o : order) : list string :=
  omap ist_date [o_created_at o; o_updated_at o; o_cancelled_at o]
  ++ omap (fun rf => ist_date (rf_created_at rf)) (o_refunds o).

Definition batch_dates (batch : list order) : list string :=
  batch ≫= snapshot_dates.

End Reference.

(** *** Scenarios *)

(** A row stored at the boundary timestamp 2024-01-05 10:00:00 and the
    snapshot of the same order as the API returns it again. *)
Definition boundary_row : order_row :=
  mk_order_row (Some "1001") (Some 1704448800) (Some 1704448800)
    (Some "2024-01-05") (Some "10:00:00") (Some "2024-01-05")
    None None None None None None None None None.

Definition boundary_snapshot : order :=
  mk_order (Some 1001) (Some "2024-01-05T10:00:00+05:30")
    (Some "2024-01-05T10:00:00+05:30") None (MoneyOf 50000) [].

(** A flattening that writes one row per snapshot. *)
Definition one_row_each (orders : list order) : list order_row :=
  (fun o => mk_order_row (Some (Window.str_id o)) (Some 1704448800) (Some 1704448800)
              (Some "2024-01-05") (Some "10:00:00") (Some "2024-01-05")
              None None None None None None None None None) <$> orders.

(** A database with orders created from 2024-02-28 to 2024-03-04, one
    refunded order, REFUND and CANCEL facts on 2024-03-02, and stale rows of
    [sales_summary] inside and outside the range 2024-03-01 .. 2024-03-03. *)
Definition order_on (oid created updated status : string) (price : Z) : order_row :=
  mk_order_row (Some oid) None None (Some created) (Some "10:15:00") (Some updated)
    (Some "GoKwik") (Some status) (Some "Cash on Delivery (COD)")
    (Some price) (Some 100) (Some 2) (Some 25000) None None.

Definition stale_sales_row (returns : Z) : Summary.sales_summary_row :=
  let zero := Summary.mk_figures 0 0 0 in
  Summary.mk_sales_summary_row zero zero zero zero zero zero zero zero zero zero
    0 returns (- returns).

Definition march_db : Summary.db :=
  Summary.mk_db
    [order_on "1" "2024-02-28" "2024-02-28" "paid" 10000;
     order_on "2" "2024-03-01" "2024-03-02" "paid" 50000;
     order_on "3" "2024-03-04" "2024-03-04" "paid" 70000]
    [order_on "2" "2024-03-01" "2024-03-02" "refunded" 50000]
    (<[(2, REFUND, "2024-03-02") := 20000]>
       (<[(2, CANCEL, "2024-03-02") := 50000]>
          (<[(5, REFUND, "2024-03-02") := 300]> ∅)))
    ∅ ∅
    (<["2024-02-28" := stale_sales_row 111]>
       (<["2024-03-02" := stale_sales_row 222]>
          (<["2024-03-04" := stale_sales_row 333]> ∅)))
    ∅ ∅ ∅ ∅ ∅.

(** One page of one snapshot, with and without a link to a next page. *)
Definition next_link : string :=
  "<https://shop.example/admin/api/2024-01/orders.json?page_info=p2>; "
  +:+ Fetcher.rel_next.

Definition first_page_linked : Fetcher.reply :=
  Fetcher.Response 200 Fetcher.RetryAbsent (Some [boundary_snapshot]) next_link.

Definition only_page : Fetcher.reply :=
  Fetcher.Response 200 Fetcher.RetryAbsent (Some [boundary_snapshot]) "".

Definition server_error : Fetcher.reply :=
  Fetcher.Response 500 Fetcher.RetryAbsent None "".

Definition rate_limit (seconds : Z) : Fetcher.reply :=
  Fetcher.Response 429 (Fetcher.RetrySeconds seconds) None "".


(** The snapshot of the refund scenario: two refund sub-records on
    2024-02-10 with one transaction each, of -150.00 and -50.00. *)
Definition refunded_snapshot (entity : Z) : order :=
  mk_order (Some entity) None None None MoneyNone
    [mk_refund (Some "2024-02-10T09:15:00+05:30")
       [mk_transaction (Some "refund") (MoneyOf (-15000))];
     mk_refund (Some "2024-02-10T17:40:00+05:30")
       [mk_transaction (Some "refund") (MoneyOf (-5000))]].

(** A cancelled snapshot whose total price is not a number. *)
Definition malformed_cancel (entity : Z) : order :=
  mk_order (Some entity) None None (Some "2024-01-05T10:00:00Z") MoneyBad [].

(** *** What the summary recomputation must preserve and produce *)

Module SummarySpec.
Import Summary.

(** The sum of [amount] over the rows of the fact store whose event type is
    REFUND and whose event date is [d]; zero when there is none. *)
Definition refund_total (facts : gmap fact_key Z) (d : string) : Z :=
  sumZ (snd <$> filter (fun fact : fact_key * Z =>
                          fact.1.1.2 = REFUND ∧ fact.1.2 = d)
                       (map_to_list facts)).

(** All the statements of a list, none failing. *)
Definition run_statements (stmts : list statement) (s : db) : db :=
  (execute_all stmts None s).1.

(** The rows of the six summary tables for the date [d] are the same in
    [s] and [s']. *)
Definition same_rows_at (d : string) (s s' : db) : Prop :=
  sales_summary s' !! d = sales_summary s !! d
  ∧ order_summary s' !! d = order_summary s !! d
  ∧ discount_summary s' !! d = discount_summary s !! d
  ∧ gross_summary s' !! d = gross_summary s !! d
  ∧ (∀ h, hour_wise_sales s' !! (d, h) = hour_wise_sales s !! (d, h))
  ∧ overall_summary s' !! d = overall_summary s !! d.

(** The tables the summaries are computed from are the same. *)
Definition same_sources (s s' : db) : Prop :=
  shopify_orders s' = shopify_orders s
  ∧ shopify_orders_update s' = shopify_orders_update s
  ∧ returns_fact s' = returns_fact s
  ∧ sessions_summary s' = sessions_summary s
  ∧ hourly_sessions_summary s' = hourly_sessions_summary s.

(** [t'] is [t] with the rows of the range deleted and the rows [fresh]
    inserted. *)
Definition replaced_in_range {K V : Type} `{Countable K} (date_of : K -> string)
    (lo hi : string) (fresh t t' : gmap K V) : Prop :=
  t' = insert_rows fresh (delete_between date_of lo hi t)
  ∧ (∀ k, is_Some (fresh !! k) → between lo hi (date_of k) = true)
  ∧ ∀ k, t' !! k = if between lo hi (date_of k) then fresh !! k else t !! k.

(** The frame of one statement: it leaves the sources alone and keeps the
    rows dated outside the range. *)
Definition keeps_outside (lo hi : string) (stmt : statement) : Prop :=
  ∀ s, same_sources s (stmt s)
       ∧ ∀ d, between lo hi d = false → same_rows_at d s (stmt s).

(** Every summary table of [s'] is the one of [s] with the rows of the
    range deleted and, in their place, the rows its query yields on [s']
    itself. *)
Definition recomputed (lo hi : string) (s s' : db) : Prop :=
  replaced_in_range id lo hi
    (result_set (AllDates lo hi s') (sales_summary_select lo hi s'))
    (sales_summary s) (sales_summary s')
  ∧ replaced_in_range id lo hi
      (result_set (order_summary_dates lo hi s') (order_summary_select lo hi s'))
      (order_summary s) (order_summary s')
  ∧ replaced_in_range id lo hi
      (result_set (discount_summary_dates lo hi s') (discount_summary_select lo hi s'))
      (discount_summary s) (discount_summary s')
  ∧ replaced_in_range id lo hi
      (result_set (gross_summary_dates lo hi s') (gross_summary_select lo hi s'))
      (gross_summary s) (gross_summary s')
  ∧ replaced_in_range fst lo hi
      (result_set (hour_wise_sales_keys lo hi s') (hour_wise_sales_select lo hi s'))
      (hour_wise_sales s) (hour_wise_sales s')
  ∧ replaced_in_range id lo hi
      (result_set (overall_summary_dates lo hi s') (overall_summary_select s'))
      (overall_summary s) (overall_summary s').

End SummarySpec.

(** *** What a run of the fetcher has seen *)

Module FetcherSpec.
Import Fetcher.

(** A rate-limit reply the client can wait on, with the seconds it waits. *)
Definition rate_limited (r : reply) (seconds : Z) : Prop :=
  match r with
  | Response status retry _ _ =>
      status = 429
      ∧ match retry with
        | RetryAbsent => seconds = 2
        | RetrySeconds n => seconds = n
        | RetryBad => False
        end
  | ClientError => False
  end.

(** A reply that ends the loop and adds nothing: a status other than 200
    and 429, a 429 without a usable delay, a body that is not JSON or has
    no orders, an exception of the client. *)
Definition failure (r : reply) : Prop :=
  match r with
  | Response status retry orders _ =>
      (status ≠ 429 ∧ status ≠ 200)
      ∨ (status = 429 ∧ retry = RetryBad)
      ∨ (status = 200 ∧ (orders = None ∨ orders = Some []))
  | ClientError => True
  end.

(** [session url replies orders]: started at [url], the loop comes to an
    end within [replies], having received the snapshots [orders] page by
    page. *)
Inductive session : option string -> list reply -> list order -> Prop :=
  | session_exhausted url replies :
      PyStr.truthy url = false →
      session url replies []
  | session_failed url r replies :
      PyStr.truthy url = true →
      failure r →
      session url (r :: replies) []
  | session_retry url r seconds replies orders :
      PyStr.truthy url = true →
      rate_limited r seconds →
      session url replies orders →
      session url (r :: replies) orders
  | session_page url retry page link replies orders :
      PyStr.truthy url = true →
      page ≠ [] →
      session (next_url link) replies orders →
      session url (Response 200 retry (Some page) link :: replies) (page ++ orders).

End FetcherSpec.

(** The amount [agg.get(key, 0.0)] reads. *)
Definition amount_at (agg : gmap fact_key Z) (key : fact_key) : Z :=
  default 0 (agg !! key).

(** Every REFUND amount held by the dictionary is positive. *)
Definition refunds_positive (agg : gmap fact_key Z) : Prop :=
  ∀ oid d v, agg !! (oid, REFUND, d) = Some v → 0 < v.


(** ** Order on ISO dates *)

(** The order [min], [max] and [BETWEEN] use on ISO dates: the order of
    their texts. *)
Definition date_le (a b : string) : Prop := String.leb a b = true.

(** [Eq]-first combination of two comparisons. *)
Definition lexc (c rest : comparison) : comparison :=
  match c with
  | Eq => rest
  | _ => c
  end.

(** Calendar order on civil dates (year, month, day). *)
Definition civil_lt (a b : Z * Z * Z) : Prop :=
  a.1.1 < b.1.1
  ∨ (a.1.1 = b.1.1 ∧ (a.1.2 < b.1.2 ∨ (a.1.2 = b.1.2 ∧ a.2 < b.2))).

(** The civil date of a day of the 400-year era, the year counted from the
    start of the era: what [Calendar.civil_from_days] computes once the era
    has been split off. *)
Definition civil_in_era (doe : Z) : Z * Z * Z :=
  let yoe := (doe - doe / 1460 + doe / 36524 - doe / 146096) / 365 in
  let doy := doe - (365 * yoe + yoe / 4 - yoe / 100) in
  let mp := (5 * doy + 2) / 153 in
  let d := doy - (153 * mp + 2) / 5 + 1 in
  let m := if mp <? 10 then mp + 3 else mp - 9 in
  (if m <=? 2 then yoe + 1 else yoe, m, d).

(** The first day of the year [k] of a 400-year era, the era starting on a
    first of March. *)
Definition year_start (k : Z) : Z := 365 * k + k / 4 - k / 100.

(** The text [date.isoformat()] gives a civil date. *)
Definition iso_text (date : Z * Z * Z) : string :=
  Calendar.pad4 date.1.1 +:+ "-" +:+ Calendar.pad2 date.1.2 +:+ "-"
  +:+ Calendar.pad2 date.2.

(** * Further parts of the module *)

(** ** More on the summary recomputation *)

Module Recompute.
Import Summary.

(** The dates for which the [i]-th summary table (in the order the run
    recomputes them) holds a row. *)
Definition dates_of_table (i : nat) (s : db) : gset string :=
  match i with
  | 0%nat => dom (sales_summary s)
  | 1%nat => dom (order_summary s)
  | 2%nat => dom (discount_summary s)
  | 3%nat => dom (gross_summary s)
  | 4%nat => set_map fst (dom (hour_wise_sales s))
  | _ => dom (overall_summary s)
  end.





(** The complete run over a range. *)
Definition run (lo hi : string) (s : db) : db :=
  execute_summary_queries_incremental None (Some lo) (Some hi) s.

End Recompute.

(** ** One run for one brand ([process_single_brand]) *)

Module Brand.
Import Window.

(** [a or b] on values that are strings or [None] *)
Definition py_or (a b : option string) : option string :=
  if PyStr.truthy a then a else b.

(** [min(a, b)] and [max(a, b)]; [None] cannot be compared *)
Definition min2 (a b : option string) : outcome string :=
  match a, b with
  | Some a, Some b => Returned (str_min a b)
  | _, _ => Raised TypeError
  end.

Definition max2 (a b : option string) : outcome string :=
  match a, b with
  | Some a, Some b => Returned (str_max a b)
  | _, _ => Raised TypeError
  end.

(** The update of [affected_dates] with the range [(min_d, max_d)] of one
    feed. *)
Definition track_affected (affected_dates found : option string * option string)
  : outcome (option string * option string) :=
  if PyStr.truthy found.1 then
    lo ← min2 (py_or affected_dates.1 found.1) found.1;
    hi ← max2 (py_or affected_dates.2 found.2) found.2;
    Returned (Some lo, Some hi)
  else Returned affected_dates.

(** [process['table']] *)
Definition feed_table (f : feed) (s : Summary.db) : list order_row :=
  match f with
  | NEW => Summary.shopify_orders s
  | UPDATED => Summary.shopify_orders_update s
  end.

(** The feed that goes to the other table. *)
Definition other (f : feed) : feed :=
  match f with NEW => UPDATED | UPDATED => NEW end.

Definition with_feed_table (f : feed) (t : list order_row) (s : Summary.db)
  : Summary.db :=
  match f with
  | NEW =>
      Summary.mk_db t (Summary.shopify_orders_update s) (Summary.returns_fact s)
        (Summary.sessions_summary s) (Summary.hourly_sessions_summary s)
        (Summary.sales_summary s) (Summary.order_summary s)
        (Summary.discount_summary s) (Summary.gross_summary s)
        (Summary.hour_wise_sales s) (Summary.overall_summary s)
  | UPDATED =>
      Summary.mk_db (Summary.shopify_orders s) t (Summary.returns_fact s)
        (Summary.sessions_summary s) (Summary.hourly_sessions_summary s)
        (Summary.sales_summary s) (Summary.order_summary s)
        (Summary.discount_summary s) (Summary.gross_summary s)
        (Summary.hour_wise_sales s) (Summary.overall_summary s)
  end.

Definition with_returns_fact (facts : gmap fact_key Z) (s : Summary.db) : Summary.db :=
  Summary.mk_db (Summary.shopify_orders s) (Summary.shopify_orders_update s) facts
    (Summary.sessions_summary s) (Summary.hourly_sessions_summary s)
    (Summary.sales_summary s) (Summary.order_summary s)
    (Summary.discount_summary s) (Summary.gross_summary s)
    (Summary.hour_wise_sales s) (Summary.overall_summary s).

(** What the outside world does during one turn of
    [for process in process_types]: the instant of [now_ist()], whether the
    two reads of the table succeed, the list [fetch_orders] returns for the
    window, and whether the load goes through
    ([load_data_to_sql_optimized] logs its failures and returns). *)
Record feed_run : Type := mk_feed_run {
  fr_now : Z;
  fr_last : cursor;
  fr_same : cursor;
  fr_fetched : list order;
  fr_loads : bool;
}.

(** The database of the brand with the one key of [pipeline_metadata] the
    function writes. *)
Record state : Type := mk_state {
  st_db : Summary.db;
  last_pipeline_completion_time : option datetime;
}.

Section Run.

Variable fromisoformat : string -> option Z.

(** The flattening of snapshots into rows, left abstract. *)
Variable transform_orders_to_df_optimized : list order -> list order_row.

(** The sessions update, which swallows its exceptions. *)
Variable update_sessions_summary : Summary.db -> Summary.db.

Variable env : backfill_env.

(** One turn of [for process in process_types]: the database it leaves
    and either the updated [affected_dates] or the exception that
    escapes. *)
Definition process_orders (f : feed) (r : feed_run) (s : Summary.db)
    (affected_dates : option string * option string)
  : Summary.db * outcome (option string * option string) :=
  match feed_window env (fr_now r) f (fr_last r) (fr_same r) (feed_table f s) with
  | Raised e => (s, Raised e)
  | Returned None => (s, Returned affected_dates)
  | Returned (Some w) =>
      match fr_fetched r with
      | [] => (s, Returned affected_dates)
      | orders_list =>
          match dedup (existing_ids w) orders_list with
          | [] => (s, Returned affected_dates)
          | filtered =>
              match track_affected affected_dates
                      (get_affected_date_range fromisoformat filtered) with
              | Raised e => (s, Raised e)
              | Returned affected_dates =>
                  let df := transform_orders_to_df_optimized filtered in
                  let s :=
                    if fr_loads r
                    then with_feed_table f
                           (load_data_to_sql_optimized df (feed_table f s)) s
                    else s in
                  match upsert_returns_fact_from_orders fromisoformat filtered
                          (Summary.returns_fact s) with
                  | Raised e => (s, Raised e)
                  | Returned facts =>
                      (with_returns_fact facts s, Returned affected_dates)
                  end
              end
          end
      end
  end.

(** [has_pool]: [brand_index in db_connection_pools]; [orders_cursor] and
    [completion_cursor]: whether the two [get_db_cursor] blocks get their
    connection and run their statement; [now]: the instant recorded as
    completion time; [healthy_for]: how far the summary statements get. *)
Definition process_single_brand (has_pool : bool) (new updated : feed_run)
    (orders_cursor completion_cursor : cursor) (now : Z) (healthy_for : option nat)
    (st : state) : state * outcome unit :=
  if negb has_pool then (st, Returned tt)
  else
    let s := update_sessions_summary (st_db st) in
    let completed := last_pipeline_completion_time st in
    match orders_cursor with
    | Failing => (mk_state s completed, Raised DatabaseError)
    | Healthy =>
        match process_orders NEW new s (None, None) with
        | (s, Raised e) => (mk_state s completed, Raised e)
        | (s, Returned affected_dates) =>
            match process_orders UPDATED updated s affected_dates with
            | (s, Raised e) => (mk_state s completed, Raised e)
            | (s, Returned affected_dates) =>
                match completion_cursor with
                | Failing => (mk_state s completed, Raised DatabaseError)
                | Healthy =>
                    let completed := Some (now_ist now) in
                    if PyStr.truthy affected_dates.1 && PyStr.truthy affected_dates.2
                    then
                      (mk_state
                         (Summary.execute_summary_queries_incremental healthy_for
                            affected_dates.1 affected_dates.2 s) completed,
                       Returned tt)
                    else (mk_state s completed, Returned tt)
                end
            end
        end
    end.

End Run.

(** The range [affected_dates] holds covers the date [d]. *)
Definition covers (affected_dates : option string * option string) (d : string)
  : Prop :=
  ∃ lo hi, affected_dates = (Some lo, Some hi) ∧ lo ≠ "" ∧ hi ≠ ""
           ∧ Summary.between lo hi d = true.

(** [r] is the least and the greatest of the dates [dates], or
    (None, None) when there is none. *)
Definition range_of (dates : list string) (r : option string * option string)
  : Prop :=
  (dates = [] ∧ r = (None, None))
  ∨ ∃ lo hi, r = (Some lo, Some hi) ∧ lo ∈ dates ∧ hi ∈ dates
             ∧ ∀ d, d ∈ dates → date_le lo d ∧ date_le d hi.

End Brand.

(** *** Scenarios of a brand run

    A backfill over January 2024 on an empty database.  The NEW feed
    receives a refunded snapshot (and, in the second scenario, a cancelled
    snapshot with a malformed total price after it); the UPDATED feed
    receives nothing. *)
Definition january_backfill : Window.backfill_env :=
  Window.mk_backfill_env true
    (Some (Window.mk_datetime 1704067200 (Some Calendar.IST_offset)))
    (Some (Window.mk_datetime 1706745600 (Some Calendar.IST_offset))).

Definition empty_db : Summary.db := Summary.mk_db [] [] ∅ ∅ ∅ ∅ ∅ ∅ ∅ ∅ ∅.

Definition feed_of (fetched : list order) : Brand.feed_run :=
  Brand.mk_feed_run 1707000000 Window.Healthy Window.Healthy fetched true.

Definition backfill_run (fetched : list order) : Brand.state * outcome unit :=
  Brand.process_single_brand IsoFormat.instant one_row_each id january_backfill true
    (feed_of fetched) (feed_of []) Window.Healthy Window.Healthy 1707000000 None
    (Brand.mk_state empty_db None).

(** The same backfill once more, on the state the first run leaves. *)
Definition backfill_rerun (fetched : list order) : Brand.state * outcome unit :=
  Brand.process_single_brand IsoFormat.instant one_row_each id january_backfill true
    (feed_of fetched) (feed_of []) Window.Healthy Window.Healthy 1707000600 None
    (backfill_run fetched).1.

(** ** Timestamp texts of the order rows and of the sessions API *)

Module Timestamps.

(** The number of occurrences of a character. *)
Fixpoint count (c : ascii) (s : string) : nat :=
  match s with
  | EmptyString => 0%nat
  | String c' rest => ((if Ascii.eqb c' c then 1 else 0) + count c rest)%nat
  end.

(** [date, time_part = datetime_str.split('T')] unpacks a list of exactly
    two parts and raises [ValueError] on any other; [split('+')[0]] is the
    first element of a list that is never empty. *)
Definition extract_date_time (datetime_str : option string)
  : outcome (option string * option string) :=
  if negb (PyStr.truthy datetime_str) then Returned (None, None)
  else
    match PyStr.split "T" (default "" datetime_str) with
    | [date; time_part] =>
        let time_s := hd "" (PyStr.split "+" time_part) in
        Returned (Some date, Some time_s)
    | _ => Raised ValueError
    end.

Definition convert_to_desired_format_session (dt_obj : Window.datetime) : string :=
  PyStr.take 19 (Window.strftime_iso dt_obj) +:+ "%2B05:30".

(** The characters [strip('<> ')] removes. *)
Definition brackets : list ascii := ["<"%char; ">"%char; " "%char].

End Timestamps.

(** ** Brand configuration and pooled connections *)

Module Config.

(** What the module keeps about the brands: [brand_tag_to_index_map],
    [db_connection_pools] (a pool is told by the configuration it was built
    from), [sqlalchemy_engines] (an engine by its connection string) and
    [active_brand_indices]. *)
Record db_config : Type := mk_db_config {
  host : string;
  user : string;
  password : string;
  database : string;
}.

Record globals : Type := mk_globals {
  brand_tag_to_index_map : gmap string nat;
  db_connection_pools : gmap nat db_config;
  sqlalchemy_engines : gmap nat string;
  active_brand_indices : list nat;
}.

Definition no_brands : globals := mk_globals ∅ ∅ ∅ [].

(** [f"{name}_{i}"] *)
Definition key (name : string) (i : nat) : string := name +:+ "_" +:+ pretty i.

Section Init.

(** [os.environ] *)
Variable environ : gmap string string.

(** Whether [pooling.MySQLConnectionPool] and [create_engine] build their
    object for a brand or raise. *)
Variable pool_created : nat -> db_config -> bool.
Variable engine_created : nat -> string -> bool.

(** One turn of [for i in range(total_count)]. *)
Definition configure_brand (g : globals) (i : nat) : globals :=
  let tag := environ !! key "BRAND_TAG" i in
  let tags :=
    if PyStr.truthy tag
    then <[default "" tag := i]> (brand_tag_to_index_map g)
    else brand_tag_to_index_map g in
  let skipped :=
    mk_globals tags (db_connection_pools g) (sqlalchemy_engines g)
      (active_brand_indices g) in
  match environ !! key "DB_HOST" i, environ !! key "DB_USER" i,
        environ !! key "DB_PASSWORD" i, environ !! key "DB_DATABASE" i with
  | Some h, Some u, Some p, Some d =>
      let config := mk_db_config h u p d in
      if pool_created i config then
        let pools := <[i := config]> (db_connection_pools g) in
        let mysql_connect_str := environ !! key "MYSQL_CONNECT" i in
        if PyStr.truthy mysql_connect_str
           && engine_created i (default "" mysql_connect_str)
        then
          mk_globals tags pools
            (<[i := default "" mysql_connect_str]> (sqlalchemy_engines g))
            (active_brand_indices g ++ [i])
        else
          mk_globals tags (delete i pools) (sqlalchemy_engines g)
            (active_brand_indices g)
      else skipped
  | _, _, _, _ => skipped
  end.

(** [initialize_brand_configs], [total_count] being the integer read from
    [TOTAL_CONFIG_COUNT]. *)
Definition initialize_brand_configs (total_count : Z) (g : globals) : globals :=
  foldl configure_brand g (seq 0 (Z.to_nat total_count)).

(** The brand [i] has everything [initialize_brand_configs] asks for. *)
Definition configured (i : nat) : Prop :=
  ∃ h u p d c,
    environ !! key "DB_HOST" i = Some h ∧ environ !! key "DB_USER" i = Some u
    ∧ environ !! key "DB_PASSWORD" i = Some p
    ∧ environ !! key "DB_DATABASE" i = Some d
    ∧ pool_created i (mk_db_config h u p d) = true
    ∧ environ !! key "MYSQL_CONNECT" i = Some c ∧ c ≠ ""
    ∧ engine_created i c = true.

(** What holds of the globals once the brands below [n] have been gone
    through. *)
Definition initialised (n : nat) (g : globals) : Prop :=
  (∀ i, i ∈ active_brand_indices g ↔ (i < n)%nat ∧ configured i)
  ∧ (∀ i, is_Some (db_connection_pools g !! i) ↔ i ∈ active_brand_indices g)
  ∧ (∀ i, is_Some (sqlalchemy_engines g !! i) ↔ i ∈ active_brand_indices g)
  ∧ StronglySorted lt (active_brand_indices g).

End Init.

(** *** Pooled connections ([get_db_connection]) *)

(** What one call of [pool.get_connection()] does. *)
Inductive pool_reply : Type :=
  | Connection (cnx : nat)
  | PoolExhausted            (* [mysql.connector.errors.PoolError] *)
  | ConnectFailed.           (* any other exception *)

Inductive connection_error : Type :=
  | NoPool                   (* [ValueError]: no pool for the brand *)
  | PoolError
  | OtherError.

(** [for _ in range(attempts): ... else: raise ...]; [tried] counts the
    calls made so far, each failed one followed by a [time.sleep].  The
    result comes with the number of sleeps. *)
Fixpoint get_connection_loop (pool : nat -> pool_reply) (tried attempts : nat)
  : (nat + connection_error) * nat :=
  match attempts with
  | O => (inr PoolError, tried)
  | S attempts' =>
      match pool tried with
      | Connection cnx => (inl cnx, tried)
      | PoolExhausted => get_connection_loop pool (S tried) attempts'
      | ConnectFailed => (inr OtherError, tried)
      end
  end.

(** The connection [get_db_connection] yields; a pool is the replies it
    gives to the successive calls. *)
Definition get_db_connection (pools : gmap nat (nat -> pool_reply))
    (brand_index : nat) (attempts : Z) : (nat + connection_error) * nat :=
  match pools !! brand_index with
  | None => (inr NoPool, 0%nat)
  | Some pool => get_connection_loop pool 0 (Z.to_nat attempts)
  end.

End Config.

(** ** Hourly sessions ([update_sessions_summary])

    A datetime of this part is its wall-clock reading in IST, counted in
    microseconds since 1970-01-01 00:00:00 (every datetime the function
    handles carries the zone IST, so comparing and adding hours act on the
    reading). *)

Module Sessions.

(** [timedelta(hours=1)] *)
Definition hour : Z := 3600000000.

(** [dt.replace(minute=0, second=0, microsecond=0)] *)
Definition hour_floor (t : Z) : Z := t - t mod hour.

(** [while current_time < end_time_ist: time_slots.add(...);
     current_time += timedelta(hours=1)]; [None] when the fuel runs out
    before the loop ends. *)
Fixpoint time_slots_loop (fuel : nat) (current_time end_time_ist : Z)
    (time_slots : gset Z) : option (gset Z) :=
  if decide (current_time < end_time_ist) then
    match fuel with
    | O => None
    | S fuel =>
        time_slots_loop fuel (current_time + hour) end_time_ist
                        ({[hour_floor current_time]} ∪ time_slots)
    end
  else Some time_slots.

(** The set [time_slots] once the end slot has been added; the fuel is the
    number of whole hours between the two instants, plus one. *)
Definition time_slots (start_time_ist end_time_ist : Z) : option (gset Z) :=
  slots ← time_slots_loop (Z.to_nat ((end_time_ist - start_time_ist) / hour + 1))
                          start_time_ist end_time_ist ∅;
  Some ({[hour_floor end_time_ist]} ∪ slots).

(** [sorted(list(time_slots), reverse=True)] *)
Definition sorted_reverse (slots : gset Z) : list Z :=
  reverse (merge_sort Z.le (elements slots)).

(** A figure of the body: [data.get(key, 0)] on a key that is absent,
    [null] or an integer. *)
Inductive figure : Type :=
  | Absent
  | Null
  | Count (n : Z).

(** What [http_session.get] produces for a slot: a response with its
    status and the two figures of its body, or an exception (also when the
    body is not JSON). *)
Inductive session_reply : Type :=
  | SessionResponse (status_code : Z) (totalSessions totalEvents : figure)
  | SessionError.

Inductive session_exn : Type :=
  | RuntimeError        (* "Session API call failed" *)
  | RequestError        (* raised by the client *)
  | FigureError.        (* [TypeError]: arithmetic on [null] *)

(** [max(0, cum - next_hour_cum)] *)
Definition this_hour (cum next_hour_cum : figure) : option Z :=
  match cum, next_hour_cum with
  | Null, _ | _, Null => None
  | Absent, Absent => Some (Z.max 0 (0 - 0))
  | Absent, Count n => Some (Z.max 0 (0 - n))
  | Count c, Absent => Some (Z.max 0 (c - 0))
  | Count c, Count n => Some (Z.max 0 (c - n))
  end.

(** [slot_start.date()] and [slot_start.hour] *)
Definition slot_key (slot_start : Z) : option (string * Z) :=
  let seconds := slot_start / 1000000 in
  date ← Calendar.isoformat_date (seconds / 86400);
  Some (date, seconds mod 86400 / 3600).

(** The variables of the loop over the slots. *)
Record progress : Type := mk_progress {
  next_hour_cum_sess : figure;
  next_hour_cum_atc : figure;
  hourly : gmap (string * Z) Summary.hourly_sessions_row;
}.

Section Update.

(** The sessions API: the reply to the request for a slot. *)
Variable api : Z -> session_reply.

(** One turn of [for slot_start in sorted(...)]. *)
Definition slot_step (p : progress) (slot_start : Z) : progress + session_exn :=
  match api slot_start with
  | SessionError => inr RequestError
  | SessionResponse status_code cum_sess cum_atc =>
      if status_code =? 200 then
        match this_hour cum_sess (next_hour_cum_sess p),
              this_hour cum_atc (next_hour_cum_atc p), slot_key slot_start with
        | Some sessions_this_hour, Some atc_this_hour, Some key =>
            inl (mk_progress cum_sess cum_atc
                   (<[key := Summary.mk_hourly_sessions_row
                               (Some sessions_this_hour) (Some atc_this_hour)]>
                      (hourly p)))
        | _, _, _ => inr FigureError
        end
      else inr RuntimeError
  end.

Fixpoint slots_loop (slots : list Z) (p : progress) : progress + session_exn :=
  match slots with
  | [] => inl p
  | slot_start :: rest =>
      match slot_step p slot_start with
      | inl p' => slots_loop rest p'
      | inr e => inr e
      end
  end.

End Update.

(** [next_hour_cum_sess = 0] *)
Definition zero : figure := Count 0.

(** The value a figure stands for in the arithmetic. *)
Definition figure_value (f : figure) : Z :=
  match f with
  | Count n => n
  | _ => 0
  end.

(** The total number of sessions a 200 reply reports for a slot. *)
Definition sessions_total (api : Z -> session_reply) (slot_start : Z) : Z :=
  match api slot_start with
  | SessionResponse _ cum_sess _ => figure_value cum_sess
  | SessionError => 0
  end.

(** The sessions stored for the hour of a slot. *)
Definition stored_sessions (t : gmap (string * Z) Summary.hourly_sessions_row)
    (slot_start : Z) : Z :=
  default 0 (key ← slot_key slot_start; row ← t !! key;
             Summary.hs_number_of_sessions row).

(** *** The daily roll-up and the whole update *)

(** [SUM(col)]: [NULL] values are skipped, and the sum of no value is
    [NULL]. *)
Definition sql_sum (values : list (option Z)) : option Z :=
  match omap id values with
  | [] => None
  | vs => Some (sumZ vs)
  end.

(** [WHERE date >= %s ... GROUP BY date] *)
Definition rollup_key (start_date : string)
    (row : (string * Z) * Summary.hourly_sessions_row) : option string :=
  if String.leb start_date row.1.1 then Some row.1.1 else None.

(** The row the [SELECT] of the roll-up yields for a date. *)
Definition rollup_select (start_date : string)
    (hourly : gmap (string * Z) Summary.hourly_sessions_row) (d : string)
  : Summary.sessions_row :=
  let rows := Summary.group_rows (rollup_key start_date) d (map_to_list hourly) in
  Summary.mk_sessions_row
    (sql_sum ((fun row => Summary.hs_number_of_sessions row.2) <$> rows))
    (sql_sum ((fun row => Summary.hs_number_of_atc_sessions row.2) <$> rows))
    None.

(** [ON DUPLICATE KEY UPDATE ...,
     adjusted_number_of_sessions =
       COALESCE(VALUES(adjusted_number_of_sessions), adjusted_number_of_sessions)] *)
Definition on_duplicate (new old : Summary.sessions_row) : option Summary.sessions_row :=
  Some (Summary.mk_sessions_row
          (Summary.number_of_sessions new) (Summary.number_of_atc_sessions new)
          (match Summary.adjusted_number_of_sessions new with
           | Some v => Some v
           | None => Summary.adjusted_number_of_sessions old
           end)).

Definition rollup (start_date : string)
    (hourly : gmap (string * Z) Summary.hourly_sessions_row)
    (daily : gmap string Summary.sessions_row) : gmap string Summary.sessions_row :=
  union_with on_duplicate
    (Summary.result_set
       (Summary.group_keys (rollup_key start_date) (map_to_list hourly))
       (rollup_select start_date hourly))
    daily.

(** The two tables and the key of [pipeline_metadata] the function works
    on. *)
Record store : Type := mk_store {
  hourly_sessions_summary : gmap (string * Z) Summary.hourly_sessions_row;
  sessions_summary : gmap string Summary.sessions_row;
  last_session_fetch_timestamp : option Z;
}.

(** [start_time_ist.date()] *)
Definition date_of (t : Z) : option string :=
  Calendar.isoformat_date (t / 1000000 / 86400).

(** [update_sessions_summary] at the instant [now]; an exception is logged
    and leaves the store as it was, since the statements of the run are
    committed together at its end. *)
Definition update_sessions_summary (api : Z -> session_reply) (now : Z) (s : store)
  : store :=
  let start_time_ist := default (now - 60 * 60000000) (last_session_fetch_timestamp s) in
  let end_time_ist := now in
  if decide (end_time_ist <= start_time_ist) then s
  else
    match time_slots start_time_ist end_time_ist with
    | None => s
    | Some slots =>
        match slots_loop api (sorted_reverse slots)
                (mk_progress zero zero (hourly_sessions_summary s)) with
        | inr _ => s
        | inl p =>
            match date_of start_time_ist with
            | None => s
            | Some start_date =>
                mk_store (hourly p)
                         (rollup start_date (hourly p) (sessions_summary s))
                         (Some end_time_ist)
            end
        end
    end.

End Sessions.

(** *** A scenario for the sessions update

    The API reports the sessions since the start of each slot: 70 since
    12:00, 150 since 11:00 and 180 since 10:00 on 2024-01-05. *)
Definition sessions_api (slot_start : Z) : Sessions.session_reply :=
  if slot_start =? 1704456000000000
  then Sessions.SessionResponse 200 (Sessions.Count 70) (Sessions.Count 7)
  else if slot_start =? 1704452400000000
  then Sessions.SessionResponse 200 (Sessions.Count 150) (Sessions.Count 15)
  else if slot_start =? 1704448800000000
  then Sessions.SessionResponse 200 (Sessions.Count 180) (Sessions.Count 18)
  else Sessions.SessionResponse 503 Sessions.Absent Sessions.Absent.

Definition three_slots : list Z :=
  [1704456000000000; 1704452400000000; 1704448800000000].

Definition sessions_store (adjusted : option Z) : Sessions.store :=
  Sessions.mk_store ∅
    (<["2024-01-05" := Summary.mk_sessions_row (Some 5) (Some 1) adjusted]> ∅)
    (Some 1704450600000000).
(** ** The flattening of snapshots into rows ([transform_orders_to_df_optimized])

    The function reads the snapshots with [.get] and the built-in
    conversions, whatever their JSON is, so the snapshots are Python values
    here and not records.  An exception leaves the function: nothing in it is
    caught. *)

Module Flatten.

(** The Python values the function meets: the JSON of the upstream API and
    what is computed from it.  A [float] is held in cents; a [dict] lists
    its items in insertion order, each key once. *)
#[warnings="-register-all"] Inductive value : Type :=
  | PyNone
  | Bool (b : bool)
  | Int (n : Z)
  | Float (cents : Z)
  | Str (s : string)
  | List (items : list value)
  | Dict (items : list (string * value)).

(** The exceptions of the built-ins: [AttributeError] for a method the
    value does not have, [TypeError] and [ValueError] as [Other]. *)
Inductive error : Type :=
  | AttributeError
  | Other (e : exn).

Inductive result (A : Type) : Type :=
  | Ok (a : A)
  | Raise (e : error).

Arguments Ok {A} a.
Arguments Raise {A} e.

Global Instance result_ret : MRet result := fun A a => Ok a.

Global Instance result_bind : MBind result := fun A B k m =>
  match m with
  | Ok a => k a
  | Raise e => Raise e
  end.

(** [[f(x) for x in xs]], stopping at the first exception *)
Fixpoint for_all {A B : Type} (f : A -> result B) (xs : list A) : result (list B) :=
  match xs with
  | [] => Ok []
  | x :: rest => y ← f x; ys ← for_all f rest; Ok (y :: ys)
  end.

(** [acc = body(acc, x)] for each [x], stopping at the first exception *)
Fixpoint fold {A S : Type} (body : S -> A -> result S) (xs : list A) (acc : S)
  : result S :=
  match xs with
  | [] => Ok acc
  | x :: rest => acc ← body acc x; fold body rest acc
  end.

(** [bool(v)] *)
Definition truthy (v : value) : bool :=
  match v with
  | PyNone => false
  | Bool b => b
  | Int n => negb (n =? 0)
  | Float cents => negb (cents =? 0)
  | Str s => negb (String.eqb s "")
  | List items => match items with [] => false | _ => true end
  | Dict items => match items with [] => false | _ => true end
  end.

(** [a or b] *)
Definition or_else (a b : value) : value := if truthy a then a else b.

(** [v is None] *)
Definition is_none (v : value) : bool :=
  match v with
  | PyNone => true
  | _ => false
  end.

Fixpoint lookup (key : string) (items : list (string * value)) : option value :=
  match items with
  | [] => None
  | (k, v) :: rest => if String.eqb k key then Some v else lookup key rest
  end.

(** The items of a value whose [.get] is called; only a [dict] has the
    method. *)
Definition dict_items (d : value) : result (list (string * value)) :=
  match d with
  | Dict items => Ok items
  | _ => Raise AttributeError
  end.

(** [d.get(key, dflt)] on the items of a [dict]; [d.get(key)] is
    [d.get(key, None)] *)
Definition item (items : list (string * value)) (key : string) (dflt : value) : value :=
  default dflt (lookup key items).

(** [d.get(key, dflt)] *)
Definition get (d : value) (key : string) (dflt : value) : result value :=
  items ← dict_items d; Ok (item items key dflt).

(** The elements [for x in v] runs through: the elements of a list, the
    characters of a string (of ASCII text, as strings are held by the
    byte), the keys of a dict; a number, a boolean and [None] are not
    iterable. *)
Definition iterate (v : value) : result (list value) :=
  match v with
  | List items => Ok items
  | Str s => Ok ((fun c => Str (String c EmptyString)) <$> list_ascii_of_string s)
  | Dict items => Ok ((fun kv => Str kv.1) <$> items)
  | _ => Raise (Other TypeError)
  end.

Fixpoint join_strings (sep : string) (parts : list string) : string :=
  match parts with
  | [] => EmptyString
  | [part] => part
  | part :: rest => part +:+ sep +:+ join_strings sep rest
  end.

Definition as_str (v : value) : result string :=
  match v with
  | Str s => Ok s
  | _ => Raise (Other TypeError)
  end.

(** [sep.join(parts)]: every part has to be a string *)
Definition join (sep : string) (parts : list value) : result string :=
  parts ← for_all as_str parts; Ok (join_strings sep parts).

(** [s or None] for a string [s] *)
Definition str_or_none (s : string) : value :=
  if String.eqb s "" then PyNone else Str s.

(** [x or None] for a float [x] *)
Definition float_or_none (cents : Z) : value :=
  if cents =? 0 then PyNone else Float cents.

(** [s.split(sep)] for a non-empty [sep]; [skip] counts the characters of
    the separator found that are still to be dropped. *)
Fixpoint split_go (sep : string) (skip : nat) (s : string) : list string :=
  match s with
  | EmptyString => [EmptyString]
  | String c rest =>
      match skip with
      | S k => split_go sep k rest
      | O =>
          if String.prefix sep s
          then EmptyString :: split_go sep (String.length sep - 1) rest
          else match split_go sep 0 rest with
               | [] => [String c EmptyString]
               | hd :: tl => String c hd :: tl
               end
      end
  end.

Definition split (sep s : string) : list string := split_go sep 0 s.

(** [dt.strftime('%Y-%m-%d %H:%M:%S')] *)
Definition strftime_sql (dt : Window.datetime) : string :=
  let '(y, m, d) := Calendar.civil_from_days (Window.dt_wall dt / 86400) in
  let secs := Window.dt_wall dt mod 86400 in
  Calendar.pad4 y +:+ "-" +:+ Calendar.pad2 m +:+ "-" +:+ Calendar.pad2 d +:+ " " +:+
  Calendar.pad2 (secs / 3600) +:+ ":" +:+ Calendar.pad2 (secs mod 3600 / 60) +:+ ":" +:+
  Calendar.pad2 (secs mod 60).

(** A row under construction: a dict from column names to values. *)
Abbreviation row := (gmap string value).

(** [row.update(items)] *)
Definition update (items : list (string * value)) (r : row) : row :=
  list_to_map items ∪ r.

(** [f'_ITEM{n}_name'] and [f'_ITEM{n}_value'] *)
Definition item_name (n : Z) : string := "_ITEM" +:+ pretty n +:+ "_name".
Definition item_value (n : Z) : string := "_ITEM" +:+ pretty n +:+ "_value".

(** [for n in range(1, 10 + 1): row.setdefault(..., None)] *)
Definition item_defaults : row :=
  list_to_map (flat_map (fun n => [(item_name n, PyNone); (item_value n, PyNone)])
                        (seqZ 1 10)).

(** The columns of a row for a line item after the first that are filled
    from the order. *)
Definition carried_columns : list string :=
  ["created_date"; "created_time"; "order_name"; "customer_id"; "tags";
   "customer_tag"; "appmaker_platform"; "app_version"].

(** The columns filled from the line item. *)
Definition line_item_columns : list string :=
  ["sku"; "variant_title"; "line_item"; "line_item_price"; "line_item_quantity";
   "line_item_total_discount"; "product_id"; "variant_id"].

(** The columns that neither the order nor the line item nor a property
    fills in a row for a line item after the first. *)
Definition plain_column (col : string) : Prop :=
  (col ∉ carried_columns) ∧ (col ∉ line_item_columns)
  ∧ String.prefix "_ITEM" col = false.

Section Builtins.

(** [float(s)] and [int(s)] on a string ([None] where they raise
    [ValueError]), [str(v)] on a float, a list or a dict, [s.strip()]
    and [datetime.fromisoformat(s)] are library code. *)
Variable float_of_str : string -> option Z.
Variable int_of_str : string -> option Z.
Variable repr : value -> string.
Variable strip : string -> string.
Variable fromisoformat : string -> option Window.datetime.

(** [float(v)], in cents *)
Definition float (v : value) : result Z :=
  match v with
  | Float cents => Ok cents
  | Int n => Ok (100 * n)
  | Bool b => Ok (if b then 100 else 0)
  | Str s =>
      match float_of_str s with
      | Some cents => Ok cents
      | None => Raise (Other ValueError)
      end
  | _ => Raise (Other TypeError)
  end.

(** [int(v)] *)
Definition int (v : value) : result Z :=
  match v with
  | Int n => Ok n
  | Float cents => Ok (Z.quot cents 100)
  | Bool b => Ok (if b then 1 else 0)
  | Str s =>
      match int_of_str s with
      | Some n => Ok n
      | None => Raise (Other ValueError)
      end
  | _ => Raise (Other TypeError)
  end.

(** [str(v)] *)
Definition str (v : value) : string :=
  match v with
  | PyNone => "None"
  | Bool true => "True"
  | Bool false => "False"
  | Int n => pretty n
  | Str s => s
  | _ => repr v
  end.

(** [float(v) if v else None], [int(v) if v else None] and
    [str(v) if v else None] *)
Definition float_if (v : value) : result value :=
  if truthy v then cents ← float v; Ok (Float cents) else Ok PyNone.

Definition int_if (v : value) : result value :=
  if truthy v then n ← int v; Ok (Int n) else Ok PyNone.

Definition str_if (v : value) : value :=
  if truthy v then Str (str v) else PyNone.

(** [extract_date_time] on a value: [split] is a method of strings. *)
Definition extract_date_time (datetime_str : value) : result (value * value) :=
  if negb (truthy datetime_str) then Ok (PyNone, PyNone)
  else
    match datetime_str with
    | Str s =>
        match Timestamps.extract_date_time (Some s) with
        | Returned (date, time_s) =>
            Ok (from_option Str PyNone date, from_option Str PyNone time_s)
        | Raised e => Raise (Other e)
        end
    | _ => Raise AttributeError
    end.

(** [format_datetime]; the text [replace] returns for a non-empty text
    is not empty, so [and] yields its second operand. *)
Definition format_datetime (datetime_str : value) : result value :=
  if negb (truthy datetime_str) then Ok PyNone
  else
    match datetime_str with
    | Str s =>
        match fromisoformat (PyStr.replace_Z s) with
        | Some dt => Ok (Str (strftime_sql dt))
        | None => Raise (Other ValueError)
        end
    | _ => Raise AttributeError
    end.

(** [[f(x) for x in xs if x]] *)
Definition for_truthy {B : Type} (f : value -> result B) (xs : value)
  : result (list B) :=
  items ← iterate xs; for_all f (List.filter truthy items).

(** [', '.join([f(x) for x in xs if x]) or None] *)
Definition joined (f : value -> result value) (xs : value) : result value :=
  parts ← for_truthy f xs; text ← join ", " parts; Ok (str_or_none text).

(** The rows of one snapshot, from the dict [base] on. *)
Section Order.

Variable order : list (string * value).
Variable customer : list (string * value).
Variables created_date created_time : value.
Variable base : row.

(** The second [row.update] of the loop. *)
Definition line_item_update (it : list (string * value)) (r : row) : result row :=
  line_item_price ← float_if (item it "price" PyNone);
  line_item_quantity ← int_if (item it "quantity" PyNone);
  line_item_total_discount ← float_if (item it "total_discount" PyNone);
  Ok (update
        [("sku", item it "sku" PyNone);
         ("variant_title", item it "variant_title" PyNone);
         ("line_item", item it "title" PyNone);
         ("line_item_price", line_item_price);
         ("line_item_quantity", line_item_quantity);
         ("line_item_total_discount", line_item_total_discount);
         ("product_id", str_if (item it "product_id" PyNone));
         ("variant_id", str_if (item it "variant_id" PyNone))] r).

(** [props[:10]]: a number is not subscriptable, and a dict takes the
    slice for a key (unhashable, [TypeError]; a [KeyError] from
    Python 3.12 on). *)
Definition first_ten (props : value) : result (list value) :=
  match props with
  | List items => Ok (take 10 items)
  | Str s =>
      Ok (take 10 ((fun c => Str (String c EmptyString)) <$> list_ascii_of_string s))
  | _ => Raise (Other TypeError)
  end.

(** One turn of [for idx, prop in enumerate(props[:10])]. *)
Definition property_step (r : row * Z) (prop : value) : result (row * Z) :=
  let '(r, idx) := r in
  if truthy prop then
    name ← get prop "name" (Str "");
    match name with
    | Str name =>
        if String.prefix "_ITEM" name then
          v ← get prop "value" PyNone;
          match or_else v (Str "") with
          | Str v =>
              let value_parts := split "SKU:" (strip v) in
              let first := from_option (fun p => Str (strip p)) PyNone
                             (value_parts !! 0%nat) in
              let second := from_option (fun p => Str (strip p)) PyNone
                              (value_parts !! 1%nat) in
              Ok (<[item_value (idx + 1) := second]>
                    (<[item_name (idx + 1) := first]> r), idx + 1)
          | _ => Raise AttributeError
          end
        else Ok (r, idx + 1)
    | _ => Raise AttributeError
    end
  else Ok (r, idx + 1).

(** One turn of [for note in order.get('note_attributes', [])]; a
    list and a dict cannot be looked up in a dict. *)
Definition note_step (r : row) (note : value) : result row :=
  if truthy note then
    name ← get note "name" PyNone;
    match name with
    | Str name =>
        match r !! name with
        | Some _ => v ← get note "value" PyNone; Ok (<[name := v]> r)
        | None => Ok r
        end
    | List _ | Dict _ => Raise (Other TypeError)
    | _ => Ok r
    end
  else Ok r.

(** The row of the line item [it], the [i]-th of the snapshot. *)
Definition line_item_row (i : nat) (it : value) : result row :=
  let r :=
    match i with
    | O => base
    | S _ =>
        update
          [("created_date", created_date);
           ("created_time", created_time);
           ("order_name", item order "name" PyNone);
           ("customer_id", str_if (item customer "id" PyNone));
           ("tags", or_else (item order "tags" PyNone) PyNone);
           ("customer_tag", item customer "tags" PyNone);
           ("appmaker_platform", item order "appmaker_platform" PyNone);
           ("app_version", item order "app_version" PyNone)]
          ((fun _ => PyNone) <$> base)
    end in
  it ← dict_items it;
  r ← line_item_update it r;
  let props := or_else (item it "properties" (List [])) (List []) in
  let r := r ∪ item_defaults in
  props ← first_ten props;
  r ← fold property_step props (r, 0);
  match i with
  | O =>
      notes ← iterate (item order "note_attributes" (List []));
      fold note_step notes r.1
  | S _ => Ok r.1
  end.

(** [for i, item in enumerate(line_items)], from the index [i] on. *)
Fixpoint line_item_rows (i : nat) (line_items : list value) : result (list row) :=
  match line_items with
  | [] => Ok []
  | it :: rest =>
      if is_none it then line_item_rows (S i) rest
      else
        r ← line_item_row i it;
        rows ← line_item_rows (S i) rest;
        Ok (r :: rows)
  end.

End Order.

(** [app_mapping.get(key, dflt)] *)
Definition mapped (app_mapping : value) (key : string) (dflt : value) : result value :=
  get app_mapping key dflt.

(** The dict [base] of a snapshot, with what the loop over the line
    items reads besides: the items of [customer] and the two texts of
    the creation time. *)
Definition base_of (app_mapping : value) (order : list (string * value))
  : result (row * list (string * value) * value * value) :=
  let customer := or_else (item order "customer" PyNone) (Dict []) in
  let shipping_address := or_else (item order "shipping_address" PyNone) (Dict []) in
  let billing_address := or_else (item order "billing_address" PyNone) (Dict []) in
  let disc_codes := or_else (item order "discount_codes" (List [])) (List []) in
  discount_codes ← joined (fun c => get c "code" (Str "")) disc_codes;
  amounts ← for_truthy (fun c => amount ← get c "amount" (Str "0"); float amount)
              disc_codes;
  let total_discount_amount := foldl Z.add 0 amounts in
  let discount_apps :=
    or_else (item order "discount_applications" (List [])) (List []) in
  discount_app_titles ← joined (fun a => get a "title" (Str "")) discount_apps;
  discount_app_values ←
    joined (fun a => v ← get a "value" (Str ""); Ok (Str (str v))) discount_apps;
  discount_app_types ←
    joined (fun a => v ← get a "app_id" (Str "");
                     mapped app_mapping (str v) (Str "N/A")) discount_apps;
  discount_app_ids ←
    joined (fun a => v ← get a "app_id" (Str ""); Ok (Str (str v))) discount_apps;
  let order_app_id := item order "app_id" PyNone in
  order_app_name ←
    (if truthy order_app_id
     then mapped app_mapping (str order_app_id) (Str (str order_app_id))
     else Ok PyNone);
  gateways ← iterate (item order "payment_gateway_names" (List []));
  gateways ← join ", " gateways;
  let payment_gateway_names := str_or_none gateways in
  let created_at_str := item order "created_at" (Str "") in
  let updated_at_str := item order "updated_at" (Str "") in
  created ← extract_date_time created_at_str;
  updated ← extract_date_time updated_at_str;
  created_at ← format_datetime created_at_str;
  customer ← dict_items customer;
  total_price ← float_if (item order "total_price" PyNone);
  price_set ← dict_items (item order "total_shipping_price_set" (Dict []));
  shop_money ← dict_items (item price_set "shop_money" (Dict []));
  shipping_price ← float (item shop_money "amount" (Str "0"));
  total_tax ← float_if (item order "current_total_tax" PyNone);
  total_discounts ← float_if (item order "total_discounts" PyNone);
  total_duties ← float_if (item order "total_duties" PyNone);
  updated_at ← format_datetime updated_at_str;
  shipping_address ← dict_items shipping_address;
  billing_address ← dict_items billing_address;
  Ok (list_to_map
        [("created_at", created_at);
         ("created_date", created.1);
         ("created_time", created.2);
         ("order_id", str_if (item order "id" PyNone));
         ("order_name", item order "name" PyNone);
         ("customer_id", str_if (item customer "id" PyNone));
         ("customer_email", item customer "email" PyNone);
         ("customer_first_name", item customer "first_name" PyNone);
         ("customer_last_name", item customer "last_name" PyNone);
         ("customer_phone", item customer "phone" PyNone);
         ("financial_status", item order "financial_status" PyNone);
         ("fulfillment_status",
          or_else (item order "fulfillment_status" PyNone) (Str "Unfulfilled"));
         ("currency", item order "currency" PyNone);
         ("discount_codes", discount_codes);
         ("discount_amount",
          if 0 <? total_discount_amount then Float total_discount_amount else PyNone);
         ("discount_application_titles", discount_app_titles);
         ("discount_application_values", discount_app_values);
         ("discount_application_types", discount_app_types);
         ("discount_application_ids", discount_app_ids);
         ("order_app_id", str_if order_app_id);
         ("order_app_name", order_app_name);
         ("total_price", total_price);
         ("shipping_price", float_or_none shipping_price);
         ("total_tax", total_tax);
         ("payment_gateway_names", payment_gateway_names);
         ("total_discounts", total_discounts);
         ("total_duties", total_duties);
         ("sku", PyNone); ("variant_title", PyNone); ("line_item", PyNone);
         ("line_item_price", PyNone); ("line_item_quantity", PyNone);
         ("line_item_total_discount", PyNone); ("product_id", PyNone);
         ("variant_id", PyNone);
         ("tags", or_else (item order "tags" PyNone) PyNone);
         ("updated_at", updated_at);
         ("updated_date", updated.1);
         ("updated_time", updated.2);
         ("orig_referrer", item order "orig_referrer" PyNone);
         ("full_url", item order "full_url" PyNone);
         ("customer_ip", item order "customer_ip" PyNone);
         ("pg_order_id", item order "pg_order_id" PyNone);
         ("shipping_address", item shipping_address "address1" PyNone);
         ("shipping_phone", item shipping_address "phone" PyNone);
         ("shipping_city", item shipping_address "city" PyNone);
         ("shipping_zip", item shipping_address "zip" PyNone);
         ("shipping_province", item shipping_address "province" PyNone);
         ("billing_address", item billing_address "address1" PyNone);
         ("billing_phone", item billing_address "phone" PyNone);
         ("billing_city", item billing_address "city" PyNone);
         ("billing_zip", item billing_address "zip" PyNone);
         ("billing_province", item billing_address "province" PyNone);
         ("customer_tag", item customer "tags" PyNone);
         ("appmaker_platform", item order "appmaker_platform" PyNone);
         ("app_version", item order "app_version" PyNone)],
      customer, created.1, created.2).

(** The body of [for order in orders_list]: the rows one snapshot adds
    to [order_data]. *)
Definition order_rows (app_mapping order : value) : result (list row) :=
  order ← dict_items order;
  '(base, customer, created_date, created_time) ← base_of app_mapping order;
  let line_items := item order "line_items" (List []) in
  if negb (truthy line_items) then Ok [base]
  else
    line_items ← iterate line_items;
    line_item_rows order customer created_date created_time base 0 line_items.

(** [pd.DataFrame(order_data)] has the columns of all the rows, a row
    without a column holding NaN there; [df.replace] then turns NaN,
    ['N/A'] and [''] into [None]. *)
Definition replaced (v : value) : value :=
  match v with
  | Str s => if String.eqb s "" || String.eqb s "N/A" then PyNone else v
  | _ => v
  end.

Definition columns (order_data : list row) : gset string :=
  ⋃ (dom <$> order_data).

Definition DataFrame (order_data : list row) : list row :=
  (fun r => replaced <$> (r ∪ gset_to_gmap PyNone (columns order_data)))
    <$> order_data.

Definition transform_orders_to_df_optimized (orders_list : list value)
    (app_mapping : value) : result (list row) :=
  match orders_list with
  | [] => Ok []
  | _ =>
      rows ← for_all (order_rows app_mapping) orders_list;
      Ok (DataFrame (concat rows))
  end.

End Builtins.

(** The cell of a row of the frame. *)
Definition cell (r : row) (column : string) : value := default PyNone (r !! column).

(** The line items of a snapshot, when it has a list of them. *)
Definition line_items_of (order : value) : list value :=
  match order with
  | Dict items =>
      match lookup "line_items" items with
      | Some (List line_items) => line_items
      | _ => []
      end
  | _ => []
  end.

(** The number of rows a snapshot is flattened into. *)
Definition rows_of (order : value) : nat :=
  match line_items_of order with
  | [] => 1%nat
  | line_items => length (List.filter (fun it => negb (is_none it)) line_items)
  end.

(** The keys of a snapshot. *)
Definition keys_of (order : value) : list string :=
  match order with
  | Dict items => items.*1
  | _ => []
  end.

(** A parser of decimal texts with at most two decimals, for concrete
    runs: [float] on the amounts the upstream API sends. *)
Definition cents_of_text (s : string) : option Z :=
  match PyStr.split "." s with
  | [units] => (fun n => 100 * n) <$> IsoFormat.digits_acc units 0
  | [units; decimals] =>
      match IsoFormat.digits_acc units 0, IsoFormat.number 2 decimals with
      | Some n, Some d => Some (100 * n + d)
      | _, _ => None
      end
  | _ => None
  end.

(** The fields the fetcher asks the upstream API for. *)
Definition requested : list string := PyStr.split "," Fetcher.fields.

(** The columns of [base] that are filled from those fields, with the
    two that are filled whatever the snapshot holds. *)
Definition filled_columns : list string :=
  ["created_at"; "created_date"; "created_time"; "order_id"; "order_name";
   "financial_status"; "fulfillment_status"; "order_app_id"; "order_app_name";
   "total_price"; "shipping_price"; "payment_gateway_names";
   "updated_at"; "updated_date"; "updated_time"].

(** [fromisoformat] on the timestamps of the upstream API, for concrete
    runs: the wall-clock reading with the offset. *)
Definition wall_clock (s : string) : option Window.datetime :=
  match IsoFormat.instant s,
        IsoFormat.offset_seconds (String.substring (String.length s - 6) 6 s) with
  | Some t, Some off => Some (Window.mk_datetime (t + off) (Some off))
  | _, _ => None
  end.

End Flatten.

(** *** Scenarios of the flattening

    A snapshot with two line items, a snapshot whose first line item is
    null, a snapshot as the field list of the fetcher leaves it, and a
    snapshot whose creation time has no [T]. *)
Definition flatten (orders_list : list Flatten.value)
  : Flatten.result (list (gmap string Flatten.value)) :=
  Flatten.transform_orders_to_df_optimized Flatten.cents_of_text
    (fun s => IsoFormat.digits_acc s 0) (fun _ => EmptyString)
    (PyStr.strip [" "%char]) Flatten.wall_clock orders_list (Flatten.Dict []).

Definition shirt : Flatten.value :=
  Flatten.Dict [("sku", Flatten.Str "SHIRT"); ("title", Flatten.Str "Shirt");
                ("price", Flatten.Str "200.00"); ("quantity", Flatten.Int 2)].

Definition socks : Flatten.value :=
  Flatten.Dict [("sku", Flatten.Str "SOCKS"); ("title", Flatten.Str "Socks");
                ("price", Flatten.Str "100.00"); ("quantity", Flatten.Int 1)].

Definition snapshot_with (created_at : string) (line_items : list Flatten.value)
  : Flatten.value :=
  Flatten.Dict [("id", Flatten.Int 8); ("name", Flatten.Str "#1008");
                ("created_at", Flatten.Str created_at);
                ("updated_at", Flatten.Str "2024-02-10T09:30:00+05:30");
                ("total_price", Flatten.Str "500.00");
                ("financial_status", Flatten.Str "paid");
                ("line_items", Flatten.List line_items)].

Definition fetched_snapshot : Flatten.value :=
  Flatten.Dict [("id", Flatten.Int 8); ("name", Flatten.Str "#1008");
                ("created_at", Flatten.Str "2024-02-10T09:30:00+05:30");
                ("updated_at", Flatten.Str "2024-02-10T09:30:00+05:30");
                ("cancelled_at", Flatten.PyNone);
                ("total_price", Flatten.Str "500.00");
                ("financial_status", Flatten.Str "paid");
                ("payment_gateway_names", Flatten.List [Flatten.Str "Razorpay"]);
                ("app_id", Flatten.Int 580111);
                ("refunds", Flatten.List [])].

(** * Proofs *)

(** ** Order on ISO dates *)

Lemma string_leb_refl (a : string) : String.leb a a = true.
Proof.
  destruct (String.leb_total a a) as [H | H]; exact H.
Qed.

Lemma string_leb_iff (a b : string) :
  String.leb a b = true ↔ a = b ∨ OrderedTypeEx.String_as_OT.lt a b.
Proof.
  unfold String.leb.
  destruct (String.compare a b) eqn:Hc.
  - apply OrderedTypeEx.String_as_OT.cmp_eq in Hc. tauto.
  - apply OrderedTypeEx.String_as_OT.cmp_lt in Hc. tauto.
  - split; [discriminate |].
    intros [-> | Hlt].
    + assert (String.compare b b = Eq) as He
        by (apply OrderedTypeEx.String_as_OT.cmp_eq; reflexivity).
      unfold OrderedTypeEx.String_as_OT.cmp in *. congruence.
    + apply OrderedTypeEx.String_as_OT.cmp_lt in Hlt.
      unfold OrderedTypeEx.String_as_OT.cmp in *. congruence.
Qed.

Lemma string_leb_trans (a b c : string) :
  String.leb a b = true → String.leb b c = true → String.leb a c = true.
Proof.
  rewrite !string_leb_iff.
  intros [-> | Hab] [-> | Hbc]; auto.
  right. eapply OrderedTypeEx.String_as_OT.lt_trans; eassumption.
Qed.

Lemma string_leb_false (a b : string) :
  String.leb a b = false → String.leb b a = true.
Proof.
  intros H. destruct (String.leb_total a b) as [H' | H']; congruence.
Qed.

(** ** ISO dates are ordered like the days they denote *)

Module DateOrder.
Import Calendar.

Lemma year_of_era_correct (doe : Z) :
  0 <= doe <= 146096 →
  let yoe := (doe - doe / 1460 + doe / 36524 - doe / 146096) / 365 in
  0 <= yoe <= 399
  ∧ year_start yoe <= doe
  ∧ (doe < year_start (yoe + 1) ∨ doe = 146096).
Proof.
  intros H yoe. subst yoe. unfold year_start.
  Z.div_mod_to_equations; lia.
Qed.

Lemma year_start_mono (k1 k2 : Z) :
  0 <= k1 <= k2 → year_start k1 <= year_start k2.
Proof. unfold year_start. intros. Z.div_mod_to_equations; lia. Qed.

Lemma year_start_next (k : Z) :
  0 <= k → year_start k + 365 <= year_start (k + 1) <= year_start k + 366.
Proof. unfold year_start. intros. Z.div_mod_to_equations; lia. Qed.

Lemma month_day_bounds (doy : Z) :
  0 <= doy <= 365 →
  let mp := (5 * doy + 2) / 153 in
  0 <= mp <= 11 ∧ 1 <= doy - (153 * mp + 2) / 5 + 1 <= 31.
Proof. intros H mp. subst mp. Z.div_mod_to_equations; lia. Qed.

Lemma month_day_mono (doy1 doy2 : Z) :
  0 <= doy1 < doy2 → doy2 <= 365 →
  let mp1 := (5 * doy1 + 2) / 153 in
  let mp2 := (5 * doy2 + 2) / 153 in
  mp1 < mp2
  ∨ (mp1 = mp2
     ∧ doy1 - (153 * mp1 + 2) / 5 + 1 < doy2 - (153 * mp2 + 2) / 5 + 1).
Proof. intros H H' mp1 mp2. subst mp1 mp2. Z.div_mod_to_equations; lia. Qed.

(** Year of the era and day of that year, for a day of the era. *)
Lemma day_of_year_bounds (doe : Z) :
  0 <= doe <= 146096 →
  let yoe := (doe - doe / 1460 + doe / 36524 - doe / 146096) / 365 in
  0 <= doe - year_start yoe <= 365.
Proof.
  intros H yoe.
  destruct (year_of_era_correct doe H) as (Hy & Hlo & Hhi). fold yoe in Hy, Hlo, Hhi.
  pose proof (year_start_next yoe).
  split; [lia |]. destruct Hhi as [Hhi | ->]; [lia |].
  subst yoe. vm_compute. discriminate.
Qed.

Lemma civil_in_era_bounds (doe : Z) :
  0 <= doe <= 146096 →
  0 <= (civil_in_era doe).1.1 <= 400
  ∧ 1 <= (civil_in_era doe).1.2 <= 12
  ∧ 1 <= (civil_in_era doe).2 <= 31
  ∧ ((civil_in_era doe).1.1 = 0 → 3 <= (civil_in_era doe).1.2)
  ∧ ((civil_in_era doe).1.1 = 400 → (civil_in_era doe).1.2 <= 2).
Proof.
  intros H.
  destruct (year_of_era_correct doe H) as (Hy & _ & _).
  pose proof (day_of_year_bounds doe H) as Hdoy.
  unfold civil_in_era. cbv zeta in *. unfold year_start in Hdoy.
  set (yoe := (doe - doe / 1460 + doe / 36524 - doe / 146096) / 365) in *.
  set (doy := doe - (365 * yoe + yoe / 4 - yoe / 100)) in *.
  destruct (month_day_bounds doy Hdoy) as [Hmp Hd].
  set (mp := (5 * doy + 2) / 153) in *.
  cbn [fst snd].
  destruct (Z.ltb_spec mp 10);
    destruct (Z.leb_spec (mp + 3) 2); destruct (Z.leb_spec (mp - 9) 2); lia.
Qed.

Lemma civil_in_era_mono (a b : Z) :
  0 <= a < b → b <= 146096 → civil_lt (civil_in_era a) (civil_in_era b).
Proof.
  intros Hab Hb.
  assert (0 <= a <= 146096) as Ha by lia.
  assert (0 <= b <= 146096) as Hb' by lia.
  destruct (year_of_era_correct a Ha) as (Hya & Hloa & Hhia).
  destruct (year_of_era_correct b Hb') as (Hyb & Hlob & Hhib).
  pose proof (day_of_year_bounds a Ha) as Hdoya.
  pose proof (day_of_year_bounds b Hb') as Hdoyb.
  unfold civil_in_era, civil_lt. cbv zeta in *.
  set (ya := (a - a / 1460 + a / 36524 - a / 146096) / 365) in *.
  set (yb := (b - b / 1460 + b / 36524 - b / 146096) / 365) in *.
  assert (ya <= yb) as Hyab.
  { destruct (Z.le_gt_cases ya yb) as [? | Hgt]; [done |].
    pose proof (year_start_mono (yb + 1) ya).
    destruct Hhib as [Hhib | ->]; [lia |].
    assert (yb = 399) by (subst yb; vm_compute; reflexivity). lia. }
  unfold year_start in *.
  set (doya := a - (365 * ya + ya / 4 - ya / 100)) in *.
  set (doyb := b - (365 * yb + yb / 4 - yb / 100)) in *.
  destruct (month_day_bounds doya Hdoya) as [Hmpa Hda].
  destruct (month_day_bounds doyb Hdoyb) as [Hmpb Hdb].
  assert (ya = yb → (5 * doya + 2) / 153 < (5 * doyb + 2) / 153
                    ∨ ((5 * doya + 2) / 153 = (5 * doyb + 2) / 153
                       ∧ doya - (153 * ((5 * doya + 2) / 153) + 2) / 5 + 1
                         < doyb - (153 * ((5 * doyb + 2) / 153) + 2) / 5 + 1))
    as Hsame.
  { intros Heq. apply month_day_mono; [| lia].
    subst doya doyb. clearbody ya yb. subst ya. lia. }
  set (mpa := (5 * doya + 2) / 153) in *.
  set (mpb := (5 * doyb + 2) / 153) in *.
  set (da := doya - (153 * mpa + 2) / 5 + 1) in *.
  set (db := doyb - (153 * mpb + 2) / 5 + 1) in *.
  cbn [fst snd].
  destruct (Z.ltb_spec mpa 10); destruct (Z.ltb_spec mpb 10);
    destruct (Z.leb_spec (mpa + 3) 2); destruct (Z.leb_spec (mpa - 9) 2);
    destruct (Z.leb_spec (mpb + 3) 2); destruct (Z.leb_spec (mpb - 9) 2);
    try lia.
Qed.

Lemma civil_from_days_era (n : Z) :
  civil_from_days n
  = let era := (n + 719468) / 146097 in
    let date := civil_in_era (n + 719468 - era * 146097) in
    (date.1.1 + era * 400, date.1.2, date.2).
Proof.
  unfold civil_from_days, civil_in_era. cbv zeta. cbn [fst snd].
  match goal with |- context [if ?c then _ else _] => destruct c end;
    f_equal; f_equal; lia.
Qed.

(** A later day has a later civil date. *)
Lemma civil_from_days_mono (n1 n2 : Z) :
  n1 < n2 → civil_lt (civil_from_days n1) (civil_from_days n2).
Proof.
  intros Hlt. rewrite !civil_from_days_era. cbv zeta.
  set (e1 := (n1 + 719468) / 146097). set (e2 := (n2 + 719468) / 146097).
  set (doe1 := n1 + 719468 - e1 * 146097). set (doe2 := n2 + 719468 - e2 * 146097).
  assert (0 <= doe1 <= 146096 ∧ 0 <= doe2 <= 146096 ∧ e1 <= e2
          ∧ (e1 = e2 → doe1 < doe2)) as (H1 & H2 & He & Hdoe).
  { subst doe1 doe2 e1 e2. Z.div_mod_to_equations. lia. }
  pose proof (civil_in_era_bounds doe1 H1) as (By1 & Bm1 & Bd1 & Bz1 & Bt1).
  pose proof (civil_in_era_bounds doe2 H2) as (By2 & Bm2 & Bd2 & Bz2 & Bt2).
  unfold civil_lt. cbn [fst snd].
  destruct (decide (e1 = e2)) as [Heq | Hne].
  - pose proof (civil_in_era_mono doe1 doe2) as Hmono.
    unfold civil_lt in Hmono. rewrite Heq.
    destruct Hmono as [? | [? ?]]; [lia | lia | left; lia | right; split; [lia | done]].
  - destruct (decide ((civil_in_era doe1).1.1 + e1 * 400
                      = (civil_in_era doe2).1.1 + e2 * 400)) as [Hy | Hy].
    + right. split; [done |]. left.
      assert ((civil_in_era doe1).1.1 = 400 ∧ (civil_in_era doe2).1.1 = 0)
        as [Ht Hz] by lia.
      specialize (Bt1 Ht). specialize (Bz2 Hz). lia.
    + left. lia.
Qed.

(** The text side: digits compare like the numbers they print. *)
Lemma digit_compare (a b : Z) :
  Ascii.compare (digit a) (digit b) = (a mod 10 ?= b mod 10).
Proof.
  unfold digit.
  pose proof (Z.mod_pos_bound a 10 eq_refl) as Ha.
  pose proof (Z.mod_pos_bound b 10 eq_refl) as Hb.
  set (x := a mod 10) in *. set (y := b mod 10) in *.
  assert (x ∈ [0; 1; 2; 3; 4; 5; 6; 7; 8; 9]) as Hx.
  { rewrite !elem_of_cons. lia. }
  assert (y ∈ [0; 1; 2; 3; 4; 5; 6; 7; 8; 9]) as Hy.
  { rewrite !elem_of_cons. lia. }
  clearbody x y. clear Ha Hb.
  rewrite !elem_of_cons, elem_of_nil in Hx, Hy.
  repeat (destruct Hx as [-> | Hx]); try done;
    repeat (destruct Hy as [-> | Hy]); try done.
Qed.

Lemma compare_cons (c1 c2 : ascii) (s1 s2 : string) :
  String.compare (String c1 s1) (String c2 s2)
  = lexc (Ascii.compare c1 c2) (String.compare s1 s2).
Proof. cbn [String.compare]. by destruct (Ascii.compare c1 c2). Qed.

Lemma ascii_compare_refl (c : ascii) : Ascii.compare c c = Eq.
Proof. unfold Ascii.compare. apply N.compare_refl. Qed.

Lemma iso_text_eq (date : Z * Z * Z) :
  iso_text date
  = String (digit (date.1.1 / 1000)) (String (digit (date.1.1 / 100))
      (String (digit (date.1.1 / 10)) (String (digit date.1.1)
      (String "-" (String (digit (date.1.2 / 10)) (String (digit date.1.2)
      (String "-" (String (digit (date.2 / 10)) (String (digit date.2)
       EmptyString))))))))).
Proof. reflexivity. Qed.

(** An earlier civil date has the smaller text, for four-digit years and
    two-digit months and days. *)
Lemma iso_text_mono (a b : Z * Z * Z) :
  0 <= a.1.1 < 10000 → 0 <= a.1.2 < 100 → 0 <= a.2 < 100 →
  0 <= b.1.1 < 10000 → 0 <= b.1.2 < 100 → 0 <= b.2 < 100 →
  civil_lt a b →
  String.compare (iso_text a) (iso_text b) = Lt.
Proof.
  destruct a as [[y1 m1] d1], b as [[y2 m2] d2]. unfold civil_lt. cbn [fst snd].
  intros Hy1 Hm1 Hd1 Hy2 Hm2 Hd2 Hlt.
  rewrite !iso_text_eq. cbn [fst snd].
  rewrite !compare_cons, !digit_compare, !ascii_compare_refl.
  cbn [String.compare lexc].
  repeat match goal with
         | |- lexc (?x ?= ?y) _ = Lt =>
             destruct (Z.compare_spec x y);
             [cbn [lexc] | reflexivity | exfalso; Z.div_mod_to_equations; lia]
         end.
  exfalso. Z.div_mod_to_equations. lia.
Qed.

Lemma civil_from_days_bounds (n : Z) :
  1 <= (civil_from_days n).1.2 <= 12 ∧ 1 <= (civil_from_days n).2 <= 31.
Proof.
  rewrite civil_from_days_era. cbv zeta. cbn [fst snd].
  set (e := (n + 719468) / 146097).
  assert (0 <= n + 719468 - e * 146097 <= 146096) as H
    by (subst e; Z.div_mod_to_equations; lia).
  pose proof (civil_in_era_bounds _ H). tauto.
Qed.

Lemma isoformat_date_text (n : Z) (s : string) :
  isoformat_date n = Some s →
  s = iso_text (civil_from_days n) ∧ 1 <= (civil_from_days n).1.1 <= 9999.
Proof.
  unfold isoformat_date, iso_text.
  destruct (civil_from_days n) as [[y m] d]. cbn [fst snd].
  destruct (Z.leb_spec 1 y), (Z.leb_spec y 9999); cbn [andb]; try done.
  intros [= <-]. split; [done | lia].
Qed.

Lemma isoformat_date_lt (n1 n2 : Z) (s1 s2 : string) :
  isoformat_date n1 = Some s1 → isoformat_date n2 = Some s2 →
  n1 < n2 → String.compare s1 s2 = Lt.
Proof.
  intros [-> Hy1]%isoformat_date_text [-> Hy2]%isoformat_date_text Hlt.
  pose proof (civil_from_days_bounds n1). pose proof (civil_from_days_bounds n2).
  apply iso_text_mono; [lia .. |]. by apply civil_from_days_mono.
Qed.

(** The dates the pipeline compares as texts ([min], [max], [BETWEEN]) are
    ordered like the days they denote. *)
Lemma isoformat_date_order (n1 n2 : Z) (s1 s2 : string) :
  isoformat_date n1 = Some s1 → isoformat_date n2 = Some s2 →
  (date_le s1 s2 ↔ n1 <= n2).
Proof.
  intros H1 H2. unfold date_le, String.leb.
  destruct (Z.lt_total n1 n2) as [Hlt | [-> | Hgt]].
  - rewrite (isoformat_date_lt _ _ _ _ H1 H2 Hlt). split; [lia | done].
  - assert (s1 = s2) as -> by congruence.
    assert (String.compare s2 s2 = Eq) as ->.
    { apply OrderedTypeEx.String_as_OT.cmp_eq. reflexivity. }
    split; [lia | done].
  - pose proof (isoformat_date_lt _ _ _ _ H2 H1 Hgt) as Hc.
    rewrite String.compare_antisym, Hc. cbn. split; [done | lia].
Qed.

Lemma isoformat_date_inj (n1 n2 : Z) (s : string) :
  isoformat_date n1 = Some s → isoformat_date n2 = Some s → n1 = n2.
Proof.
  intros H1 H2.
  pose proof (proj1 (isoformat_date_order n1 n2 s s H1 H2) (string_leb_refl s)).
  pose proof (proj1 (isoformat_date_order n2 n1 s s H2 H1) (string_leb_refl s)).
  lia.
Qed.

End DateOrder.

(** ** The upsert of a batch is a left-biased union *)

Lemma foldl_insert_union {K V : Type} `{Countable K}
    (l : list (K * V)) (store : gmap K V) :
  NoDup l.*1 →
  foldl (fun m kv => <[kv.1 := kv.2]> m) store l = list_to_map l ∪ store.
Proof.
  revert store. induction l as [| [k v] l IH]; intros store Hnd; simpl.
  - by rewrite (left_id_L ∅ (∪)).
  - inversion Hnd as [| ? ? Hk Hnd']; subst.
    rewrite IH by done.
    apply map_eq. intros i.
    rewrite !lookup_union.
    destruct (decide (i = k)) as [-> | Hne].
    + rewrite !lookup_insert_eq.
      rewrite (not_elem_of_list_to_map_1 _ _ Hk). by destruct (store !! k).
    + rewrite !lookup_insert_ne by done. done.
Qed.

Lemma executemany_upsert_union (agg store : gmap fact_key Z) :
  executemany_upsert (fact_rows agg) store = agg ∪ store.
Proof.
  unfold executemany_upsert, fact_rows.
  rewrite <- (list_to_map_to_list agg) at 2.
  rewrite <- foldl_insert_union by apply NoDup_fst_map_to_list.
  generalize (map_to_list agg). intros l. revert store.
  induction l as [| [[[oid ty] d] v] l IH]; intros store; simpl; [done |].
  apply IH.
Qed.

Lemma upsert_returns_fact_from_orders_union fromiso batch store :
  upsert_returns_fact_from_orders fromiso batch store
  = agg ← aggregate fromiso batch; Returned (agg ∪ store).
Proof.
  unfold upsert_returns_fact_from_orders.
  destruct batch as [| o batch].
  - simpl. by rewrite (left_id_L ∅ (∪)).
  - destruct (aggregate fromiso (o :: batch)) as [agg | e]; simpl; [| done].
    destruct (decide (agg = ∅)) as [-> | Hne].
    + by rewrite (left_id_L ∅ (∪)).
    + by rewrite executemany_upsert_union.
Qed.

(** ** The dictionary built by the reconciler *)

Section ReconcilerFacts.

Variable fromisoformat : string -> option Z.

Lemma sumZ_cons (x : Z) (l : list Z) : sumZ (x :: l) = x + sumZ l.
Proof. reflexivity. Qed.

Lemma foldl_refund_sum_step (acc : Z) (txns : list transaction) :
  foldl refund_sum_step acc txns = acc + sumZ (txn_magnitude <$> txns).
Proof.
  revert acc. induction txns as [| t txns IH]; intros acc.
  - simpl. lia.
  - rewrite fmap_cons, sumZ_cons. cbn [foldl]. rewrite IH.
    unfold refund_sum_step at 1. unfold txn_magnitude at 2.
    destruct (is_return_kind t); [| lia].
    destruct (t_amount t); simpl; lia.
Qed.

Lemma sumZ_nonneg (l : list Z) : Forall (fun x => 0 <= x) l → 0 <= sumZ l.
Proof. induction 1; simpl; lia. Qed.

Lemma refund_magnitude_nonneg (rf : refund) : 0 <= refund_magnitude rf.
Proof.
  apply sumZ_nonneg. apply Forall_fmap, Forall_forall. intros t _. simpl.
  unfold txn_magnitude. destruct (is_return_kind t); lia.
Qed.

Lemma refund_step_cancel oid agg rf oid' d :
  refund_step fromisoformat oid agg rf !! (oid', CANCEL, d) = agg !! (oid', CANCEL, d).
Proof.
  unfold refund_step.
  destruct (_parse_iso_to_ist_date fromisoformat (rf_created_at rf)); [| done].
  destruct (0 <? _); [| done].
  by rewrite lookup_insert_ne.
Qed.

Lemma refund_step_amount oid agg rf oid' d :
  amount_at (refund_step fromisoformat oid agg rf) (oid', REFUND, d)
  = amount_at agg (oid', REFUND, d)
    + (if decide (oid = oid' ∧ ist_date fromisoformat (rf_created_at rf) = Some d)
       then refund_magnitude rf else 0).
Proof.
  unfold refund_step, ist_date, amount_at.
  rewrite foldl_refund_sum_step. fold (refund_magnitude rf).
  pose proof (refund_magnitude_nonneg rf) as Hnn.
  destruct (_parse_iso_to_ist_date fromisoformat (rf_created_at rf)) as [rdate |].
  - destruct (0 <? 0 + refund_magnitude rf) eqn:Hpos.
    + case_decide as Hk.
      * destruct Hk as [-> [= ->]]. rewrite lookup_insert_eq. simpl. lia.
      * rewrite lookup_insert_ne; [lia |]. intros [= -> ->]. by apply Hk.
    + apply Z.ltb_ge in Hpos. case_decide; lia.
  - case_decide as Hk; [| lia]. by destruct Hk as [_ ?].
Qed.

Lemma refund_step_positive oid agg rf :
  refunds_positive agg → refunds_positive (refund_step fromisoformat oid agg rf).
Proof.
  intros Hpos oid' d v. unfold refund_step.
  rewrite foldl_refund_sum_step.
  destruct (_parse_iso_to_ist_date fromisoformat (rf_created_at rf)) as [rdate |];
    [| apply Hpos].
  destruct (0 <? 0 + sumZ _) eqn:Hs; [| apply Hpos].
  apply Z.ltb_lt in Hs.
  destruct (decide ((oid, REFUND, rdate) = (oid', REFUND, d))) as [Heq | Hne].
  - rewrite Heq, lookup_insert_eq. intros [= <-].
    destruct (agg !! (oid', REFUND, d)) as [v0 |] eqn:Hv0; simpl; [| lia].
    apply Hpos in Hv0. lia.
  - rewrite lookup_insert_ne by done. apply Hpos.
Qed.

Lemma refunds_cancel oid agg rfs oid' d :
  foldl (refund_step fromisoformat oid) agg rfs !! (oid', CANCEL, d)
  = agg !! (oid', CANCEL, d).
Proof.
  revert agg. induction rfs as [| rf rfs IH]; intros agg; simpl; [done |].
  by rewrite IH, refund_step_cancel.
Qed.

Lemma refunds_amount oid agg rfs oid' d :
  amount_at (foldl (refund_step fromisoformat oid) agg rfs) (oid', REFUND, d)
  = amount_at agg (oid', REFUND, d)
    + (if decide (oid = oid')
       then sumZ (refund_magnitude <$>
              filter (fun rf => ist_date fromisoformat (rf_created_at rf) = Some d) rfs)
       else 0).
Proof.
  revert agg. induction rfs as [| rf rfs IH]; intros agg.
  - simpl. case_decide; lia.
  - cbn [foldl]. rewrite IH, refund_step_amount, filter_cons.
    destruct (decide (oid = oid')) as [-> | Hne].
    + destruct (decide (ist_date fromisoformat (rf_created_at rf) = Some d)) as [Hd | Hd].
      * rewrite decide_True by done. rewrite fmap_cons, sumZ_cons. lia.
      * rewrite decide_False by tauto. lia.
    + rewrite decide_False by tauto. lia.
Qed.

Lemma refunds_positive_foldl oid agg rfs :
  refunds_positive agg →
  refunds_positive (foldl (refund_step fromisoformat oid) agg rfs).
Proof.
  revert agg. induction rfs as [| rf rfs IH]; intros agg Hpos; simpl; [done |].
  by apply IH, refund_step_positive.
Qed.

(** The CANCEL step raises exactly on a cancelled snapshot whose total
    price is malformed. *)
Lemma cancel_step_outcome oid agg o :
  cancel_step fromisoformat oid agg o =
  match ist_date fromisoformat (o_cancelled_at o) with
  | Some d =>
      match o_total_price o with
      | MoneyBad => Raised ValueError
      | price =>
          Returned (<[(oid, CANCEL, d) :=
                      Z.max (amount_at agg (oid, CANCEL, d)) (price_cents price)]> agg)
      end
  | None => Returned agg
  end.
Proof.
  unfold cancel_step, ist_date, amount_at.
  destruct (o_cancelled_at o) as [[| c s] |]; simpl; try done.
  destruct (fromisoformat _ ≫= _) as [d |]; [| done].
  by destruct (o_total_price o).
Qed.

Lemma reconcile_order_skip agg o :
  order_oid o = None → reconcile_order fromisoformat agg o = Returned agg.
Proof. unfold reconcile_order. by intros ->. Qed.

Lemma reconcile_order_outcome agg o oid :
  order_oid o = Some oid →
  reconcile_order fromisoformat agg o =
  (agg' ← cancel_step fromisoformat oid agg o;
   Returned (foldl (refund_step fromisoformat oid) agg' (o_refunds o))).
Proof. unfold reconcile_order. by intros ->. Qed.

Lemma reconcile_order_refund agg o agg' oid' d :
  reconcile_order fromisoformat agg o = Returned agg' →
  amount_at agg' (oid', REFUND, d)
  = amount_at agg (oid', REFUND, d)
    + (if decide (order_oid o = Some oid')
       then snapshot_refund_total fromisoformat o d else 0).
Proof.
  destruct (order_oid o) as [oid |] eqn:Hoid.
  - rewrite (reconcile_order_outcome _ _ _ Hoid), cancel_step_outcome.
    assert (∀ a1, amount_at (foldl (refund_step fromisoformat oid) a1 (o_refunds o))
                            (oid', REFUND, d)
                  = amount_at a1 (oid', REFUND, d)
                    + (if decide (Some oid = Some oid')
                       then snapshot_refund_total fromisoformat o d else 0)) as Hfold.
    { intros a1. rewrite refunds_amount. unfold snapshot_refund_total.
      destruct (decide (oid = oid')) as [-> | Hne].
      - by rewrite decide_True.
      - rewrite decide_False; [done | congruence]. }
    destruct (ist_date fromisoformat (o_cancelled_at o)) as [dc |].
    + destruct (o_total_price o); simpl; intros [= <-]; rewrite ?Hfold;
        unfold amount_at; by rewrite lookup_insert_ne.
    + simpl. intros [= <-]. apply Hfold.
  - rewrite reconcile_order_skip by done. intros [= <-].
    rewrite decide_False by done. lia.
Qed.

Lemma reconcile_order_positive agg o agg' :
  reconcile_order fromisoformat agg o = Returned agg' →
  refunds_positive agg → refunds_positive agg'.
Proof.
  destruct (order_oid o) as [oid |] eqn:Hoid.
  - rewrite (reconcile_order_outcome _ _ _ Hoid), cancel_step_outcome.
    intros Hrun Hpos.
    assert (∀ dc a, refunds_positive (<[(oid, CANCEL, dc) := a]> agg)) as Hins.
    { intros dc a oid' d v. rewrite lookup_insert_ne by done. apply Hpos. }
    destruct (ist_date fromisoformat (o_cancelled_at o)) as [dc |].
    + destruct (o_total_price o); simpl in Hrun; inversion Hrun; subst;
        by apply refunds_positive_foldl.
    + simpl in Hrun. inversion Hrun; subst. by apply refunds_positive_foldl.
  - rewrite reconcile_order_skip by done. by intros [= <-].
Qed.

Lemma reconcile_order_cancel agg o agg' oid' d :
  reconcile_order fromisoformat agg o = Returned agg' →
  agg' !! (oid', CANCEL, d)
  = if decide (order_oid o = Some oid'
               ∧ ist_date fromisoformat (o_cancelled_at o) = Some d)
    then Some (Z.max (amount_at agg (oid', CANCEL, d)) (price_cents (o_total_price o)))
    else agg !! (oid', CANCEL, d).
Proof.
  destruct (order_oid o) as [oid |] eqn:Hoid.
  - rewrite (reconcile_order_outcome _ _ _ Hoid), cancel_step_outcome.
    destruct (ist_date fromisoformat (o_cancelled_at o)) as [dc |].
    + destruct (o_total_price o) eqn:Hp; simpl; [| | done];
        intros [= <-]; rewrite refunds_cancel;
        (case_decide as Hk;
         [ destruct Hk as [[= ->] [= ->]]; by rewrite lookup_insert_eq
         | rewrite lookup_insert_ne; [done |];
           intros [= -> ->]; by apply Hk ]).
    + simpl. intros [= <-]. rewrite refunds_cancel.
      rewrite decide_False; [done |]. by intros [_ ?].
  - rewrite reconcile_order_skip by done. intros [= <-].
    rewrite decide_False; [done |]. by intros [? _].
Qed.

(** The loop over the batch, started from any dictionary. *)

Lemma for_each_refund batch agg agg' oid d :
  for_each (reconcile_order fromisoformat) batch agg = Returned agg' →
  amount_at agg' (oid, REFUND, d)
  = amount_at agg (oid, REFUND, d) + batch_refund_total fromisoformat batch oid d.
Proof.
  revert agg. induction batch as [| o batch IH]; intros agg; cbn [for_each].
  - intros [= <-]. unfold batch_refund_total. simpl. lia.
  - destruct (reconcile_order fromisoformat agg o) as [agg1 |] eqn:Ho; simpl; [| done].
    intros Hrest. rewrite (IH _ Hrest), (reconcile_order_refund _ _ _ _ _ Ho).
    unfold batch_refund_total. rewrite filter_cons.
    case_decide; rewrite ?fmap_cons, ?sumZ_cons; lia.
Qed.

Lemma for_each_positive batch agg agg' :
  for_each (reconcile_order fromisoformat) batch agg = Returned agg' →
  refunds_positive agg → refunds_positive agg'.
Proof.
  revert agg. induction batch as [| o batch IH]; intros agg; simpl.
  - by intros [= <-].
  - destruct (reconcile_order fromisoformat agg o) as [agg1 |] eqn:Ho; simpl; [| done].
    intros Hrest Hpos. eapply IH; [done |]. by eapply reconcile_order_positive.
Qed.

Lemma for_each_cancel batch agg agg' oid d :
  for_each (reconcile_order fromisoformat) batch agg = Returned agg' →
  agg' !! (oid, CANCEL, d)
  = match cancel_observations fromisoformat batch oid d with
    | [] => agg !! (oid, CANCEL, d)
    | obs => Some (foldl Z.max (amount_at agg (oid, CANCEL, d)) obs)
    end.
Proof.
  revert agg. induction batch as [| o batch IH]; intros agg; simpl.
  - by intros [= <-].
  - destruct (reconcile_order fromisoformat agg o) as [agg1 |] eqn:Ho; simpl; [| done].
    intros Hrest. rewrite (IH _ Hrest).
    pose proof (reconcile_order_cancel _ _ _ oid d Ho) as H1.
    unfold cancel_observations. rewrite filter_cons.
    case_decide as Hk.
    + rewrite fmap_cons. simpl. unfold amount_at at 1. rewrite H1. simpl.
      by destruct (_ <$> filter _ batch).
    + unfold amount_at at 1. rewrite H1. done.
Qed.

(** The loop raises exactly when some cancelled snapshot carries a
    malformed total price. *)
Lemma for_each_returns batch agg :
  Forall (fun o => cancelled fromisoformat o → well_formed (o_total_price o)) batch →
  ∃ agg', for_each (reconcile_order fromisoformat) batch agg = Returned agg'.
Proof.
  revert agg. induction batch as [| o batch IH]; intros agg Hall; simpl.
  - by eexists.
  - inversion Hall as [| ? ? Ho Hrest]; subst.
    assert (∃ agg1, reconcile_order fromisoformat agg o = Returned agg1) as [agg1 ->].
    { destruct (order_oid o) as [oid |] eqn:Hoid.
      - rewrite (reconcile_order_outcome _ _ _ Hoid), cancel_step_outcome.
        destruct (ist_date fromisoformat (o_cancelled_at o)) as [dc |] eqn:Hdc.
        + destruct (o_total_price o) eqn:Hp; simpl; eauto.
          exfalso. apply Ho; [| done]. split; [by rewrite Hoid | by rewrite Hdc].
        + simpl. eauto.
      - rewrite reconcile_order_skip by done. eauto. }
    simpl. by apply IH.
Qed.

Lemma for_each_raises batch agg o :
  o ∈ batch → cancelled fromisoformat o → o_total_price o = MoneyBad →
  for_each (reconcile_order fromisoformat) batch agg = Raised ValueError.
Proof.
  revert agg. induction batch as [| o' batch IH]; intros agg Hin Hc Hbad.
  - by apply elem_of_nil in Hin.
  - simpl. apply elem_of_cons in Hin as [<- | Hin].
    + destruct Hc as [[oid Hoid] [dc Hdc]].
      rewrite (reconcile_order_outcome _ _ _ Hoid), cancel_step_outcome, Hdc, Hbad.
      done.
    + destruct (reconcile_order fromisoformat agg o') as [agg1 | e] eqn:Ho'; simpl.
      * by apply IH.
      * revert Ho'. destruct (order_oid o') as [oid' |] eqn:Hoid'.
        -- rewrite (reconcile_order_outcome _ _ _ Hoid'), cancel_step_outcome.
           destruct (ist_date fromisoformat (o_cancelled_at o')); [| done].
           destruct (o_total_price o'); simpl; congruence.
        -- by rewrite reconcile_order_skip.
Qed.

End ReconcilerFacts.

(** ** Facts derived by the reconciler *)


Lemma order_oid_nonzero (o : order) (entity : Z) :
  o_id o = Some entity → entity ≠ 0 → order_oid o = Some entity.
Proof.
  intros Hid Hne. unfold order_oid. rewrite Hid.
  by destruct (Z.eqb_spec entity 0).
Qed.


Lemma upsert_refunded_snapshot (entity : Z) (store : gmap fact_key Z) :
  entity ≠ 0 →
  upsert_returns_fact_from_orders IsoFormat.instant [refunded_snapshot entity] store
  = Returned (<[(entity, REFUND, "2024-02-10") := 20000]> store).
Proof.
  intros Hne. rewrite upsert_returns_fact_from_orders_union.
  unfold aggregate. cbn [for_each].
  rewrite (reconcile_order_outcome _ _ _ entity) by by apply order_oid_nonzero.
  rewrite cancel_step_outcome. cbn [mbind outcome_bind].
  replace (ist_date IsoFormat.instant (o_cancelled_at (refunded_snapshot entity)))
    with (@None string) by (vm_compute; reflexivity).
  cbn [refunded_snapshot o_refunds foldl mbind outcome_bind].
  unfold refund_step.
  replace (_parse_iso_to_ist_date IsoFormat.instant
             (rf_created_at (mk_refund (Some "2024-02-10T09:15:00+05:30")
                [mk_transaction (Some "refund") (MoneyOf (-15000))])))
    with (Some "2024-02-10") by (vm_compute; reflexivity).
  replace (_parse_iso_to_ist_date IsoFormat.instant
             (rf_created_at (mk_refund (Some "2024-02-10T17:40:00+05:30")
                [mk_transaction (Some "refund") (MoneyOf (-5000))])))
    with (Some "2024-02-10") by (vm_compute; reflexivity).
  assert (refund_sum_step 0 (mk_transaction (Some "refund") (MoneyOf (-15000))) = 15000)
    as H1 by (vm_compute; reflexivity).
  assert (refund_sum_step 0 (mk_transaction (Some "refund") (MoneyOf (-5000))) = 5000)
    as H2 by (vm_compute; reflexivity).
  cbn. rewrite H1, H2. cbn. rewrite lookup_empty. cbn. rewrite lookup_insert_eq. cbn.
  rewrite insert_insert_eq.
  by rewrite <- insert_union_l, (left_id_L ∅ (∪)).
Qed.

Section ReconcilerClaims.

Variable fromisoformat : string -> option Z.

Lemma upsert_lookup batch store store1 :
  upsert_returns_fact_from_orders fromisoformat batch store = Returned store1 →
  ∃ agg, aggregate fromisoformat batch = Returned agg
         ∧ store1 = agg ∪ store
         ∧ ∀ key, store1 !! key = match agg !! key with
                                  | Some amount => Some amount
                                  | None => store !! key
                                  end.
Proof.
  rewrite upsert_returns_fact_from_orders_union.
  destruct (aggregate fromisoformat batch) as [agg |]; simpl; [| done].
  intros [= <-]. exists agg. split; [done |]. split; [done |].
  intros key. rewrite lookup_union. by destruct (agg !! key), (store !! key).
Qed.

Lemma aggregate_cancel batch agg oid d :
  aggregate fromisoformat batch = Returned agg →
  agg !! (oid, CANCEL, d)
  = match cancel_observations fromisoformat batch oid d with
    | [] => None
    | obs => Some (foldl Z.max 0 obs)
    end.
Proof.
  intros Hagg. rewrite (for_each_cancel _ _ _ _ oid d Hagg).
  unfold amount_at. by rewrite lookup_empty.
Qed.

Lemma aggregate_refund batch agg oid d :
  aggregate fromisoformat batch = Returned agg →
  agg !! (oid, REFUND, d)
  = if 0 <? batch_refund_total fromisoformat batch oid d
    then Some (batch_refund_total fromisoformat batch oid d) else None.
Proof.
  intros Hagg.
  pose proof (for_each_refund _ _ _ _ oid d Hagg) as Hsum.
  pose proof (for_each_positive _ _ _ _ Hagg) as Hpos.
  unfold amount_at in Hsum. rewrite lookup_empty in Hsum.
  destruct (agg !! (oid, REFUND, d)) as [v |] eqn:Hv.
  - assert (batch_refund_total fromisoformat batch oid d = v) as ->
      by (cbn in Hsum; lia).
    apply Hpos in Hv; [| intros ? ? ?; by rewrite lookup_empty].
    by destruct (Z.ltb_spec 0 v); [| lia].
  - assert (batch_refund_total fromisoformat batch oid d = 0) as ->
      by (cbn in Hsum; lia).
    done.
Qed.

Lemma batch_refund_total_nonneg batch oid d :
  0 <= batch_refund_total fromisoformat batch oid d.
Proof.
  apply sumZ_nonneg, Forall_fmap, Forall_forall. intros o _. simpl.
  apply sumZ_nonneg, Forall_fmap, Forall_forall. intros rf _. simpl.
  apply refund_magnitude_nonneg.
Qed.

End ReconcilerClaims.

(** ** Claims on the reconciler *)





(** C5.  Running the reconciler a second time on the same batch changes
    nothing: the run after a run yields the state (or the exception) of the
    first run.  A run that returns has put every derived fact under its key,
    whatever amount the key held before, and has left every other key as it
    was. *)
Theorem C5_reconciler_idempotent (fromisoformat : string -> option Z)
    (batch : list order) (store : gmap fact_key Z) :
  (upsert_returns_fact_from_orders fromisoformat batch store
     ≫= upsert_returns_fact_from_orders fromisoformat batch)
  = upsert_returns_fact_from_orders fromisoformat batch store
  ∧ (∀ store1,
       upsert_returns_fact_from_orders fromisoformat batch store = Returned store1 →
       upsert_returns_fact_from_orders fromisoformat batch store1 = Returned store1
       ∧ ∃ agg, aggregate fromisoformat batch = Returned agg
                ∧ ∀ key, store1 !! key = match agg !! key with
                                         | Some amount => Some amount
                                         | None => store !! key
                                         end).
Proof.
  assert (∀ store1,
       upsert_returns_fact_from_orders fromisoformat batch store = Returned store1 →
       upsert_returns_fact_from_orders fromisoformat batch store1 = Returned store1)
    as Hidem.
  { intros store1. rewrite !upsert_returns_fact_from_orders_union.
    destruct (aggregate fromisoformat batch) as [agg |]; simpl; [| done].
    intros [= <-]. by rewrite (assoc_L (∪)), (idemp_L (∪)). }
  split.
  - destruct (upsert_returns_fact_from_orders fromisoformat batch store)
      as [store1 | e] eqn:Hrun; simpl; [by apply Hidem | done].
  - intros store1 Hrun. split; [by apply Hidem |].
    destruct (upsert_lookup _ _ _ _ Hrun) as (agg & Hagg & _ & Hlook).
    by exists agg.
Qed.

Lemma C5_reconciler_idempotent_witness :
  (upsert_returns_fact_from_orders IsoFormat.instant [refunded_snapshot 8] ∅
     ≫= upsert_returns_fact_from_orders IsoFormat.instant [refunded_snapshot 8])
  = upsert_returns_fact_from_orders IsoFormat.instant [refunded_snapshot 8] ∅.
Proof.
  exact (proj1 (C5_reconciler_idempotent IsoFormat.instant [refunded_snapshot 8] ∅)).
Defined.

(** C7 (as the code behaves).  A malformed amount of a refund transaction is
    skipped, but a malformed [total_price] is not: a batch that holds a
    cancelled snapshot (identifier and parseable cancellation timestamp)
    whose total price is malformed makes the reconciler raise [ValueError]
    before anything is written, whatever else the batch holds; every other
    batch is processed to the end. *)
Theorem C7_malformed_total_price_aborts (fromisoformat : string -> option Z)
    (batch : list order) (store : gmap fact_key Z) :
  (∀ o, o ∈ batch → cancelled fromisoformat o → o_total_price o = MoneyBad →
        upsert_returns_fact_from_orders fromisoformat batch store = Raised ValueError)
  ∧ (Forall (fun o => cancelled fromisoformat o → well_formed (o_total_price o)) batch →
     ∃ store1, upsert_returns_fact_from_orders fromisoformat batch store
               = Returned store1)
  ∧ upsert_returns_fact_from_orders IsoFormat.instant
      [refunded_snapshot 1; malformed_cancel 2] store = Raised ValueError
  ∧ upsert_returns_fact_from_orders IsoFormat.instant [refunded_snapshot 1] store
    = Returned (<[(1, REFUND, "2024-02-10") := 20000]> store).
Proof.
  split; [| split; [| split]].
  - intros o Hin Hc Hbad. rewrite upsert_returns_fact_from_orders_union.
    unfold aggregate. by rewrite (for_each_raises fromisoformat batch ∅ o).
  - intros Hall. rewrite upsert_returns_fact_from_orders_union.
    destruct (for_each_returns fromisoformat batch ∅ Hall) as [agg Hagg].
    unfold aggregate. rewrite Hagg. simpl. by eexists.
  - rewrite upsert_returns_fact_from_orders_union.
    unfold aggregate.
    assert (cancelled IsoFormat.instant (malformed_cancel 2)) as Hc.
    { split; [by exists 2 |]. exists "2024-01-05". vm_compute. reflexivity. }
    assert (malformed_cancel 2 ∈ [refunded_snapshot 1; malformed_cancel 2]) as Hin.
    { apply elem_of_cons. right. constructor. }
    by rewrite (for_each_raises IsoFormat.instant _ ∅ (malformed_cancel 2) Hin Hc eq_refl).
  - by apply upsert_refunded_snapshot.
Qed.

(** ** The affected date range *)

Lemma foldl_str_min (a : string) (l : list string) :
  foldl str_min a l ∈ a :: l ∧ ∀ x, x ∈ a :: l → date_le (foldl str_min a l) x.
Proof.
  revert a. induction l as [| b l IH]; intros a; cbn [foldl].
  - split; [constructor |]. intros x Hx. apply list_elem_of_singleton in Hx as ->.
    apply string_leb_refl.
  - destruct (IH (str_min a b)) as [Hin Hle].
    assert (date_le (str_min a b) a ∧ date_le (str_min a b) b
            ∧ (str_min a b = a ∨ str_min a b = b)) as (Ha & Hb & Hab).
    { unfold str_min, date_le. destruct (String.leb a b) eqn:E.
      - split; [apply string_leb_refl |]. split; [done | by left].
      - split; [by apply string_leb_false |].
        split; [apply string_leb_refl | by right]. }
    split.
    + apply elem_of_cons in Hin as [Heq | Hin].
      * rewrite Heq. destruct Hab as [-> | ->]; [constructor |].
        apply elem_of_cons. right. constructor.
      * apply elem_of_cons. right. by apply elem_of_cons; right.
    + intros x Hx.
      assert (date_le (foldl str_min (str_min a b) l) (str_min a b)) as Hm
        by (apply Hle; constructor).
      apply elem_of_cons in Hx as [-> | Hx].
      * by eapply string_leb_trans.
      * apply elem_of_cons in Hx as [-> | Hx].
        -- by eapply string_leb_trans.
        -- apply Hle. by apply elem_of_cons; right.
Qed.

Lemma foldl_str_max (a : string) (l : list string) :
  foldl str_max a l ∈ a :: l ∧ ∀ x, x ∈ a :: l → date_le x (foldl str_max a l).
Proof.
  revert a. induction l as [| b l IH]; intros a; cbn [foldl].
  - split; [constructor |]. intros x Hx. apply list_elem_of_singleton in Hx as ->.
    apply string_leb_refl.
  - destruct (IH (str_max a b)) as [Hin Hle].
    assert (date_le a (str_max a b) ∧ date_le b (str_max a b)
            ∧ (str_max a b = a ∨ str_max a b = b)) as (Ha & Hb & Hab).
    { unfold str_max, date_le. destruct (String.leb a b) eqn:E.
      - split; [done |]. split; [apply string_leb_refl | by right].
      - split; [apply string_leb_refl |].
        split; [by apply string_leb_false | by left]. }
    split.
    + apply elem_of_cons in Hin as [Heq | Hin].
      * rewrite Heq. destruct Hab as [-> | ->]; [constructor |].
        apply elem_of_cons. right. constructor.
      * apply elem_of_cons. right. by apply elem_of_cons; right.
    + intros x Hx.
      assert (date_le (str_max a b) (foldl str_max (str_max a b) l)) as Hm
        by (apply Hle; constructor).
      apply elem_of_cons in Hx as [-> | Hx].
      * by eapply string_leb_trans.
      * apply elem_of_cons in Hx as [-> | Hx].
        -- by eapply string_leb_trans.
        -- apply Hle. by apply elem_of_cons; right.
Qed.

Lemma py_min_spec (dates : gset string) :
  dates ≠ ∅ →
  ∃ lo, py_min dates = Some lo ∧ lo ∈ dates ∧ ∀ d, d ∈ dates → date_le lo d.
Proof.
  intros Hne. unfold py_min.
  destruct (elements dates) as [| d ds] eqn:Hel.
  - apply elements_empty_inv in Hel. by apply leibniz_equiv in Hel.
  - destruct (foldl_str_min d ds) as [Hin Hle]. eexists. split; [done |].
    split.
    + apply elem_of_elements. by rewrite Hel.
    + intros x Hx. apply Hle. rewrite <- Hel. by apply elem_of_elements.
Qed.

Lemma py_max_spec (dates : gset string) :
  dates ≠ ∅ →
  ∃ hi, py_max dates = Some hi ∧ hi ∈ dates ∧ ∀ d, d ∈ dates → date_le d hi.
Proof.
  intros Hne. unfold py_max.
  destruct (elements dates) as [| d ds] eqn:Hel.
  - apply elements_empty_inv in Hel. by apply leibniz_equiv in Hel.
  - destruct (foldl_str_max d ds) as [Hin Hle]. eexists. split; [done |].
    split.
    + apply elem_of_elements. by rewrite Hel.
    + intros x Hx. apply Hle. rewrite <- Hel. by apply elem_of_elements.
Qed.

Lemma omap_cons_eq {A B : Type} (f : A -> option B) (x : A) (l : list A) :
  omap f (x :: l) = match f x with
                    | Some y => y :: omap f l
                    | None => omap f l
                    end.
Proof. reflexivity. Qed.

Section RangeFacts.

Variable fromisoformat : string -> option Z.

Lemma add_field_date (field : option string) (dates : gset string) :
  add_field fromisoformat field dates = add_date (ist_date fromisoformat field) dates.
Proof.
  unfold add_field, ist_date.
  destruct field as [[| c s] |]; done.
Qed.

Lemma elem_of_add_date (d : string) (x : option string) (dates : gset string) :
  d ∈ add_date x dates ↔ x = Some d ∨ d ∈ dates.
Proof.
  unfold add_date. destruct x as [y |].
  - rewrite elem_of_union, elem_of_singleton. split.
    + intros [-> | ?]; auto.
    + intros [[= ->] | ?]; auto.
  - split; [auto | intros [? | ?]; [done | auto]].
Qed.

Lemma elem_of_refund_dates (d : string) (rfs : list refund) (dates : gset string) :
  d ∈ foldl (fun ds rf =>
               add_date (_parse_iso_to_ist_date fromisoformat (rf_created_at rf)) ds)
            dates rfs
  ↔ d ∈ dates ∨ d ∈ omap (fun rf => ist_date fromisoformat (rf_created_at rf)) rfs.
Proof.
  revert dates. induction rfs as [| rf rfs IH]; intros dates; cbn [foldl].
  - cbn. rewrite elem_of_nil. tauto.
  - rewrite IH, elem_of_add_date, omap_cons_eq. unfold ist_date.
    destruct (_parse_iso_to_ist_date fromisoformat (rf_created_at rf)) as [x |].
    + rewrite elem_of_cons. split.
      * intros [[[= ->] | ?] | ?]; auto.
      * intros [? | [-> | ?]]; auto.
    + split; [intros [[? | ?] | ?]; [done | auto | auto] | intros [? | ?]; auto].
Qed.

Lemma elem_of_collect_dates (d : string) (o : order) (dates : gset string) :
  d ∈ collect_dates fromisoformat dates o
  ↔ d ∈ dates ∨ d ∈ snapshot_dates fromisoformat o.
Proof.
  unfold collect_dates, snapshot_dates.
  rewrite elem_of_refund_dates, !add_field_date, !elem_of_add_date, elem_of_app.
  rewrite !omap_cons_eq.
  destruct (ist_date fromisoformat (o_created_at o)) as [a |],
           (ist_date fromisoformat (o_updated_at o)) as [b |],
           (ist_date fromisoformat (o_cancelled_at o)) as [c |];
    rewrite ?elem_of_cons, ?elem_of_nil;
    intuition (try discriminate; try congruence; auto).
Qed.

Lemma elem_of_collected (d : string) (batch : list order) (dates : gset string) :
  d ∈ foldl (collect_dates fromisoformat) dates batch
  ↔ d ∈ dates ∨ d ∈ batch_dates fromisoformat batch.
Proof.
  revert dates. induction batch as [| o batch IH]; intros dates; cbn [foldl].
  - unfold batch_dates. cbn. rewrite elem_of_nil. tauto.
  - rewrite IH, elem_of_collect_dates. unfold batch_dates.
    rewrite bind_cons, elem_of_app. tauto.
Qed.

Lemma ist_date_of_day (field : option string) (d : string) :
  ist_date fromisoformat field = Some d →
  ∃ t, Calendar.isoformat_date (Calendar.ist_day t) = Some d.
Proof.
  unfold ist_date, _parse_iso_to_ist_date.
  destruct field as [[| c s] |]; try done.
  destruct (fromisoformat (PyStr.replace_Z (String c s))) as [t |]; [| done].
  cbn. eauto.
Qed.

Lemma batch_dates_of_day (batch : list order) (d : string) :
  d ∈ batch_dates fromisoformat batch →
  ∃ t, Calendar.isoformat_date (Calendar.ist_day t) = Some d.
Proof.
  unfold batch_dates. rewrite list_elem_of_bind.
  intros (o & Hd & _). unfold snapshot_dates in Hd.
  rewrite elem_of_app, !list_elem_of_omap in Hd.
  destruct Hd as [(field & _ & Hd) | (rf & _ & Hd)];
    eapply ist_date_of_day; eassumption.
Qed.

End RangeFacts.



(** ** Fetch windows *)

Module WindowFacts.
Import Window.

Lemma dominates_refl f r : dominates f r r.
Proof. intros t' H. exists t'. split; [done | lia]. Qed.

Lemma dominates_trans f r1 r2 r3 :
  dominates f r1 r2 → dominates f r2 r3 → dominates f r1 r3.
Proof.
  intros H12 H23 t3 H3. destruct (H23 _ H3) as (t2 & H2 & ?).
  destruct (H12 _ H2) as (t1 & H1 & ?). exists t1. split; [done | lia].
Qed.

Lemma later_dominates f best row :
  ∃ c, later f best row = Some c ∧ dominates f c row
       ∧ ∀ b, best = Some b → dominates f c b.
Proof.
  unfold later. destruct best as [b |].
  - destruct (timestamp_col f b) as [tb |] eqn:Hb,
             (timestamp_col f row) as [tr |] eqn:Hr.
    + destruct (Z.ltb_spec tb tr).
      * exists row. split; [done |]. split; [apply dominates_refl |].
        intros ? [= <-] t' Ht'. exists tr. split; [done |]. rewrite Hb in Ht'.
        injection Ht' as <-. lia.
      * exists b. split; [done |]. split.
        -- intros t' Ht'. rewrite Hr in Ht'. injection Ht' as <-.
           exists tb. split; [done | lia].
        -- intros ? [= <-]. apply dominates_refl.
    + exists b. split; [done |]. split.
      * intros t' Ht'. congruence.
      * intros ? [= <-]. apply dominates_refl.
    + exists row. split; [done |]. split; [apply dominates_refl |].
      intros ? [= <-] t' Ht'. congruence.
    + exists b. split; [done |]. split.
      * intros t' Ht'. congruence.
      * intros ? [= <-]. apply dominates_refl.
  - exists row. split; [done |]. split; [apply dominates_refl | done].
Qed.

Lemma foldl_later_dominates f rows best r :
  foldl (later f) best rows = Some r →
  (∀ b, best = Some b → dominates f r b) ∧ ∀ r', r' ∈ rows → dominates f r r'.
Proof.
  revert best. induction rows as [| row rows IH]; intros best; cbn [foldl].
  - intros ->. split.
    + intros ? [= <-]. apply dominates_refl.
    + intros r' Hr'. by apply elem_of_nil in Hr'.
  - intros Hfold. destruct (later_dominates f best row) as (c & Hc & Hrow & Hbest).
    rewrite Hc in Hfold. destruct (IH _ Hfold) as [Hrc Hrest].
    split.
    + intros b Hb. eapply dominates_trans; [by apply Hrc | by apply Hbest].
    + intros r' Hr'. apply elem_of_cons in Hr' as [-> | Hr'].
      * eapply dominates_trans; [by apply Hrc | done].
      * by apply Hrest.
Qed.

(** The row [get_last_order] returns carries the greatest timestamp of the
    table: the high-water-mark of the feed. *)
Lemma get_last_order_latest c table f row :
  get_last_order c table f = Some row →
  ∀ r t, r ∈ table → timestamp_col f r = Some t →
         ∃ last_ts, timestamp_col f row = Some last_ts ∧ t <= last_ts.
Proof.
  unfold get_last_order, select_where. destruct c; [| done].
  intros Hfold r t Hr Ht.
  destruct (foldl_later_dominates _ _ _ _ Hfold) as [_ Hall].
  apply (Hall r); [| done].
  apply list_elem_of_In, filter_In. split; [by apply list_elem_of_In | done].
Qed.

Lemma start_date_naive (wall : Z) :
  convert_to_desired_format (naive wall)
  = strftime_iso (naive wall) +:+ "%2B05:30".
Proof.
  unfold convert_to_desired_format, strftime_iso, naive. cbn [dt_wall dt_utcoffset].
  destruct (Calendar.civil_from_days (wall / 86400)) as [[y m] d].
  unfold strftime_z, Calendar.pad4, Calendar.pad2. reflexivity.
Qed.

(** For an aware datetime the 22 characters kept by [iso_str[:22]] end with
    the first three characters of ["%z"]. *)
Lemma end_date_now_ist (t : Z) :
  convert_to_desired_format (now_ist t)
  = strftime_iso (naive (t + Calendar.IST_offset)) +:+ "+05" +:+ "%2B05:30".
Proof.
  unfold convert_to_desired_format, strftime_iso, naive, now_ist.
  cbn [dt_wall dt_utcoffset].
  destruct (Calendar.civil_from_days ((t + Calendar.IST_offset) / 86400)) as [[y m] d].
  unfold strftime_z, Calendar.pad4, Calendar.pad2. reflexivity.
Qed.

End WindowFacts.

(** C6.  Without an active backfill override, a feed whose table holds a last
    order with a timestamp gets the window that starts one second after that
    timestamp, hence after the timestamp of every row stored for the feed,
    and that ends at the current time; the start is sent as that instant in
    ISO form with the +05:30 suffix.  Conversely a window whose start is not
    after every stored timestamp only arises under an active override. *)
Theorem C6_window_after_high_water_mark (env : Window.backfill_env) (now : Z)
    (f : Window.feed) (c_last c_same : Window.cursor) (table : list order_row) :
  Window.BACKFILL_MODE env = false →
  (∀ row last_ts,
     Window.get_last_order c_last table f = Some row →
     Window.timestamp_col f row = Some last_ts →
     ∃ w, Window.feed_window env now f c_last c_same table = Returned (Some w)
          ∧ Window.start_dt w = Window.add_seconds (Window.naive last_ts) 1
          ∧ Window.dt_wall (Window.start_dt w) = last_ts + 1
          ∧ last_ts < Window.dt_wall (Window.start_dt w)
          ∧ Window.end_dt w = Window.now_ist now
          ∧ Window.start_date w
            = Window.strftime_iso (Window.naive (last_ts + 1)) +:+ "%2B05:30"
          ∧ Window.end_date w = Window.convert_to_desired_format (Window.now_ist now))
  ∧ (∀ w, Window.feed_window env now f c_last c_same table = Returned (Some w) →
          ∀ r t, r ∈ table → Window.timestamp_col f r = Some t →
                 t < Window.dt_wall (Window.start_dt w)).
Proof.
  intros Hmode. split.
  - intros row last_ts Hlast Hts. unfold Window.feed_window.
    rewrite Hmode, Hlast, Hts. eexists. split; [reflexivity |].
    cbn [Window.start_dt Window.end_dt Window.start_date Window.end_date
         Window.add_seconds Window.naive Window.dt_wall Window.dt_utcoffset].
    split; [done |]. split; [done |]. split; [lia |]. split; [done |].
    split; [| done]. apply (WindowFacts.start_date_naive (last_ts + 1)).
  - intros w. unfold Window.feed_window. rewrite Hmode.
    destruct (Window.get_last_order c_last table f) as [row |] eqn:Hlast; [| done].
    destruct (Window.timestamp_col f row) as [last_ts |] eqn:Hts; [| done].
    intros [= <-] r t Hr Ht. cbn.
    destruct (WindowFacts.get_last_order_latest _ _ _ _ Hlast r t Hr Ht)
      as (last' & Hlast' & Hle).
    assert (last' = last_ts) as -> by congruence. lia.
Qed.

Lemma C6_window_after_high_water_mark_witness :
  ∃ w, Window.feed_window (Window.mk_backfill_env false None None) 1704449000
         Window.NEW Window.Healthy Window.Healthy [boundary_row] = Returned (Some w)
       ∧ Window.start_date w = "2024-01-05T10:00:01%2B05:30"
       ∧ ∀ r t, r ∈ [boundary_row] → Window.timestamp_col Window.NEW r = Some t →
                t < Window.dt_wall (Window.start_dt w).
Proof.
  destruct (C6_window_after_high_water_mark
              (Window.mk_backfill_env false None None) 1704449000
              Window.NEW Window.Healthy Window.Healthy [boundary_row] eq_refl)
    as [Hstart Hafter].
  destruct (Hstart boundary_row 1704448800 eq_refl eq_refl)
    as (w & Hw & _ & _ & _ & _ & Hdate & _).
  exists w. split; [exact Hw |]. split.
  - rewrite Hdate. vm_compute. reflexivity.
  - exact (Hafter w Hw).
Defined.

(** ** Boundary duplicates *)

Lemma dedup_drops (existing : gset (option string)) (fetched : list order) (o : order) :
  Some (Window.str_id o) ∈ existing → o ∉ Window.dedup existing fetched.
Proof.
  intros Hin. unfold Window.dedup.
  rewrite decide_False.
  - intros Ho. apply list_elem_of_In, filter_In in Ho as [_ Ho].
    apply bool_decide_eq_true in Ho. done.
  - intros ->. by apply elem_of_empty in Hin.
Qed.

(** C10.  When the lookup of the identifiers stored at the last timestamp
    fails with a database error it returns the empty set; the duplicate
    filter then keeps every fetched snapshot, so the whole fetched list goes
    to the loader and is appended to the table, including a snapshot whose
    identifier is already stored at the boundary timestamp, which a
    successful lookup would have dropped. *)
Theorem C10_failed_lookup_keeps_duplicates
    (transform_orders_to_df_optimized : list order -> list order_row)
    (env : Window.backfill_env) (now : Z) (f : Window.feed) (c_last : Window.cursor)
    (table : list order_row) (fetched : list order) :
  (∀ timestamp_value,
     Window.get_orders_with_same_timestamp Window.Failing table timestamp_value f = ∅)
  ∧ Window.dedup ∅ fetched = fetched
  ∧ (Window.BACKFILL_MODE env = false →
     ∀ row last_ts,
       Window.get_last_order c_last table f = Some row →
       Window.timestamp_col f row = Some last_ts →
       fetched ≠ [] →
       Window.process_feed transform_orders_to_df_optimized env now f
         c_last Window.Failing fetched table
       = Returned (fetched, (table ++ transform_orders_to_df_optimized fetched)%list))
  ∧ (∀ o r last_ts,
       r ∈ table → Window.timestamp_col f r = Some last_ts →
       order_id r = Some (Window.str_id o) →
       o ∉ Window.dedup
             (Window.get_orders_with_same_timestamp Window.Healthy table last_ts f)
             fetched).
Proof.
  split; [done |]. split; [done |]. split.
  - intros Hmode row last_ts Hlast Hts Hne.
    unfold Window.process_feed, Window.feed_window.
    rewrite Hmode, Hlast, Hts. cbn.
    destruct fetched as [| o fetched]; done.
  - intros o r last_ts Hr Hts Hid. apply dedup_drops.
    unfold Window.get_orders_with_same_timestamp, Window.select_where.
    apply elem_of_list_to_set, list_elem_of_fmap. exists r. split; [done |].
    apply list_elem_of_In, filter_In. split; [by apply list_elem_of_In |].
    unfold Window.same_timestamp. rewrite Hts. apply Z.eqb_refl.
Qed.

Lemma C10_failed_lookup_keeps_duplicates_witness :
  Window.process_feed one_row_each (Window.mk_backfill_env false None None)
    1704449000 Window.NEW Window.Healthy Window.Failing
    [boundary_snapshot] [boundary_row]
  = Returned ([boundary_snapshot], [boundary_row; boundary_row])
  ∧ boundary_snapshot
    ∉ Window.dedup
        (Window.get_orders_with_same_timestamp Window.Healthy [boundary_row]
           1704448800 Window.NEW)
        [boundary_snapshot].
Proof.
  destruct (C10_failed_lookup_keeps_duplicates one_row_each
              (Window.mk_backfill_env false None None) 1704449000 Window.NEW
              Window.Healthy [boundary_row] [boundary_snapshot])
    as (_ & _ & Hfail & Hok).
  split.
  - rewrite (Hfail eq_refl boundary_row 1704448800 eq_refl eq_refl); [| done].
    vm_compute. reflexivity.
  - apply (Hok boundary_snapshot boundary_row 1704448800).
    + constructor.
    + reflexivity.
    + vm_compute. reflexivity.
Defined.

(** ** The fetcher *)

Module FetcherFacts.
Import Fetcher FetcherSpec.

Lemma fetch_loop_exhausted tok replies url acc tr :
  PyStr.truthy url = false →
  fetch_loop tok replies url acc tr = Some (acc, tr).
Proof. intros H. destruct replies; cbn [fetch_loop]; by rewrite H. Qed.

(** On a rate-limit reply the same URL is requested again after the delay
    the server asked for; nothing else changes. *)
Lemma fetch_loop_retry tok r seconds replies url acc tr :
  PyStr.truthy url = true →
  rate_limited r seconds →
  fetch_loop tok (r :: replies) url acc tr
  = fetch_loop tok replies url acc
      (Sleep (1000 * seconds) :: Get (default "" url) tok :: tr).
Proof.
  intros Hurl Hr. cbn [fetch_loop]. rewrite Hurl. cbn [negb].
  destruct r as [status retry orders link |]; [| done].
  destruct Hr as [-> Hretry]. cbn.
  destruct retry; [by subst | by subst | done].
Qed.

(** A failing reply ends the loop; the list accumulated so far is
    returned. *)
Lemma fetch_loop_failure tok r replies url acc tr :
  PyStr.truthy url = true →
  failure r →
  fetch_loop tok (r :: replies) url acc tr
  = Some (acc, Get (default "" url) tok :: tr).
Proof.
  intros Hurl Hr. cbn [fetch_loop]. rewrite Hurl. cbn [negb].
  destruct r as [status retry orders link |]; [| done].
  destruct Hr as [[H429 H200] | [[-> ->] | [-> Horders]]].
  - destruct (Z.eqb_spec status 429); [done |].
    destruct (Z.eqb_spec status 200); done.
  - done.
  - cbn. by destruct Horders as [-> | ->].
Qed.

Lemma fetch_loop_page tok retry page link replies url acc tr :
  PyStr.truthy url = true →
  page ≠ [] →
  fetch_loop tok (Response 200 retry (Some page) link :: replies) url acc tr
  = fetch_loop tok replies (next_url link) (acc ++ page)
      (Sleep 500 :: Get (default "" url) tok :: tr).
Proof.
  intros Hurl Hpage. cbn [fetch_loop]. rewrite Hurl. cbn.
  by destruct page.
Qed.

Lemma session_returns tok url replies orders :
  session url replies orders →
  ∀ acc tr, ∃ tr', fetch_loop tok replies url acc tr = Some ((acc ++ orders)%list, tr').
Proof.
  induction 1 as [url replies Hurl | url r replies Hurl Hr
                 | url r seconds replies orders Hurl Hr _ IH
                 | url retry page link replies orders Hurl Hpage _ IH];
    intros acc tr.
  - rewrite fetch_loop_exhausted, app_nil_r by done. by eexists.
  - rewrite fetch_loop_failure, app_nil_r by done. by eexists.
  - rewrite (fetch_loop_retry _ _ seconds) by done. apply IH.
  - rewrite fetch_loop_page by done.
    destruct (IH (acc ++ page)%list (Sleep 500 :: Get (default "" url) tok :: tr))
      as [tr' ->].
    rewrite <- app_assoc. by eexists.
Qed.

Lemma returns_session tok replies :
  ∀ url acc tr result tr',
    fetch_loop tok replies url acc tr = Some (result, tr') →
    ∃ orders, session url replies orders ∧ result = (acc ++ orders)%list.
Proof.
  induction replies as [| r replies IH]; intros url acc tr result tr'.
  - cbn [fetch_loop]. destruct (PyStr.truthy url) eqn:Hurl; cbn; [done |].
    intros [= <- <-]. exists []. split; [by constructor | by rewrite app_nil_r].
  - destruct (PyStr.truthy url) eqn:Hurl.
    + destruct r as [status retry orders link |].
      * destruct (Z.eqb_spec status 429) as [-> | H429].
        -- destruct retry as [| n |].
           ++ rewrite (fetch_loop_retry _ _ 2) by done.
              intros Hrun. destruct (IH _ _ _ _ _ Hrun) as (os & Hs & ->).
              exists os. split; [| done]. by apply (session_retry _ _ 2).
           ++ rewrite (fetch_loop_retry _ _ n) by done.
              intros Hrun. destruct (IH _ _ _ _ _ Hrun) as (os & Hs & ->).
              exists os. split; [| done]. by apply (session_retry _ _ n).
           ++ rewrite fetch_loop_failure; [| done | right; by left].
              intros [= <- <-]. exists []. split; [| by rewrite app_nil_r].
              apply session_failed; [done |]. right. by left.
        -- destruct (Z.eqb_spec status 200) as [-> | H200].
           ++ destruct orders as [[| o page] |].
              ** rewrite fetch_loop_failure; [| done | right; right; tauto].
                 intros [= <- <-]. exists []. split; [| by rewrite app_nil_r].
                 apply session_failed; [done |]. right. right. tauto.
              ** rewrite fetch_loop_page by done.
                 intros Hrun. destruct (IH _ _ _ _ _ Hrun) as (os & Hs & ->).
                 exists ((o :: page) ++ os)%list. split; [| by rewrite app_assoc].
                 by apply session_page.
              ** rewrite fetch_loop_failure; [| done | right; right; tauto].
                 intros [= <- <-]. exists []. split; [| by rewrite app_nil_r].
                 apply session_failed; [done |]. right. right. tauto.
           ++ rewrite fetch_loop_failure; [| done | by left].
              intros [= <- <-]. exists []. split; [| by rewrite app_nil_r].
              apply session_failed; [done |]. by left.
      * rewrite fetch_loop_failure by done.
        intros [= <- <-]. exists []. split; [| by rewrite app_nil_r].
        by apply session_failed.
    + rewrite fetch_loop_exhausted by done.
      intros [= <- <-]. exists []. split; [by constructor | by rewrite app_nil_r].
Qed.

End FetcherFacts.

(** C8 (as amended).  The fetch follows the cursor: a 429 reply is answered by
    the same request after the delay the server named, a page adds its
    snapshots and moves to the URL of its next link.  The fetch ends when the
    cursor is exhausted or at the first failing reply (a status other than
    200 and 429, a 429 without a usable delay, a body without orders, an
    exception of the client), and in both cases it returns, without an
    error, the snapshots of the pages received until then. *)
Theorem C8_fetch_returns_pages_received
    (api_base_url access_token start_date end_date date_filter_field : string)
    (replies : list Fetcher.reply) :
  (∀ orders,
     FetcherSpec.session
       (Some (Fetcher.first_url api_base_url start_date end_date date_filter_field))
       replies orders →
     ∃ trace,
       Fetcher.fetch_orders_async api_base_url access_token start_date end_date
         date_filter_field replies = Some (orders, trace))
  ∧ (∀ orders trace,
       Fetcher.fetch_orders_async api_base_url access_token start_date end_date
         date_filter_field replies = Some (orders, trace) →
       FetcherSpec.session
         (Some (Fetcher.first_url api_base_url start_date end_date date_filter_field))
         replies orders)
  ∧ (∀ r seconds rest url acc tr,
       PyStr.truthy url = true → FetcherSpec.rate_limited r seconds →
       Fetcher.fetch_loop access_token (r :: rest) url acc tr
       = Fetcher.fetch_loop access_token rest url acc
           (Fetcher.Sleep (1000 * seconds)
            :: Fetcher.Get (default "" url) access_token :: tr))
  ∧ (∀ r rest url acc tr,
       PyStr.truthy url = true → FetcherSpec.failure r →
       Fetcher.fetch_loop access_token (r :: rest) url acc tr
       = Some (acc, Fetcher.Get (default "" url) access_token :: tr)).
Proof.
  split; [| split; [| split]].
  - intros orders Hs. unfold Fetcher.fetch_orders_async.
    destruct (FetcherFacts.session_returns access_token _ _ _ Hs [] []) as [tr' ->].
    by eexists.
  - intros orders trace. unfold Fetcher.fetch_orders_async.
    destruct (Fetcher.fetch_loop _ _ _ _ _) as [[result tr'] |] eqn:Hrun; [| done].
    intros [= <- <-].
    destruct (FetcherFacts.returns_session _ _ _ _ _ _ _ Hrun) as (os & Hs & ->).
    done.
  - intros. by apply FetcherFacts.fetch_loop_retry.
  - intros. by apply FetcherFacts.fetch_loop_failure.
Qed.

Lemma C8_fetch_returns_pages_received_witness :
  ∃ trace,
    Fetcher.fetch_orders_async "https://shop.example/admin/api/2024-01" "token"
      "2024-01-05T10:00:01%2B05:30" "2024-01-05T10:10:00%2B05:30" "created_at_min"
      [rate_limit 3; first_page_linked; rate_limit 1; only_page]
    = Some ([boundary_snapshot; boundary_snapshot], trace).
Proof.
  apply (C8_fetch_returns_pages_received "https://shop.example/admin/api/2024-01" "token"
           "2024-01-05T10:00:01%2B05:30" "2024-01-05T10:10:00%2B05:30" "created_at_min"
           [rate_limit 3; first_page_linked; rate_limit 1; only_page]).
  apply (FetcherSpec.session_retry _ _ 3); [reflexivity | by split |].
  apply (FetcherSpec.session_page _ _ [boundary_snapshot] _ _ [boundary_snapshot]);
    [reflexivity | done |].
  apply (FetcherSpec.session_retry _ _ 1); [vm_compute; reflexivity | by split |].
  apply (FetcherSpec.session_page _ _ [boundary_snapshot] _ _ []);
    [vm_compute; reflexivity | done |].
  apply FetcherSpec.session_exhausted. vm_compute. reflexivity.
Defined.

(** C8 as stated fails: after a first page, a reply with status 500 ends the
    fetch, and the caller receives the snapshot of the first page exactly as
    it does from a fetch whose only page has no next link. *)
Lemma C8_partial_pages_returned :
  fst <$> Fetcher.fetch_orders_async "https://shop.example/admin/api/2024-01" "token"
            "2024-01-05T10:00:01%2B05:30" "2024-01-05T10:10:00%2B05:30"
            "created_at_min" [first_page_linked; server_error]
  = Some [boundary_snapshot]
  ∧ fst <$> Fetcher.fetch_orders_async "https://shop.example/admin/api/2024-01" "token"
              "2024-01-05T10:00:01%2B05:30" "2024-01-05T10:10:00%2B05:30"
              "created_at_min" [only_page]
    = Some [boundary_snapshot]
  ∧ FetcherSpec.failure server_error.
Proof.
  split; [vm_compute; reflexivity |]. split; [vm_compute; reflexivity |].
  left. split; discriminate.
Qed.

(** ** Tables: DELETE, result sets, INSERT *)

Module SummaryFacts.
Import Summary SummarySpec.

Lemma lookup_delete_between {K V : Type} `{Countable K} (date_of : K -> string)
    (lo hi : string) (t : gmap K V) (k : K) :
  delete_between date_of lo hi t !! k
  = if between lo hi (date_of k) then None else t !! k.
Proof.
  unfold delete_between. rewrite map_lookup_filter.
  destruct (t !! k) as [v |]; simpl.
  - destruct (between lo hi (date_of k)) eqn:Hb.
    + rewrite option_guard_False; [done |]. simpl. congruence.
    + rewrite option_guard_True; done.
  - by destruct (between lo hi (date_of k)).
Qed.

Lemma lookup_result_set {K V : Type} `{Countable K} (keys : gset K) (row : K -> V)
    (k : K) :
  result_set keys row !! k = if decide (k ∈ keys) then Some (row k) else None.
Proof.
  assert (∀ y y' : K, y ∈ keys → y' ∈ keys → (y, row y).1 = (y', row y').1 → y = y')
    as Hinj by (intros y y' _ _ Heq; exact Heq).
  unfold result_set. case_decide as Hk.
  - apply lookup_set_to_map; [exact Hinj |]. by exists k.
  - apply eq_None_not_Some. intros [v Hv].
    apply lookup_set_to_map in Hv as (k' & Hk' & [= <- _]); [done | exact Hinj].
Qed.

Lemma lookup_insert_rows {K V : Type} `{Countable K} (rows t : gmap K V) (k : K) :
  insert_rows rows t !! k = match rows !! k with
                            | Some v => Some v
                            | None => t !! k
                            end.
Proof.
  unfold insert_rows. rewrite lookup_union.
  by destruct (rows !! k), (t !! k).
Qed.

(** DELETE then INSERT of rows keyed in the range replaces the range and
    nothing else. *)
Lemma delete_insert_replaced {K V : Type} `{Countable K} (date_of : K -> string)
    (lo hi : string) (keys : gset K) (row : K -> V) (t : gmap K V) :
  (∀ k, k ∈ keys → between lo hi (date_of k) = true) →
  replaced_in_range date_of lo hi (result_set keys row) t
    (insert_rows (result_set keys row) (delete_between date_of lo hi t)).
Proof.
  intros Hkeys. split; [done |]. split.
  - intros k [v Hv]. rewrite lookup_result_set in Hv.
    case_decide; [by apply Hkeys | done].
  - intros k. rewrite lookup_insert_rows, lookup_delete_between, lookup_result_set.
    case_decide as Hk.
    + by rewrite (Hkeys k Hk).
    + by destruct (between lo hi (date_of k)).
Qed.

Lemma in_range_Some (lo hi d : string) (x : option string) :
  in_range lo hi x = Some d ↔ x = Some d ∧ between lo hi d = true.
Proof.
  unfold in_range. destruct x as [y |].
  - destruct (between lo hi y) eqn:Hb.
    + split; [by intros [= ->] | by intros [[= ->] _]].
    + split; [done | intros [[= ->] ?]; congruence].
  - split; [done | by intros [? _]].
Qed.

Lemma elem_of_group_keys {R K : Type} `{Countable K} (key : R -> option K)
    (rows : list R) (k : K) :
  k ∈ group_keys key rows ↔ ∃ r, r ∈ rows ∧ key r = Some k.
Proof.
  unfold group_keys. rewrite elem_of_list_to_set, list_elem_of_omap. done.
Qed.

Lemma group_sum_lookup {R K : Type} `{Countable K} (key : R -> option K)
    (val : R -> Z) (rows : list R) (k : K) :
  coalesce (group_sum key val rows !! k) = sum_of val (group_rows key k rows).
Proof.
  unfold coalesce, group_sum, group_rows, sum_of.
  induction rows as [| r rows IH]; cbn [foldr List.filter].
  - by rewrite lookup_empty.
  - destruct (key r) as [kr |] eqn:Hkr.
    + destruct (decide (kr = k)) as [-> | Hne].
      * rewrite lookup_insert_eq, bool_decide_eq_true_2 by done.
        cbn [foldr default from_option id]. rewrite IH. lia.
      * rewrite lookup_insert_ne by done.
        rewrite bool_decide_eq_false_2 by congruence. apply IH.
    + rewrite bool_decide_eq_false_2 by congruence. apply IH.
Qed.

Lemma created_key_between lo hi r d :
  created_key lo hi r = Some d → between lo hi d = true.
Proof. unfold created_key. rewrite in_range_Some. tauto. Qed.

Lemma returned_key_between lo hi r d :
  returned_key lo hi r = Some d → between lo hi d = true.
Proof.
  unfold returned_key. destruct (not_paid_or_pending r); [| done].
  rewrite in_range_Some. tauto.
Qed.

Lemma refund_key_Some lo hi (fact : fact_key * Z) d :
  refund_key lo hi fact = Some d
  ↔ fact.1.1.2 = REFUND ∧ fact.1.2 = d ∧ between lo hi d = true.
Proof.
  destruct fact as [[[oid ty] dt] v]. unfold refund_key. cbn [fst snd].
  destruct ty.
  - split; [done | by intros [? _]].
  - rewrite in_range_Some. split.
    + by intros [[= ->] ?].
    + by intros (_ & -> & ?).
Qed.

Lemma hourly_key_between lo hi r k :
  hourly_key lo hi r = Some k → between lo hi k.1 = true.
Proof.
  unfold hourly_key.
  destruct (created_key lo hi r) as [d |] eqn:Hd; [| done].
  destruct (created_time r) as [t |]; [| done].
  destruct (sql_hour t); [| done].
  intros [= <-]. by eapply created_key_between.
Qed.

Lemma AllDates_between lo hi s d :
  d ∈ AllDates lo hi s → between lo hi d = true.
Proof.
  unfold AllDates. rewrite !elem_of_union, !elem_of_group_keys.
  intros [[(r & _ & Hr) | (r & _ & Hr)] | (r & _ & Hr)].
  - by eapply created_key_between.
  - by eapply returned_key_between.
  - apply refund_key_Some in Hr. tauto.
Qed.

Lemma order_summary_dates_between lo hi s d :
  d ∈ order_summary_dates lo hi s → between lo hi d = true.
Proof.
  unfold order_summary_dates. rewrite elem_of_union, !elem_of_group_keys.
  intros [(r & _ & Hr) | (r & _ & Hr)].
  - by eapply created_key_between.
  - by eapply returned_key_between.
Qed.

Lemma discount_summary_dates_between lo hi s d :
  d ∈ discount_summary_dates lo hi s → between lo hi d = true.
Proof. apply order_summary_dates_between. Qed.

Lemma gross_summary_dates_between lo hi s d :
  d ∈ gross_summary_dates lo hi s → between lo hi d = true.
Proof.
  unfold gross_summary_dates. rewrite elem_of_group_keys.
  intros (r & _ & Hr). by eapply created_key_between.
Qed.

Lemma hour_wise_sales_keys_between lo hi s k :
  k ∈ hour_wise_sales_keys lo hi s → between lo hi k.1 = true.
Proof.
  unfold hour_wise_sales_keys. rewrite elem_of_group_keys.
  intros (r & _ & Hr). by eapply hourly_key_between.
Qed.

Lemma overall_summary_dates_between lo hi s d :
  d ∈ overall_summary_dates lo hi s → between lo hi d = true.
Proof. unfold overall_summary_dates. rewrite elem_of_filter. tauto. Qed.

(** The refunds of a date of the range, grouped by the query and summed
    over the fact store, agree. *)
Lemma refunds_by_date lo hi s d :
  between lo hi d = true →
  coalesce (RefundsByDate lo hi s !! d) = refund_total (returns_fact s) d.
Proof.
  intros Hd. unfold RefundsByDate, refund_total.
  rewrite group_sum_lookup.
  generalize (map_to_list (returns_fact s)). intros rows.
  induction rows as [| fact rows IH]; [done |].
  unfold group_rows in *. cbn [List.filter]. rewrite filter_cons.
  destruct (decide (fact.1.1.2 = REFUND ∧ fact.1.2 = d)) as [Hf | Hf].
  - rewrite bool_decide_eq_true_2 by (apply refund_key_Some; tauto).
    rewrite fmap_cons. cbn [sum_of foldr sumZ]. f_equal. apply IH.
  - rewrite bool_decide_eq_false_2; [apply IH |].
    rewrite refund_key_Some. tauto.
Qed.

(** A REFUND fact dated in the range puts its date among the dates of the
    recomputed rows. *)
Lemma refund_date_in_AllDates lo hi s oid d amount :
  between lo hi d = true →
  returns_fact s !! (oid, REFUND, d) = Some amount →
  d ∈ AllDates lo hi s.
Proof.
  intros Hd Hfact. unfold AllDates. apply elem_of_union. right.
  apply elem_of_group_keys. exists ((oid, REFUND, d), amount). split.
  - by apply elem_of_map_to_list.
  - by apply refund_key_Some.
Qed.

(** Without a REFUND fact on the date the total is zero. *)
Lemma refund_total_none facts d :
  (∀ oid, facts !! (oid, REFUND, d) = None) → refund_total facts d = 0.
Proof.
  intros Hnone. unfold refund_total.
  assert (filter (fun fact : fact_key * Z => fact.1.1.2 = REFUND ∧ fact.1.2 = d)
                 (map_to_list facts) = []) as ->; [| done].
  destruct (filter _ (map_to_list facts)) as [| [[[oid ty] dt] v] l] eqn:Hf; [done |].
  assert (((oid, ty, dt), v)
          ∈ filter (fun fact : fact_key * Z => fact.1.1.2 = REFUND ∧ fact.1.2 = d)
                   (map_to_list facts)) as Hin by (rewrite Hf; constructor).
  apply list_elem_of_filter in Hin as [[Hty Hdt] Hin]. cbn in Hty, Hdt. subst.
  apply elem_of_map_to_list in Hin. by rewrite Hnone in Hin.
Qed.

End SummaryFacts.

(** ** The statements of the run *)

Module RunFacts.
Import Summary SummarySpec SummaryFacts.

Lemma same_rows_at_refl d s : same_rows_at d s s.
Proof. by repeat split. Qed.

Lemma same_rows_at_trans d s1 s2 s3 :
  same_rows_at d s1 s2 → same_rows_at d s2 s3 → same_rows_at d s1 s3.
Proof.
  intros (A1 & A2 & A3 & A4 & A5 & A6) (B1 & B2 & B3 & B4 & B5 & B6).
  repeat split; try congruence. all: intros h; by rewrite B5, A5.
Qed.

Lemma same_sources_refl s : same_sources s s.
Proof. by repeat split. Qed.

Lemma same_sources_trans s1 s2 s3 :
  same_sources s1 s2 → same_sources s2 s3 → same_sources s1 s3.
Proof.
  intros (A1 & A2 & A3 & A4 & A5) (B1 & B2 & B3 & B4 & B5).
  repeat split; congruence.
Qed.

(** A deleted or inserted key of a table lies in the range, so the row of a
    date outside the range stays. *)
Lemma delete_outside {K V : Type} `{Countable K} (date_of : K -> string)
    (lo hi : string) (t : gmap K V) (k : K) :
  between lo hi (date_of k) = false →
  delete_between date_of lo hi t !! k = t !! k.
Proof. intros Hout. by rewrite lookup_delete_between, Hout. Qed.

Lemma insert_outside {K V : Type} `{Countable K} (date_of : K -> string)
    (lo hi : string) (keys : gset K) (row : K -> V) (t : gmap K V) (k : K) :
  (∀ k', k' ∈ keys → between lo hi (date_of k') = true) →
  between lo hi (date_of k) = false →
  insert_rows (result_set keys row) t !! k = t !! k.
Proof.
  intros Hkeys Hout. rewrite lookup_insert_rows, lookup_result_set.
  case_decide as Hk; [| done]. apply Hkeys in Hk. congruence.
Qed.

Ltac frame_statement :=
  intros s; split; [by repeat split |];
  intros d Hout; unfold same_rows_at; cbn;
  repeat split; try reflexivity; try (intros h).

Lemma delete_sales_summary_frame lo hi : keeps_outside lo hi (delete_sales_summary lo hi).
Proof. frame_statement. by apply (delete_outside id). Qed.

Lemma insert_sales_summary_frame lo hi : keeps_outside lo hi (insert_sales_summary lo hi).
Proof. frame_statement. apply (insert_outside id lo hi); [| done]. apply AllDates_between. Qed.

Lemma delete_order_summary_frame lo hi : keeps_outside lo hi (delete_order_summary lo hi).
Proof. frame_statement. by apply (delete_outside id). Qed.

Lemma insert_order_summary_frame lo hi : keeps_outside lo hi (insert_order_summary lo hi).
Proof.
  frame_statement. apply (insert_outside id lo hi); [| done].
  apply order_summary_dates_between.
Qed.

Lemma delete_discount_summary_frame lo hi :
  keeps_outside lo hi (delete_discount_summary lo hi).
Proof. frame_statement. by apply (delete_outside id). Qed.

Lemma insert_discount_summary_frame lo hi :
  keeps_outside lo hi (insert_discount_summary lo hi).
Proof.
  frame_statement. apply (insert_outside id lo hi); [| done].
  apply discount_summary_dates_between.
Qed.

Lemma delete_gross_summary_frame lo hi : keeps_outside lo hi (delete_gross_summary lo hi).
Proof. frame_statement. by apply (delete_outside id). Qed.

Lemma insert_gross_summary_frame lo hi : keeps_outside lo hi (insert_gross_summary lo hi).
Proof.
  frame_statement. apply (insert_outside id lo hi); [| done].
  apply gross_summary_dates_between.
Qed.

Lemma delete_hour_wise_sales_frame lo hi :
  keeps_outside lo hi (delete_hour_wise_sales lo hi).
Proof. frame_statement. by apply (delete_outside fst). Qed.

Lemma insert_hour_wise_sales_frame lo hi :
  keeps_outside lo hi (insert_hour_wise_sales lo hi).
Proof.
  frame_statement. apply (insert_outside fst lo hi); [| done].
  apply hour_wise_sales_keys_between.
Qed.

Lemma delete_overall_summary_frame lo hi :
  keeps_outside lo hi (delete_overall_summary lo hi).
Proof. frame_statement. by apply (delete_outside id). Qed.

Lemma insert_overall_summary_frame lo hi :
  keeps_outside lo hi (insert_overall_summary lo hi).
Proof.
  frame_statement. apply (insert_outside id lo hi); [| done].
  apply overall_summary_dates_between.
Qed.

Lemma summary_statements_frame lo hi :
  Forall (keeps_outside lo hi) (summary_statements lo hi).
Proof.
  unfold summary_statements,
    update_sales_summary_incremental, update_order_summary_incremental,
    update_discount_summary_incremental, update_gross_summary_incremental,
    update_hour_wise_sales_incremental, update_overall_summary_incremental.
  cbn [app].
  repeat (apply Forall_cons; split);
    [ apply delete_sales_summary_frame | apply insert_sales_summary_frame
    | apply delete_order_summary_frame | apply insert_order_summary_frame
    | apply delete_discount_summary_frame | apply insert_discount_summary_frame
    | apply delete_gross_summary_frame | apply insert_gross_summary_frame
    | apply delete_hour_wise_sales_frame | apply insert_hour_wise_sales_frame
    | apply delete_overall_summary_frame | apply insert_overall_summary_frame
    | apply Forall_nil ].
  done.
Qed.

(** However far the run gets, it keeps the sources and the rows outside
    the range. *)
Lemma execute_all_frame lo hi stmts :
  Forall (keeps_outside lo hi) stmts →
  ∀ healthy_for s,
    same_sources s (execute_all stmts healthy_for s).1
    ∧ ∀ d, between lo hi d = false →
           same_rows_at d s (execute_all stmts healthy_for s).1.
Proof.
  induction 1 as [| stmt stmts Hstmt _ IH]; intros healthy_for s.
  - cbn. split; [apply same_sources_refl |]. intros. apply same_rows_at_refl.
  - destruct (Hstmt s) as [Hsrc Hrows].
    assert (∀ hf, same_sources s (execute_all stmts hf (stmt s)).1
                  ∧ ∀ d, between lo hi d = false →
                         same_rows_at d s (execute_all stmts hf (stmt s)).1) as Hstep.
    { intros hf. destruct (IH hf (stmt s)) as [Hsrc' Hrows']. split.
      - by eapply same_sources_trans.
      - intros d Hout. eapply same_rows_at_trans; [by apply Hrows | by apply Hrows']. }
    cbn [execute_all]. destruct healthy_for as [[| n] |].
    + cbn. split; [apply same_sources_refl |]. intros. apply same_rows_at_refl.
    + apply Hstep.
    + apply Hstep.
Qed.

Lemma execute_complete lo hi s :
  lo ≠ "" → hi ≠ "" →
  execute_summary_queries_incremental None (Some lo) (Some hi) s
  = run_statements (summary_statements lo hi) s.
Proof.
  intros Hlo Hhi. unfold execute_summary_queries_incremental, run_statements.
  destruct lo; [done |]. destruct hi; [done |]. done.
Qed.

Lemma run_recomputed lo hi s :
  recomputed lo hi s (run_statements (summary_statements lo hi) s).
Proof.
  unfold recomputed.
  set (s' := run_statements (summary_statements lo hi) s).
  split; [| split; [| split; [| split; [| split]]]].
  - apply (delete_insert_replaced id lo hi (AllDates lo hi s')
             (sales_summary_select lo hi s') (sales_summary s)).
    apply AllDates_between.
  - apply (delete_insert_replaced id lo hi (order_summary_dates lo hi s')
             (order_summary_select lo hi s') (order_summary s)).
    apply order_summary_dates_between.
  - apply (delete_insert_replaced id lo hi (discount_summary_dates lo hi s')
             (discount_summary_select lo hi s') (discount_summary s)).
    apply discount_summary_dates_between.
  - apply (delete_insert_replaced id lo hi (gross_summary_dates lo hi s')
             (gross_summary_select lo hi s') (gross_summary s)).
    apply gross_summary_dates_between.
  - apply (delete_insert_replaced fst lo hi (hour_wise_sales_keys lo hi s')
             (hour_wise_sales_select lo hi s') (hour_wise_sales s)).
    apply hour_wise_sales_keys_between.
  - apply (delete_insert_replaced id lo hi (overall_summary_dates lo hi s')
             (overall_summary_select s') (overall_summary s)).
    apply overall_summary_dates_between.
Qed.

End RunFacts.

(** ** Claims on the summary recomputation *)

Lemma sales_summary_after_update (min_date max_date : string) (s : Summary.db)
    (d : string) :
  Summary.between min_date max_date d = true →
  Summary.sales_summary
    (SummarySpec.run_statements
       (Summary.update_sales_summary_incremental min_date max_date) s) !! d
  = if decide (d ∈ Summary.AllDates min_date max_date s)
    then Some (Summary.sales_summary_select min_date max_date s d) else None.
Proof.
  intros Hd.
  change (Summary.sales_summary
            (SummarySpec.run_statements
               (Summary.update_sales_summary_incremental min_date max_date) s))
    with (Summary.insert_rows
            (Summary.result_set (Summary.AllDates min_date max_date s)
               (Summary.sales_summary_select min_date max_date s))
            (Summary.delete_between id min_date max_date (Summary.sales_summary s))).
  rewrite SummaryFacts.lookup_insert_rows, SummaryFacts.lookup_result_set,
    SummaryFacts.lookup_delete_between.
  cbn [id]. rewrite Hd. by case_decide.
Qed.

Lemma sales_summary_of_run (min_date max_date : string) (s : Summary.db) :
  Summary.sales_summary
    (SummarySpec.run_statements (Summary.summary_statements min_date max_date) s)
  = Summary.sales_summary
      (SummarySpec.run_statements
         (Summary.update_sales_summary_incremental min_date max_date) s).
Proof. reflexivity. Qed.

(** C1.  After the sales summary has been recomputed for a range, the row of
    every date [d] of the range holds in [overall_returns] the sum of
    [amount] over the rows of the fact store with event type REFUND and event
    date [d]; a date of the range without a row has no such fact, so the sum
    is zero there.  The value is the same whatever the order tables hold,
    financial status included, and it is the value the complete run leaves. *)
Theorem C1_overall_returns_from_refund_facts (min_date max_date : string)
    (s : Summary.db) (d : string) :
  Summary.between min_date max_date d = true →
  (match Summary.sales_summary
           (SummarySpec.run_statements
              (Summary.update_sales_summary_incremental min_date max_date) s) !! d with
   | Some row => Summary.overall_returns row
                 = SummarySpec.refund_total (Summary.returns_fact s) d
   | None => SummarySpec.refund_total (Summary.returns_fact s) d = 0
             ∧ ∀ oid, Summary.returns_fact s !! (oid, REFUND, d) = None
   end)
  ∧ (∀ s2 row row2,
       Summary.returns_fact s2 = Summary.returns_fact s →
       Summary.sales_summary
         (SummarySpec.run_statements
            (Summary.update_sales_summary_incremental min_date max_date) s) !! d
       = Some row →
       Summary.sales_summary
         (SummarySpec.run_statements
            (Summary.update_sales_summary_incremental min_date max_date) s2) !! d
       = Some row2 →
       Summary.overall_returns row2 = Summary.overall_returns row)
  ∧ (min_date ≠ "" → max_date ≠ "" →
     Summary.sales_summary
       (Summary.execute_summary_queries_incremental None
          (Some min_date) (Some max_date) s) !! d
     = Summary.sales_summary
         (SummarySpec.run_statements
            (Summary.update_sales_summary_incremental min_date max_date) s) !! d).
Proof.
  intros Hd.
  assert (∀ s0 row,
            Summary.sales_summary
              (SummarySpec.run_statements
                 (Summary.update_sales_summary_incremental min_date max_date) s0) !! d
            = Some row →
            Summary.overall_returns row
            = SummarySpec.refund_total (Summary.returns_fact s0) d) as Hrow.
  { intros s0 row. rewrite sales_summary_after_update by done.
    case_decide; [| done]. intros [= <-]. cbn [Summary.overall_returns
      Summary.sales_summary_select].
    by apply SummaryFacts.refunds_by_date. }
  split; [| split].
  - destruct (Summary.sales_summary _ !! d) as [row |] eqn:Hlook.
    + by apply Hrow.
    + rewrite sales_summary_after_update in Hlook by done.
      case_decide as Hin; [done |].
      assert (∀ oid, Summary.returns_fact s !! (oid, REFUND, d) = None) as Hnone.
      { intros oid. destruct (Summary.returns_fact s !! (oid, REFUND, d)) eqn:Hf; [| done].
        exfalso. apply Hin. by eapply SummaryFacts.refund_date_in_AllDates. }
      split; [by apply SummaryFacts.refund_total_none | done].
  - intros s2 row row2 Hfacts Hr Hr2.
    rewrite (Hrow _ _ Hr), (Hrow _ _ Hr2). by rewrite Hfacts.
  - intros Hlo Hhi. rewrite RunFacts.execute_complete by done.
    by rewrite sales_summary_of_run.
Qed.

Lemma C1_overall_returns_from_refund_facts_witness :
  match Summary.sales_summary
          (SummarySpec.run_statements
             (Summary.update_sales_summary_incremental "2024-03-01" "2024-03-03")
             march_db) !! "2024-03-02" with
  | Some row => Summary.overall_returns row = 20300
  | None => False
  end.
Proof.
  pose proof (C1_overall_returns_from_refund_facts "2024-03-01" "2024-03-03"
                march_db "2024-03-02" eq_refl) as [H _].
  destruct (Summary.sales_summary _ !! "2024-03-02") as [row |] eqn:Hlook.
  - rewrite H. vm_compute. reflexivity.
  - destruct H as [_ H]. specialize (H 2). vm_compute in H. discriminate H.
Defined.



(** ** The recomputation as a whole *)

Module RecomputeFacts.
Import Summary SummarySpec SummaryFacts RunFacts Recompute.

Lemma db_ext (s s' : db) :
  same_sources s s' → (∀ d, same_rows_at d s s') → s' = s.
Proof.
  intros (H1 & H2 & H3 & H4 & H5) Hrows.
  destruct s, s'; cbn in *. subst.
  f_equal; apply map_eq.
  - intros d. apply (Hrows d).
  - intros d. apply (Hrows d).
  - intros d. apply (Hrows d).
  - intros d. apply (Hrows d).
  - intros [d h]. apply (Hrows d).
  - intros d. apply (Hrows d).
Qed.

Lemma sales_from_sources lo hi s s' :
  same_sources s s' →
  AllDates lo hi s' = AllDates lo hi s
  ∧ ∀ d, sales_summary_select lo hi s' d = sales_summary_select lo hi s d.
Proof.
  intros (H1 & H2 & H3 & _).
  unfold AllDates, sales_summary_select, figures, SalesData, ReturnsData,
    RefundsByDate.
  by rewrite H1, H2, H3.
Qed.

Lemma orders_from_sources lo hi s s' :
  same_sources s s' →
  order_summary_dates lo hi s' = order_summary_dates lo hi s
  ∧ ∀ d, order_summary_select lo hi s' d = order_summary_select lo hi s d.
Proof.
  intros (H1 & H2 & _).
  unfold order_summary_dates, order_summary_select. by rewrite H1, H2.
Qed.

Lemma discounts_from_sources lo hi s s' :
  same_sources s s' →
  discount_summary_dates lo hi s' = discount_summary_dates lo hi s
  ∧ ∀ d, discount_summary_select lo hi s' d = discount_summary_select lo hi s d.
Proof.
  intros (H1 & H2 & _).
  unfold discount_summary_dates, discount_summary_select, DiscountsGiven,
    DiscountsReturned.
  by rewrite H1, H2.
Qed.

Lemma gross_from_sources lo hi s s' d :
  same_sources s s' →
  discount_summary s' !! d = discount_summary s !! d →
  gross_summary_dates lo hi s' = gross_summary_dates lo hi s
  ∧ gross_summary_select lo hi s' d = gross_summary_select lo hi s d.
Proof.
  intros (H1 & _) Hd.
  unfold gross_summary_dates, gross_summary_select. by rewrite H1, Hd.
Qed.

Lemma hours_from_sources lo hi s s' :
  same_sources s s' →
  hour_wise_sales_keys lo hi s' = hour_wise_sales_keys lo hi s
  ∧ ∀ k, hour_wise_sales_select lo hi s' k = hour_wise_sales_select lo hi s k.
Proof.
  intros (H1 & _ & _ & _ & H5).
  unfold hour_wise_sales_keys, hour_wise_sales_select. by rewrite H1, H5.
Qed.

Lemma elem_of_overall_summary_dates lo hi s d :
  d ∈ overall_summary_dates lo hi s
  ↔ between lo hi d = true ∧ is_Some (sales_summary s !! d).
Proof.
  unfold overall_summary_dates. rewrite elem_of_filter, elem_of_dom. done.
Qed.

(** What a table that has been replaced in the range holds at a key of the
    range. *)
Lemma replaced_lookup {K V : Type} `{Countable K} (date_of : K -> string)
    (lo hi : string) (keys : gset K) (row : K -> V) (t t' : gmap K V) (k : K) :
  replaced_in_range date_of lo hi (result_set keys row) t t' →
  between lo hi (date_of k) = true →
  t' !! k = if decide (k ∈ keys) then Some (row k) else None.
Proof.
  intros (_ & _ & Hlook) Hk. by rewrite Hlook, Hk, lookup_result_set.
Qed.

Lemma replaced_outside {K V : Type} `{Countable K} (date_of : K -> string)
    (lo hi : string) (fresh t t' : gmap K V) (k : K) :
  replaced_in_range date_of lo hi fresh t t' →
  between lo hi (date_of k) = false →
  t' !! k = t !! k.
Proof. intros (_ & _ & Hlook) Hk. by rewrite Hlook, Hk. Qed.

(** Two recomputed databases with the same sources hold the same rows at
    every date of the range. *)
Lemma recomputed_agree lo hi s1 r1 s2 r2 d :
  recomputed lo hi s1 r1 → recomputed lo hi s2 r2 → same_sources r1 r2 →
  between lo hi d = true → same_rows_at d r1 r2.
Proof.
  intros (S1 & O1 & D1 & G1 & H1 & V1) (S2 & O2 & D2 & G2 & H2 & V2) Hsrc Hd.
  assert (sales_summary r2 !! d = sales_summary r1 !! d) as Hs.
  { rewrite (replaced_lookup id _ _ _ _ _ _ d S1 Hd),
      (replaced_lookup id _ _ _ _ _ _ d S2 Hd).
    destruct (sales_from_sources lo hi _ _ Hsrc) as [-> ->]. done. }
  assert (order_summary r2 !! d = order_summary r1 !! d) as Ho.
  { rewrite (replaced_lookup id _ _ _ _ _ _ d O1 Hd),
      (replaced_lookup id _ _ _ _ _ _ d O2 Hd).
    destruct (orders_from_sources lo hi _ _ Hsrc) as [-> ->]. done. }
  assert (discount_summary r2 !! d = discount_summary r1 !! d) as Hds.
  { rewrite (replaced_lookup id _ _ _ _ _ _ d D1 Hd),
      (replaced_lookup id _ _ _ _ _ _ d D2 Hd).
    destruct (discounts_from_sources lo hi _ _ Hsrc) as [-> ->]. done. }
  assert (gross_summary r2 !! d = gross_summary r1 !! d) as Hg.
  { rewrite (replaced_lookup id _ _ _ _ _ _ d G1 Hd),
      (replaced_lookup id _ _ _ _ _ _ d G2 Hd).
    destruct (gross_from_sources lo hi _ _ d Hsrc Hds) as [-> ->]. done. }
  assert (∀ h, hour_wise_sales r2 !! (d, h) = hour_wise_sales r1 !! (d, h)) as Hh.
  { intros h.
    rewrite (replaced_lookup fst _ _ _ _ _ _ (d, h) H1 Hd),
      (replaced_lookup fst _ _ _ _ _ _ (d, h) H2 Hd).
    destruct (hours_from_sources lo hi _ _ Hsrc) as [-> ->]. done. }
  split; [done |]. split; [done |]. split; [done |]. split; [done |].
  split; [done |].
  rewrite (replaced_lookup id _ _ _ _ _ _ d V1 Hd),
    (replaced_lookup id _ _ _ _ _ _ d V2 Hd).
  destruct Hsrc as (_ & _ & _ & Hsess & _).
  assert (overall_summary_select r2 d = overall_summary_select r1 d) as ->.
  { unfold overall_summary_select. by rewrite Hs, Ho, Hds, Hg, Hsess. }
  destruct (decide (d ∈ overall_summary_dates lo hi r1)) as [Hin | Hout].
  - rewrite decide_True; [done |].
    apply elem_of_overall_summary_dates. rewrite Hs.
    by apply elem_of_overall_summary_dates.
  - rewrite decide_False; [done |].
    rewrite elem_of_overall_summary_dates, Hs.
    by rewrite <- elem_of_overall_summary_dates.
Qed.

Lemma run_unfold lo hi s :
  lo ≠ "" → hi ≠ "" → run lo hi s = run_statements (summary_statements lo hi) s.
Proof. apply execute_complete. Qed.

Lemma run_empty_range lo hi s : lo = "" ∨ hi = "" → run lo hi s = s.
Proof.
  unfold run, execute_summary_queries_incremental.
  intros [-> | ->]; [done |]. by destruct lo.
Qed.

Lemma execute_sources healthy_for min_date max_date s :
  same_sources s
    (execute_summary_queries_incremental healthy_for min_date max_date s).
Proof.
  unfold execute_summary_queries_incremental.
  destruct (PyStr.truthy min_date && PyStr.truthy max_date);
    [| apply same_sources_refl].
  apply (execute_all_frame _ _ _ (summary_statements_frame _ _) healthy_for s).
Qed.

Lemma run_sources lo hi s : same_sources s (run lo hi s).
Proof.
  unfold run, execute_summary_queries_incremental.
  destruct (PyStr.truthy (Some lo) && PyStr.truthy (Some hi));
    [| apply same_sources_refl].
  apply (execute_all_frame lo hi _ (summary_statements_frame lo hi) None s).
Qed.

Lemma run_outside lo hi s d :
  between lo hi d = false → same_rows_at d s (run lo hi s).
Proof.
  intros Hd. unfold run, execute_summary_queries_incremental.
  destruct (PyStr.truthy (Some lo) && PyStr.truthy (Some hi));
    [| apply same_rows_at_refl].
  by apply (execute_all_frame lo hi _ (summary_statements_frame lo hi) None s).
Qed.

Lemma run_is_recomputed lo hi s :
  lo ≠ "" → hi ≠ "" → recomputed lo hi s (run lo hi s).
Proof. intros Hlo Hhi. rewrite run_unfold by done. apply run_recomputed. Qed.

Lemma same_sources_sym s s' : same_sources s s' → same_sources s' s.
Proof. intros (H1 & H2 & H3 & H4 & H5). by repeat split. Qed.

End RecomputeFacts.

(** The rows a complete run leaves inside the range are a function of the
    source tables (the two order tables, the fact store and the two session
    tables): two databases with the same sources, whatever their summary
    tables held before, agree on every summary row dated in the range after
    the run. *)
Theorem recompute_from_sources (lo hi : string) (s1 s2 : Summary.db) (d : string) :
  lo ≠ "" → hi ≠ "" →
  SummarySpec.same_sources s1 s2 →
  Summary.between lo hi d = true →
  SummarySpec.same_rows_at d (Recompute.run lo hi s1) (Recompute.run lo hi s2).
Proof.
  intros Hlo Hhi Hsrc Hd.
  apply (RecomputeFacts.recomputed_agree lo hi s1 _ s2 _ d);
    [by apply RecomputeFacts.run_is_recomputed
    | by apply RecomputeFacts.run_is_recomputed | | done].
  eapply RunFacts.same_sources_trans;
    [| apply RecomputeFacts.run_sources].
  eapply RunFacts.same_sources_trans; [| exact Hsrc].
  apply RecomputeFacts.same_sources_sym, RecomputeFacts.run_sources.
Qed.

Lemma recompute_from_sources_witness :
  SummarySpec.same_rows_at "2024-03-02"
    (Recompute.run "2024-03-01" "2024-03-03" march_db)
    (Recompute.run "2024-03-01" "2024-03-03" (Summary.with_sales_summary ∅ march_db)).
Proof.
  apply (recompute_from_sources "2024-03-01" "2024-03-03" march_db
           (Summary.with_sales_summary ∅ march_db) "2024-03-02");
    [done | done | by repeat split | vm_compute; reflexivity].
Defined.

(** Recomputing a range a second time changes nothing: a complete run on the
    result of a complete run over the same range returns the same
    database. *)
Theorem recompute_idempotent (lo hi : string) (s : Summary.db) :
  Recompute.run lo hi (Recompute.run lo hi s) = Recompute.run lo hi s.
Proof.
  destruct (decide (lo = "")) as [-> | Hlo];
    [by rewrite !RecomputeFacts.run_empty_range by auto |].
  destruct (decide (hi = "")) as [-> | Hhi];
    [by rewrite !RecomputeFacts.run_empty_range by auto |].
  apply RecomputeFacts.db_ext; [apply RecomputeFacts.run_sources |].
  intros d. destruct (Summary.between lo hi d) eqn:Hd.
  - apply (RecomputeFacts.recomputed_agree lo hi s _ (Recompute.run lo hi s) _ d);
      [by apply RecomputeFacts.run_is_recomputed
      | by apply RecomputeFacts.run_is_recomputed
      | apply RecomputeFacts.run_sources | done].
  - by apply RecomputeFacts.run_outside.
Qed.

Module TableFacts.
Import Summary SummarySpec SummaryFacts RunFacts Recompute.







Lemma length_remove_dups_set (l : list string) :
  length (remove_dups l) = size (list_to_set (C := gset string) l).
Proof.
  rewrite <- (size_list_to_set (C := gset string) (remove_dups l))
    by apply NoDup_remove_dups.
  f_equal. apply set_eq. intros x.
  by rewrite !elem_of_list_to_set, elem_of_remove_dups.
Qed.


Lemma sales_row_of_run lo hi s d :
  lo ≠ "" → hi ≠ "" → between lo hi d = true →
  sales_summary (run lo hi s) !! d
  = if decide (d ∈ AllDates lo hi s) then Some (sales_summary_select lo hi s d)
    else None.
Proof.
  intros Hlo Hhi Hd. unfold run. rewrite execute_complete by done.
  rewrite sales_summary_of_run. by apply sales_summary_after_update.
Qed.

End TableFacts.



Module DuplicateFacts.
Import Summary SummarySpec SummaryFacts RunFacts Recompute RecomputeFacts TableFacts.

Lemma order_row_of_run lo hi s d :
  lo ≠ "" → hi ≠ "" → between lo hi d = true →
  order_summary (run lo hi s) !! d
  = if decide (d ∈ order_summary_dates lo hi s)
    then Some (order_summary_select lo hi s d) else None.
Proof.
  intros Hlo Hhi Hd.
  destruct (run_is_recomputed lo hi s Hlo Hhi) as (_ & Ho & _).
  rewrite (replaced_lookup id _ _ _ _ _ _ d Ho Hd).
  destruct (orders_from_sources lo hi s (run lo hi s) (run_sources lo hi s))
    as [-> ->].
  done.
Qed.



End DuplicateFacts.



(** After a complete run, [overall_summary] has a row for a date of the range
    exactly when the recomputed [sales_summary] has one, and the row is the
    one its query yields on the tables the run has just recomputed: total
    sales, orders, discounts and gross and net sales are the figures of the
    rows of [sales_summary], [order_summary], [discount_summary] and
    [gross_summary] for the date, zero where a table has no row. *)
Theorem overall_summary_follows_tables (lo hi : string) (s : Summary.db) (d : string) :
  lo ≠ "" → hi ≠ "" →
  Summary.between lo hi d = true →
  let s' := Recompute.run lo hi s in
  (is_Some (Summary.overall_summary s' !! d)
   ↔ is_Some (Summary.sales_summary s' !! d))
  ∧ ∀ row,
      Summary.overall_summary s' !! d = Some row →
      row = Summary.overall_summary_select s' d
      ∧ Summary.ov_total_sales row
        = Summary.coalesce (Summary.actual_overall_sales <$> Summary.sales_summary s' !! d)
      ∧ Summary.total_orders row
        = Summary.coalesce
            (Summary.number_of_orders_created <$> Summary.order_summary s' !! d)
      ∧ Summary.total_discount_amount row
        = Summary.coalesce
            (Summary.ds_actual_discounts <$> Summary.discount_summary s' !! d)
      ∧ Summary.ov_gross_sales row
        = Summary.coalesce (Summary.gs_gross_sales <$> Summary.gross_summary s' !! d)
      ∧ Summary.ov_net_sales row
        = Summary.coalesce (Summary.gs_net_sales <$> Summary.gross_summary s' !! d).
Proof.
  intros Hlo Hhi Hd s'.
  destruct (RecomputeFacts.run_is_recomputed lo hi s Hlo Hhi)
    as (_ & _ & _ & _ & _ & Hv).
  fold s' in Hv.
  pose proof (RecomputeFacts.replaced_lookup id _ _ _ _ _ _ d Hv Hd) as Hlook.
  split.
  - rewrite Hlook. case_decide as Hin.
    + apply RecomputeFacts.elem_of_overall_summary_dates in Hin as [_ Hin].
      split; [done | by eexists].
    + split; [by intros [? ?] |]. intros Hsome. destruct Hin.
      by apply RecomputeFacts.elem_of_overall_summary_dates.
  - intros row Hrow. rewrite Hlook in Hrow. case_decide; [| done].
    injection Hrow as <-. done.
Qed.

Lemma overall_summary_follows_tables_witness :
  is_Some (Summary.overall_summary (Recompute.run "2024-03-01" "2024-03-03" march_db)
             !! "2024-03-02").
Proof.
  apply (overall_summary_follows_tables "2024-03-01" "2024-03-03" march_db "2024-03-02");
    [done | done | vm_compute; reflexivity |].
  vm_compute. eexists. reflexivity.
Defined.

(** A run that stops at the INSERT of a summary table (the statement after
    its DELETE fails) leaves that table without any row dated in the range:
    the DELETE has been committed and nothing undoes it.  [i] counts the six
    tables in the order the run recomputes them. *)
Theorem failed_insert_leaves_range_empty (i : nat) (lo hi : string) (s : Summary.db)
    (d : string) :
  (i < 6)%nat →
  lo ≠ "" → hi ≠ "" →
  d ∈ Recompute.dates_of_table i
        (Summary.execute_summary_queries_incremental (Some (2 * i + 1)%nat)
           (Some lo) (Some hi) s) →
  Summary.between lo hi d = false.
Proof.
  intros Hi Hlo Hhi.
  unfold Summary.execute_summary_queries_incremental.
  destruct lo as [| c lo']; [done |]. destruct hi as [| c' hi']; [done |].
  cbn [PyStr.truthy andb default from_option id].
  set (lo := String c lo'). set (hi := String c' hi').
  destruct i as [| [| [| [| [| [| i]]]]]]; [.. | lia]; clear Hi;
    cbn [Nat.mul Nat.add Summary.summary_statements app
         Summary.update_sales_summary_incremental
         Summary.update_order_summary_incremental
         Summary.update_discount_summary_incremental
         Summary.update_gross_summary_incremental
         Summary.update_hour_wise_sales_incremental
         Summary.update_overall_summary_incremental
         Summary.execute_all fst Recompute.dates_of_table];
    try (rewrite elem_of_dom; intros [v Hv]; revert Hv);
    try (intros ([d' h] & -> & [v Hv]%elem_of_dom)%elem_of_map; revert Hv; cbn [fst]).
  - change (Summary.sales_summary (Summary.delete_sales_summary lo hi s))
      with (Summary.delete_between id lo hi (Summary.sales_summary s)).
    rewrite SummaryFacts.lookup_delete_between. cbn [id].
    by destruct (Summary.between lo hi d).
  - match goal with
    | |- Summary.order_summary ?s' !! d = _ → _ =>
        change (Summary.order_summary s')
          with (Summary.delete_between id lo hi (Summary.order_summary s))
    end.
    rewrite SummaryFacts.lookup_delete_between. cbn [id].
    by destruct (Summary.between lo hi d).
  - match goal with
    | |- Summary.discount_summary ?s' !! d = _ → _ =>
        change (Summary.discount_summary s')
          with (Summary.delete_between id lo hi (Summary.discount_summary s))
    end.
    rewrite SummaryFacts.lookup_delete_between. cbn [id].
    by destruct (Summary.between lo hi d).
  - match goal with
    | |- Summary.gross_summary ?s' !! d = _ → _ =>
        change (Summary.gross_summary s')
          with (Summary.delete_between id lo hi (Summary.gross_summary s))
    end.
    rewrite SummaryFacts.lookup_delete_between. cbn [id].
    by destruct (Summary.between lo hi d).
  - match goal with
    | |- Summary.hour_wise_sales ?s' !! _ = _ → _ =>
        change (Summary.hour_wise_sales s')
          with (Summary.delete_between fst lo hi (Summary.hour_wise_sales s))
    end.
    rewrite SummaryFacts.lookup_delete_between. cbn [fst].
    by destruct (Summary.between lo hi d').
  - match goal with
    | |- Summary.overall_summary ?s' !! d = _ → _ =>
        change (Summary.overall_summary s')
          with (Summary.delete_between id lo hi (Summary.overall_summary s))
    end.
    rewrite SummaryFacts.lookup_delete_between. cbn [id].
    by destruct (Summary.between lo hi d).
Qed.

Lemma failed_insert_leaves_range_empty_witness :
  ("2024-03-02" ∉ Recompute.dates_of_table 0
                    (Summary.execute_summary_queries_incremental (Some 1%nat)
                       (Some "2024-03-01") (Some "2024-03-03") march_db))
  ∧ ("2024-03-02" ∈ Recompute.dates_of_table 0 march_db).
Proof.
  split.
  - intros Hin.
    pose proof (failed_insert_leaves_range_empty 0 "2024-03-01" "2024-03-03" march_db
                  "2024-03-02") as Hout.
    cbn [Nat.mul Nat.add] in Hout.
    specialize (Hout ltac:(lia) ltac:(done) ltac:(done) Hin).
    vm_compute in Hout. discriminate Hout.
  - unfold Recompute.dates_of_table, march_db. cbn [Summary.sales_summary].
    rewrite !dom_insert_L. set_solver.
Defined.
Module PaymentFacts.
Import Summary SummarySpec SummaryFacts RunFacts Recompute TableFacts.

(** The identifiers a count of distinct orders ranges over. *)
Lemma count_distinct_size (cond : order_row -> bool) (rows : list order_row) :
  count_distinct cond rows
  = Z.of_nat (size (list_to_set (C := gset string)
                      (omap order_id (List.filter cond rows)))).
Proof. unfold count_distinct. by rewrite length_remove_dups_set. Qed.

Lemma count_distinct_le (cond : order_row -> bool) (rows : list order_row) :
  0 <= count_distinct cond rows <= count_distinct any_row rows.
Proof.
  rewrite !count_distinct_size. split; [lia |].
  apply inj_le, subseteq_size. intros x.
  rewrite !elem_of_list_to_set, !list_elem_of_omap.
  intros (r & Hr & Hid). exists r. split; [| done].
  apply list_elem_of_In, List.filter_In in Hr as [Hin _].
  apply list_elem_of_In, List.filter_In. by split.
Qed.

(** Every row is in one of the three payment classes, and a prepaid row
    is in no other. *)
Lemma payment_class (r : order_row) :
  is_cod r || is_prepaid r || is_partially_paid r = true
  ∧ (is_prepaid r = true → is_cod r = false ∧ is_partially_paid r = false).
Proof.
  unfold is_cod, is_prepaid, is_partially_paid.
  destruct (payment_gateway_names r) as [p |]; [| done].
  destruct (equals (Some p) ""), (like (Some p) cod_pattern),
    (like (Some p) cash_pattern), (like (Some p) ppcod_pattern); done.
Qed.

Lemma count_distinct_cover (rows : list order_row) :
  count_distinct any_row rows
  <= count_distinct is_cod rows + count_distinct is_prepaid rows
     + count_distinct is_partially_paid rows.
Proof.
  rewrite !count_distinct_size.
  set (ids := fun cond => list_to_set (C := gset string)
                            (omap order_id (List.filter cond rows))).
  assert (ids any_row ⊆ ids is_cod ∪ ids is_prepaid ∪ ids is_partially_paid) as Hsub.
  { intros x. unfold ids.
    rewrite !elem_of_union, !elem_of_list_to_set, !list_elem_of_omap.
    intros (r & Hr & Hid).
    apply list_elem_of_In, List.filter_In in Hr as [Hin _].
    assert (∀ cond, cond r = true →
                    ∃ r', r' ∈ List.filter cond rows ∧ order_id r' = Some x) as Hcond.
    { intros cond Hc. exists r. split; [| done].
      apply list_elem_of_In, List.filter_In. by split. }
    destruct (payment_class r) as [Hclass _].
    apply orb_true_iff in Hclass as [Hclass | Hpp]; [| right; by apply Hcond].
    apply orb_true_iff in Hclass as [Hcod | Hpre];
      left; [left | right]; by apply Hcond. }
  apply subseteq_size in Hsub.
  pose proof (size_union_alt (ids is_cod ∪ ids is_prepaid) (ids is_partially_paid)).
  pose proof (size_union_alt (ids is_cod) (ids is_prepaid)).
  pose proof (subseteq_size (ids is_partially_paid ∖ (ids is_cod ∪ ids is_prepaid))
                (ids is_partially_paid) ltac:(apply subseteq_difference_l; reflexivity)).
  pose proof (subseteq_size (ids is_prepaid ∖ ids is_cod) (ids is_prepaid)
                ltac:(apply subseteq_difference_l; reflexivity)).
  fold (ids any_row) (ids is_cod) (ids is_prepaid) (ids is_partially_paid). lia.
Qed.

End PaymentFacts.

(** After a complete run, every order created on a date of the range is
    counted in at least one of the three payment figures of [order_summary]
    (COD, prepaid, partially paid): the three add up to at least the number
    of orders created, and none of them exceeds it.  An order whose gateway
    names match the COD and the PPCOD pattern is counted in both. *)
Theorem payment_figures_cover_orders (lo hi : string) (s : Summary.db) (d : string)
    (row : Summary.order_summary_row) :
  lo ≠ "" → hi ≠ "" →
  Summary.between lo hi d = true →
  Summary.order_summary (Recompute.run lo hi s) !! d = Some row →
  Summary.number_of_orders_created row
  <= Summary.overall_cod_orders row + Summary.overall_prepaid_orders row
     + Summary.overall_partially_paid_orders row
  ∧ 0 <= Summary.overall_cod_orders row <= Summary.number_of_orders_created row
  ∧ 0 <= Summary.overall_prepaid_orders row <= Summary.number_of_orders_created row
  ∧ 0 <= Summary.overall_partially_paid_orders row
    <= Summary.number_of_orders_created row.
Proof.
  intros Hlo Hhi Hd Hrow.
  rewrite DuplicateFacts.order_row_of_run in Hrow by done.
  case_decide; [| done]. injection Hrow as <-.
  cbn [Summary.order_summary_select Summary.number_of_orders_created
       Summary.overall_cod_orders Summary.overall_prepaid_orders
       Summary.overall_partially_paid_orders].
  split; [apply PaymentFacts.count_distinct_cover |].
  repeat split; apply PaymentFacts.count_distinct_le.
Qed.

Lemma payment_figures_cover_orders_witness :
  ∃ row, Summary.order_summary (Recompute.run "2024-03-01" "2024-03-03" march_db)
           !! "2024-03-01" = Some row
         ∧ Summary.number_of_orders_created row
           <= Summary.overall_cod_orders row + Summary.overall_prepaid_orders row
              + Summary.overall_partially_paid_orders row.
Proof.
  destruct (Summary.order_summary (Recompute.run "2024-03-01" "2024-03-03" march_db)
              !! "2024-03-01") as [row |] eqn:Hrow; [| vm_compute in Hrow; discriminate].
  exists row. split; [done |].
  apply (payment_figures_cover_orders "2024-03-01" "2024-03-03" march_db "2024-03-01" row);
    [done | done | vm_compute; reflexivity | exact Hrow].
Defined.

(** ** Batches and runs of the returns reconciler *)

Section ReconcilerComposition.

Variable fromisoformat : string -> option Z.

Lemma for_each_app {A S : Type} (body : S -> A -> outcome S) (xs ys : list A) (acc : S) :
  for_each body (xs ++ ys) acc = for_each body xs acc ≫= for_each body ys.
Proof.
  revert acc. induction xs as [| x xs IH]; intros acc; cbn [for_each app].
  - done.
  - destruct (body acc x) as [acc' | e]; simpl; [apply IH | done].
Qed.

(** Whether the loop returns does not depend on the dictionary it starts
    from. *)
Lemma for_each_returns_from batch agg agg1 agg' :
  for_each (reconcile_order fromisoformat) batch agg = Returned agg1 →
  ∃ agg2, for_each (reconcile_order fromisoformat) batch agg' = Returned agg2.
Proof.
  intros Hret. apply for_each_returns, Forall_forall.
  intros o Hin Hc Hbad.
  by rewrite (for_each_raises fromisoformat batch agg o Hin Hc Hbad) in Hret.
Qed.

Lemma foldl_max_ge (l : list Z) (a : Z) : a <= foldl Z.max a l.
Proof.
  revert a. induction l as [| x l IH]; intros a; cbn [foldl]; [lia |].
  specialize (IH (Z.max a x)). lia.
Qed.

Lemma foldl_max_from (l : list Z) (a b : Z) :
  b <= a → foldl Z.max a l = Z.max a (foldl Z.max b l).
Proof.
  revert a b. induction l as [| x l IH]; intros a b Hab; cbn [foldl]; [lia |].
  rewrite (IH (Z.max a x) (Z.max b x)) by lia.
  pose proof (foldl_max_ge l (Z.max b x)). lia.
Qed.

Lemma batch_refund_total_app A B oid d :
  batch_refund_total fromisoformat (A ++ B) oid d
  = batch_refund_total fromisoformat A oid d + batch_refund_total fromisoformat B oid d.
Proof.
  unfold batch_refund_total. rewrite filter_app, fmap_app.
  generalize ((λ o : order, snapshot_refund_total fromisoformat o d)
                <$> filter (λ o : order, order_oid o = Some oid) A).
  intros l. induction l as [| x l IH]; [done |].
  rewrite <- app_comm_cons, !sumZ_cons, IH. lia.
Qed.

Lemma cancel_observations_app A B oid d :
  cancel_observations fromisoformat (A ++ B) oid d
  = (cancel_observations fromisoformat A oid d
     ++ cancel_observations fromisoformat B oid d)%list.
Proof. unfold cancel_observations. by rewrite filter_app, fmap_app. Qed.

Lemma aggregate_app A B aggA aggB :
  aggregate fromisoformat A = Returned aggA →
  aggregate fromisoformat B = Returned aggB →
  ∃ agg, aggregate fromisoformat (A ++ B) = Returned agg.
Proof.
  unfold aggregate. intros HA HB. rewrite for_each_app, HA. simpl.
  eapply for_each_returns_from, HB.
Qed.

End ReconcilerComposition.

(** Snapshots that reach the reconciler in one batch are merged key by key:
    when the batch is the concatenation of two batches, the REFUND amount of
    a key is the sum of the amounts the two parts give it and the CANCEL
    amount is the greater of the two.  In particular a snapshot that occurs
    twice in one batch has its REFUND amounts doubled. *)
Theorem one_batch_merges_amounts (fromisoformat : string -> option Z)
    (A B : list order) (aggA aggB : gmap fact_key Z) :
  aggregate fromisoformat A = Returned aggA →
  aggregate fromisoformat B = Returned aggB →
  ∃ agg,
    aggregate fromisoformat (A ++ B) = Returned agg
    ∧ ∀ oid d,
        agg !! (oid, REFUND, d)
        = union_with (fun a b => Some (a + b))
            (aggA !! (oid, REFUND, d)) (aggB !! (oid, REFUND, d))
        ∧ agg !! (oid, CANCEL, d)
          = union_with (fun a b => Some (Z.max a b))
              (aggA !! (oid, CANCEL, d)) (aggB !! (oid, CANCEL, d)).
Proof.
  intros HA HB.
  destruct (aggregate_app fromisoformat A B aggA aggB HA HB) as [agg Hagg].
  exists agg. split; [done |]. intros oid d. split.
  - rewrite (aggregate_refund fromisoformat _ _ oid d Hagg),
      (aggregate_refund fromisoformat _ _ oid d HA),
      (aggregate_refund fromisoformat _ _ oid d HB),
      batch_refund_total_app.
    pose proof (batch_refund_total_nonneg fromisoformat A oid d).
    pose proof (batch_refund_total_nonneg fromisoformat B oid d).
    destruct (Z.ltb_spec 0 (batch_refund_total fromisoformat A oid d)),
      (Z.ltb_spec 0 (batch_refund_total fromisoformat B oid d)),
      (Z.ltb_spec 0 (batch_refund_total fromisoformat A oid d
                     + batch_refund_total fromisoformat B oid d));
      cbn; try lia; try done; f_equal; lia.
  - rewrite (aggregate_cancel fromisoformat _ _ oid d Hagg),
      (aggregate_cancel fromisoformat _ _ oid d HA),
      (aggregate_cancel fromisoformat _ _ oid d HB),
      cancel_observations_app.
    destruct (cancel_observations fromisoformat A oid d) as [| a obsA];
      [by destruct (cancel_observations fromisoformat B oid d) |].
    destruct (cancel_observations fromisoformat B oid d) as [| b obsB].
    + by rewrite app_nil_r.
    + destruct ((a :: obsA) ++ b :: obsB)%list as [| c obs] eqn:Happ; [done |].
      rewrite <- Happ. cbn [union_with option_union_with]. f_equal.
      rewrite foldl_app.
      pose proof (foldl_max_ge (a :: obsA) 0).
      by rewrite (foldl_max_from (b :: obsB) (foldl Z.max 0 (a :: obsA)) 0).
Qed.

Lemma one_batch_merges_amounts_witness :
  ∃ agg,
    aggregate IsoFormat.instant ([refunded_snapshot 8] ++ [refunded_snapshot 8])
    = Returned agg
    ∧ agg !! (8, REFUND, "2024-02-10") = Some 40000.
Proof.
  destruct (for_each_returns IsoFormat.instant [refunded_snapshot 8] ∅) as [aggA HA].
  { apply Forall_cons_2; [| apply Forall_nil_2].
    intros [_ [d Hd]]. vm_compute in Hd. discriminate Hd. }
  fold (aggregate IsoFormat.instant [refunded_snapshot 8]) in HA.
  destruct (one_batch_merges_amounts IsoFormat.instant
              [refunded_snapshot 8] [refunded_snapshot 8] aggA aggA HA HA)
    as (agg & Hagg & Hlook).
  exists agg. split; [done |].
  destruct (Hlook 8 "2024-02-10") as [-> _].
  rewrite (aggregate_refund IsoFormat.instant _ _ 8 "2024-02-10" HA).
  assert (batch_refund_total IsoFormat.instant [refunded_snapshot 8] 8 "2024-02-10"
          = 20000) as -> by (vm_compute; reflexivity).
  reflexivity.
Defined.

(** Across runs nothing is merged: when the reconciler runs on a batch and
    then on a second one, both runs return, and afterwards every key the
    second batch derives holds the amount of the second batch, every other
    key the first batch derives holds the amount of the first, and the rest
    of the store is as it was. *)
Theorem later_run_replaces (fromisoformat : string -> option Z)
    (A B : list order) (store aggA aggB : gmap fact_key Z) :
  aggregate fromisoformat A = Returned aggA →
  aggregate fromisoformat B = Returned aggB →
  ∃ store2,
    (upsert_returns_fact_from_orders fromisoformat A store
       ≫= upsert_returns_fact_from_orders fromisoformat B)
    = Returned store2
    ∧ ∀ key,
        store2 !! key
        = match aggB !! key with
          | Some amount => Some amount
          | None => match aggA !! key with
                    | Some amount => Some amount
                    | None => store !! key
                    end
          end.
Proof.
  intros HA HB. exists (aggB ∪ (aggA ∪ store)). split.
  - rewrite upsert_returns_fact_from_orders_union, HA. simpl.
    by rewrite upsert_returns_fact_from_orders_union, HB.
  - intros key. rewrite !lookup_union.
    by destruct (aggB !! key), (aggA !! key), (store !! key).
Qed.

Lemma later_run_replaces_witness :
  ∃ store2,
    (upsert_returns_fact_from_orders IsoFormat.instant [refunded_snapshot 8] ∅
       ≫= upsert_returns_fact_from_orders IsoFormat.instant [refunded_snapshot 8])
    = Returned store2
    ∧ store2 !! (8, REFUND, "2024-02-10") = Some 20000.
Proof.
  destruct (for_each_returns IsoFormat.instant [refunded_snapshot 8] ∅) as [aggA HA].
  { apply Forall_cons_2; [| apply Forall_nil_2].
    intros [_ [d Hd]]. vm_compute in Hd. discriminate Hd. }
  fold (aggregate IsoFormat.instant [refunded_snapshot 8]) in HA.
  destruct (later_run_replaces IsoFormat.instant
              [refunded_snapshot 8] [refunded_snapshot 8] ∅ aggA aggA HA HA)
    as (store2 & Hrun & Hlook).
  exists store2. split; [done |].
  rewrite Hlook, (aggregate_refund IsoFormat.instant _ _ 8 "2024-02-10" HA).
  assert (batch_refund_total IsoFormat.instant [refunded_snapshot 8] 8 "2024-02-10"
          = 20000) as -> by (vm_compute; reflexivity).
  reflexivity.
Defined.

(** ** The run for one brand *)

Module BrandFacts.
Import Window Brand Summary SummarySpec.

Lemma string_leb_antisym (a b : string) :
  String.leb a b = true → String.leb b a = true → a = b.
Proof.
  rewrite !string_leb_iff. intros [-> | Hab] [Heq | Hba]; try done.
  exfalso.
  pose proof (OrderedTypeEx.String_as_OT.lt_trans _ _ _ Hab Hba) as Haa.
  by apply OrderedTypeEx.String_as_OT.lt_not_eq in Haa.
Qed.

Lemma str_min_le_l a b : date_le (str_min a b) a.
Proof.
  unfold str_min, date_le. destruct (String.leb a b) eqn:E.
  - apply string_leb_refl.
  - by apply string_leb_false.
Qed.

Lemma str_min_le_r a b : date_le (str_min a b) b.
Proof.
  unfold str_min, date_le. destruct (String.leb a b) eqn:E;
    [done | apply string_leb_refl].
Qed.

Lemma str_max_ge_l a b : date_le a (str_max a b).
Proof.
  unfold str_max, date_le. destruct (String.leb a b) eqn:E;
    [done | apply string_leb_refl].
Qed.

Lemma str_max_ge_r a b : date_le b (str_max a b).
Proof.
  unfold str_max, date_le. destruct (String.leb a b) eqn:E.
  - apply string_leb_refl.
  - by apply string_leb_false.
Qed.

Lemma str_min_cases a b : str_min a b = a ∨ str_min a b = b.
Proof. unfold str_min. destruct (String.leb a b); auto. Qed.

Lemma str_max_cases a b : str_max a b = a ∨ str_max a b = b.
Proof. unfold str_max. destruct (String.leb a b); auto. Qed.

Lemma between_iff lo hi d :
  between lo hi d = true ↔ date_le lo d ∧ date_le d hi.
Proof. unfold between, date_le. by rewrite andb_true_iff. Qed.

Lemma isoformat_date_nonempty (n : Z) (s : string) :
  Calendar.isoformat_date n = Some s → s ≠ "".
Proof.
  unfold Calendar.isoformat_date.
  destruct (Calendar.civil_from_days n) as [[y m] d].
  destruct (_ && _); [| done]. intros [= <-]. done.
Qed.

Section Dates.

Variable fromisoformat : string -> option Z.

Lemma batch_dates_nonempty batch d :
  d ∈ batch_dates fromisoformat batch → d ≠ "".
Proof.
  intros [t Ht]%batch_dates_of_day. by eapply isoformat_date_nonempty.
Qed.

(** The range of a batch from its dates. *)
Lemma range_of_batch batch :
  range_of (batch_dates fromisoformat batch)
           (get_affected_date_range fromisoformat batch).
Proof.
  assert (∀ d, d ∈ foldl (collect_dates fromisoformat) ∅ batch
               ↔ d ∈ batch_dates fromisoformat batch) as Hdates.
  { intros d. rewrite elem_of_collected, elem_of_empty. tauto. }
  unfold range_of, get_affected_date_range.
  destruct batch as [| o batch]; [by left |].
  set (dates := foldl (collect_dates fromisoformat) ∅ (o :: batch)) in *.
  destruct (decide (dates = ∅)) as [Hempty | Hne].
  - left. split; [| done].
    destruct (batch_dates fromisoformat (o :: batch)) as [| d ds] eqn:Hb; [done |].
    assert (d ∈ dates) as Hd by (apply Hdates; constructor).
    rewrite Hempty in Hd. by apply elem_of_empty in Hd.
  - right.
    destruct (py_min_spec dates Hne) as (lo & -> & Hlo & Hmin).
    destruct (py_max_spec dates Hne) as (hi & -> & Hhi & Hmax).
    exists lo, hi. split; [done |].
    split; [by apply Hdates |]. split; [by apply Hdates |].
    intros d Hd. apply Hdates in Hd. split; [by apply Hmin | by apply Hmax].
Qed.

Lemma range_covers batch d :
  d ∈ batch_dates fromisoformat batch →
  covers (get_affected_date_range fromisoformat batch) d.
Proof.
  intros Hd.
  destruct (range_of_batch batch) as [[Hnil _] | (lo & hi & Hr & Hlo & Hhi & Hall)].
  - rewrite Hnil in Hd. by apply elem_of_nil in Hd.
  - exists lo, hi. split; [done |].
    split; [by eapply batch_dates_nonempty |].
    split; [by eapply batch_dates_nonempty |].
    apply between_iff. by apply Hall.
Qed.

(** The date of every fact the reconciler derives is one of the dates of
    the batch. *)
Lemma snapshot_refund_total_date o d :
  snapshot_refund_total fromisoformat o d ≠ 0 →
  d ∈ snapshot_dates fromisoformat o.
Proof.
  unfold snapshot_refund_total, snapshot_dates. intros Hne.
  destruct (filter (λ rf, ist_date fromisoformat (rf_created_at rf) = Some d)
                   (o_refunds o)) as [| rf rfs] eqn:Hf; [done |].
  assert (rf ∈ filter (λ rf, ist_date fromisoformat (rf_created_at rf) = Some d)
                      (o_refunds o)) as Hin by (rewrite Hf; constructor).
  apply list_elem_of_filter in Hin as [Hdate Hin].
  apply elem_of_app. right. apply list_elem_of_omap. by exists rf.
Qed.

Lemma batch_refund_total_date batch oid d :
  batch_refund_total fromisoformat batch oid d ≠ 0 →
  d ∈ batch_dates fromisoformat batch.
Proof.
  unfold batch_refund_total, batch_dates.
  induction batch as [| o batch IH]; [done |].
  rewrite filter_cons, bind_cons, elem_of_app.
  case_decide.
  - rewrite fmap_cons, sumZ_cons. intros Hne.
    destruct (decide (snapshot_refund_total fromisoformat o d = 0)) as [H0 | H0].
    + right. apply IH. lia.
    + left. by apply snapshot_refund_total_date.
  - intros Hne. right. by apply IH.
Qed.

Lemma cancel_observations_date batch oid d :
  cancel_observations fromisoformat batch oid d ≠ [] →
  d ∈ batch_dates fromisoformat batch.
Proof.
  unfold cancel_observations, batch_dates. intros Hne.
  destruct (filter _ batch) as [| o os] eqn:Hf; [done |].
  assert (o ∈ filter (λ o, order_oid o = Some oid
                           ∧ ist_date fromisoformat (o_cancelled_at o) = Some d)
                     batch) as Hin by (rewrite Hf; constructor).
  apply list_elem_of_filter in Hin as [[_ Hdate] Hin].
  apply list_elem_of_bind. exists o. split; [| done].
  unfold snapshot_dates. apply elem_of_app. left.
  apply list_elem_of_omap. exists (o_cancelled_at o). split; [| done].
  rewrite !elem_of_cons. auto.
Qed.

Lemma fact_date batch agg oid ty d v :
  aggregate fromisoformat batch = Returned agg →
  agg !! (oid, ty, d) = Some v →
  d ∈ batch_dates fromisoformat batch.
Proof.
  intros Hagg Hv. destruct ty.
  - rewrite (aggregate_cancel fromisoformat _ _ oid d Hagg) in Hv.
    apply (cancel_observations_date batch oid d).
    by destruct (cancel_observations fromisoformat batch oid d).
  - rewrite (aggregate_refund fromisoformat _ _ oid d Hagg) in Hv.
    apply (batch_refund_total_date batch oid d).
    destruct (Z.ltb_spec 0 (batch_refund_total fromisoformat batch oid d));
      [lia | done].
Qed.

(** A key whose amount the upsert changes is a key of a derived fact. *)
Lemma upsert_changes batch store store' key :
  upsert_returns_fact_from_orders fromisoformat batch store = Returned store' →
  store' !! key ≠ store !! key →
  is_Some (store' !! key) ∧ key.2 ∈ batch_dates fromisoformat batch.
Proof.
  intros Hup Hne.
  destruct (upsert_lookup fromisoformat _ _ _ Hup) as (agg & Hagg & _ & Hlook).
  rewrite Hlook in Hne |- *.
  destruct (agg !! key) as [v |] eqn:Hv; [| done].
  split; [done |]. destruct key as [[oid ty] d].
  by eapply fact_date.
Qed.

Lemma upsert_keeps batch store store' key :
  upsert_returns_fact_from_orders fromisoformat batch store = Returned store' →
  is_Some (store !! key) → is_Some (store' !! key).
Proof.
  intros Hup Hsome.
  destruct (upsert_lookup fromisoformat _ _ _ Hup) as (agg & Hagg & _ & Hlook).
  rewrite Hlook. by destruct (agg !! key).
Qed.

End Dates.

(** Tracking only widens the range. *)
Lemma track_covers_old affected found affected' d :
  track_affected affected found = Returned affected' →
  covers affected d → covers affected' d.
Proof.
  unfold track_affected. intros Htrack (lo & hi & -> & Hlo & Hhi & Hd).
  destruct (PyStr.truthy found.1) eqn:Hm;
    [| injection Htrack as <-; by exists lo, hi].
  destruct found as [[m |] x]; cbn [fst snd] in *; [| done].
  destruct lo as [| c lo']; [done |]. destruct hi as [| c' hi']; [done |].
  unfold py_or in Htrack. cbn [PyStr.truthy fst snd min2] in Htrack.
  destruct x as [x |]; [| done].
  cbn in Htrack. injection Htrack as <-.
  apply between_iff in Hd as [Hd1 Hd2].
  eexists _, _. split; [done |].
  split. { destruct (str_min_cases (String c lo') m) as [-> | ->]; [done |].
           by destruct m. }
  split. { destruct (str_max_cases (String c' hi') x) as [-> | Heq]; [done |].
           intros Hempty. rewrite Heq in Hempty. subst x. discriminate Heq. }
  apply between_iff. split.
  - eapply string_leb_trans; [apply str_min_le_l | done].
  - eapply string_leb_trans; [done | apply str_max_ge_l].
Qed.

Lemma track_covers_new affected found affected' d :
  track_affected affected found = Returned affected' →
  covers found d → covers affected' d.
Proof.
  unfold track_affected. intros Htrack (lo & hi & -> & Hlo & Hhi & Hd).
  cbn [fst snd] in Htrack.
  destruct lo as [| c lo']; [done |]. cbn [PyStr.truthy] in Htrack.
  apply between_iff in Hd as [Hd1 Hd2].
  destruct (py_or affected.1 (Some (String c lo'))) as [a |] eqn:Ha; [| done].
  destruct (py_or affected.2 (Some hi)) as [b |] eqn:Hb; [| done].
  cbn in Htrack. injection Htrack as <-.
  assert (a ≠ "") as Hane.
  { unfold py_or in Ha. destruct (PyStr.truthy affected.1) eqn:Ht.
    - rewrite Ha in Ht. by destruct a.
    - by injection Ha as <-. }
  assert (b ≠ "") as Hbne.
  { unfold py_or in Hb. destruct (PyStr.truthy affected.2) eqn:Ht.
    - rewrite Hb in Ht. by destruct b.
    - by injection Hb as <-. }
  eexists _, _. split; [done |].
  split. { by destruct (str_min_cases a (String c lo')) as [-> | ->]. }
  split. { by destruct (str_max_cases b hi) as [-> | ->]. }
  apply between_iff. split.
  - eapply string_leb_trans; [apply str_min_le_r | done].
  - eapply string_leb_trans; [done | apply str_max_ge_r].
Qed.

Lemma range_of_unique dates r r' : range_of dates r → range_of dates r' → r = r'.
Proof.
  intros [[Hnil ->] | (lo & hi & -> & Hlo & Hhi & Hall)]
         [[Hnil' ->] | (lo' & hi' & -> & Hlo' & Hhi' & Hall')]; subst; try done.
  - by apply elem_of_nil in Hlo'.
  - by apply elem_of_nil in Hlo.
  - f_equal; f_equal; apply string_leb_antisym.
    + by apply Hall. + by apply Hall'. + by apply Hall'. + by apply Hall.
Qed.

(** Tracking a first range from nothing, and a second one after it. *)
Lemma track_first dates r :
  range_of dates r → Forall (fun d => d ≠ "") dates →
  track_affected (None, None) r = Returned r.
Proof.
  intros [[_ ->] | (lo & hi & -> & Hlo & Hhi & Hall)] Hne; [done |].
  rewrite Forall_forall in Hne. apply Hne in Hlo.
  destruct lo as [| c lo']; [done |].
  unfold track_affected, py_or. cbn. unfold str_min, str_max.
  by rewrite !string_leb_refl.
Qed.

Lemma track_second da ra db rb :
  range_of da ra → range_of db rb →
  Forall (fun d => d ≠ "") da → Forall (fun d => d ≠ "") db →
  ∃ r, track_affected ra rb = Returned r ∧ range_of (da ++ db) r.
Proof.
  intros [[-> ->] | (loA & hiA & -> & HloA & HhiA & HallA)] Hb HneA HneB.
  - exists rb. split; [by eapply track_first | done].
  - destruct Hb as [[-> ->] | (loB & hiB & -> & HloB & HhiB & HallB)].
    + eexists. split; [done |]. rewrite app_nil_r. right. by exists loA, hiA.
    + rewrite Forall_forall in HneA, HneB.
      pose proof (HneA _ HloA). pose proof (HneA _ HhiA). pose proof (HneB _ HloB).
      destruct loA as [| ca loA']; [done |]. destruct hiA as [| ca' hiA']; [done |].
      destruct loB as [| cb loB']; [done |].
      unfold track_affected, py_or. cbn [fst snd PyStr.truthy min2 max2 mbind outcome_bind].
      eexists. split; [done |]. right. eexists _, _. split; [done |].
      split. { apply elem_of_app.
               destruct (str_min_cases (String ca loA') (String cb loB')) as [-> | ->];
                 auto. }
      split. { apply elem_of_app.
               destruct (str_max_cases (String ca' hiA') hiB) as [-> | ->]; auto. }
      intros d [Hd | Hd]%elem_of_app.
      * destruct (HallA d Hd). split.
        -- eapply string_leb_trans; [apply str_min_le_l | done].
        -- eapply string_leb_trans; [done | apply str_max_ge_l].
      * destruct (HallB d Hd). split.
        -- eapply string_leb_trans; [apply str_min_le_r | done].
        -- eapply string_leb_trans; [done | apply str_max_ge_r].
Qed.

End BrandFacts.

(** The range [process_single_brand] accumulates over its two feeds is the
    range of all their snapshots taken together: tracking the range of one
    batch and then the range of a second one gives the range
    [get_affected_date_range] computes for the concatenation of the two, and
    (None, None) when neither has a date. *)
Theorem tracked_range_of_both_feeds (fromisoformat : string -> option Z)
    (A B : list order) :
  (affected ← Brand.track_affected (None, None)
                (get_affected_date_range fromisoformat A);
   Brand.track_affected affected (get_affected_date_range fromisoformat B))
  = Returned (get_affected_date_range fromisoformat (A ++ B)).
Proof.
  assert (∀ batch, Forall (fun d => d ≠ "") (batch_dates fromisoformat batch)) as Hne.
  { intros batch. apply Forall_forall. intros d Hd.
    by eapply BrandFacts.batch_dates_nonempty. }
  pose proof (BrandFacts.range_of_batch fromisoformat A) as HA.
  pose proof (BrandFacts.range_of_batch fromisoformat B) as HB.
  rewrite (BrandFacts.track_first _ _ HA (Hne A)). cbn [mbind outcome_bind].
  destruct (BrandFacts.track_second _ _ _ _ HA HB (Hne A) (Hne B)) as (r & -> & Hr).
  f_equal. eapply BrandFacts.range_of_unique; [exact Hr |].
  assert (batch_dates fromisoformat (A ++ B)
          = (batch_dates fromisoformat A ++ batch_dates fromisoformat B)%list) as <-.
  { unfold batch_dates. apply bind_app. }
  apply BrandFacts.range_of_batch.
Qed.

Module BrandRunFacts.
Import Window Brand Summary SummarySpec BrandFacts.

Section Run.

Variable fromisoformat : string -> option Z.
Variable transform_orders_to_df_optimized : list order -> list order_row.
Variable env : backfill_env.


(** What one feed that returns has done to the fact store and to the
    tracked range. *)
Lemma process_orders_facts f r s affected s' affected' :
  process_orders fromisoformat transform_orders_to_df_optimized env f r s affected
  = (s', Returned affected') →
  (∀ key, returns_fact s' !! key ≠ returns_fact s !! key →
          is_Some (returns_fact s' !! key) ∧ covers affected' key.2)
  ∧ (∀ key, is_Some (returns_fact s !! key) → is_Some (returns_fact s' !! key))
  ∧ (∀ d, covers affected d → covers affected' d).
Proof.
  unfold process_orders.
  destruct (feed_window _ _ _ _ _ _) as [[w |] | e];
    [| by intros [= <- <-] | done].
  destruct (fr_fetched r) as [| o fetched]; [by intros [= <- <-] |].
  destruct (dedup _ _) as [| o' filtered]; [by intros [= <- <-] |].
  destruct (track_affected _ _) as [tracked | e] eqn:Htrack; [| done].
  set (s1 := if fr_loads r then _ else s).
  assert (returns_fact s1 = returns_fact s) as Hfacts
    by (subst s1; destruct (fr_loads r), f; done).
  destruct (upsert_returns_fact_from_orders _ _ _) as [facts | e] eqn:Hup; [| done].
  intros [= <- <-]. cbn [with_returns_fact returns_fact]. rewrite Hfacts in Hup.
  split; [| split].
  - intros key Hne.
    destruct (upsert_changes fromisoformat _ _ _ key Hup Hne) as [Hsome Hdate].
    split; [done |].
    eapply track_covers_new; [exact Htrack |]. by apply range_covers.
  - intros key. by apply (upsert_keeps fromisoformat _ _ _ key Hup).
  - intros d. by apply (track_covers_old _ _ _ d Htrack).
Qed.

End Run.

Lemma covers_truthy affected d :
  covers affected d →
  ∃ lo hi, affected = (Some lo, Some hi) ∧ lo ≠ "" ∧ hi ≠ ""
           ∧ between lo hi d = true
           ∧ PyStr.truthy affected.1 && PyStr.truthy affected.2 = true.
Proof.
  intros (lo & hi & -> & Hlo & Hhi & Hd). exists lo, hi.
  repeat (split; [done |]). by destruct lo, hi.
Qed.

End BrandRunFacts.

(** A run for one brand that returns, and whose summary statements all go
    through, has recomputed the summaries of every fact it changed: when the
    amount of a REFUND fact of the date [d] after the run differs from the
    one before (or the fact is new), [sales_summary] has a row for [d] whose
    [overall_returns] is the sum of the REFUND facts of [d] in the fact store
    the run leaves. *)
Theorem changed_refunds_reach_summaries (fromisoformat : string -> option Z)
    (transform_orders_to_df_optimized : list order -> list order_row)
    (update_sessions_summary : Summary.db -> Summary.db)
    (env : Window.backfill_env) (new updated : Brand.feed_run)
    (orders_cursor completion_cursor : Window.cursor) (now : Z)
    (st st' : Brand.state) (oid : Z) (d : string) :
  Brand.process_single_brand fromisoformat transform_orders_to_df_optimized
    update_sessions_summary env true new updated orders_cursor completion_cursor
    now None st = (st', Returned tt) →
  Summary.returns_fact (Brand.st_db st') !! (oid, REFUND, d)
  ≠ Summary.returns_fact (update_sessions_summary (Brand.st_db st)) !! (oid, REFUND, d) →
  ∃ row,
    Summary.sales_summary (Brand.st_db st') !! d = Some row
    ∧ Summary.overall_returns row
      = SummarySpec.refund_total (Summary.returns_fact (Brand.st_db st')) d.
Proof.
  unfold Brand.process_single_brand. cbn [negb].
  set (s0 := update_sessions_summary (Brand.st_db st)).
  destruct orders_cursor; [| done].
  destruct (Brand.process_orders _ _ _ Window.NEW new s0 (None, None))
    as [s1 [a1 | e]] eqn:H1; [| done].
  destruct (Brand.process_orders _ _ _ Window.UPDATED updated s1 a1)
    as [s2 [a2 | e]] eqn:H2; [| done].
  destruct completion_cursor; [| done].
  destruct (BrandRunFacts.process_orders_facts _ _ _ _ _ _ _ _ _ H1)
    as (Hch1 & Hkeep1 & Hcov1).
  destruct (BrandRunFacts.process_orders_facts _ _ _ _ _ _ _ _ _ H2)
    as (Hch2 & Hkeep2 & Hcov2).
  assert (Summary.returns_fact s2 !! (oid, REFUND, d)
          ≠ Summary.returns_fact s0 !! (oid, REFUND, d) →
          is_Some (Summary.returns_fact s2 !! (oid, REFUND, d)) ∧ Brand.covers a2 d)
    as Hchanged.
  { intros Hne.
    destruct (decide (Summary.returns_fact s1 !! (oid, REFUND, d)
                      = Summary.returns_fact s0 !! (oid, REFUND, d))) as [Heq | Hne1].
    - rewrite <- Heq in Hne. by apply (Hch2 (oid, REFUND, d)).
    - destruct (Hch1 (oid, REFUND, d) Hne1) as [Hsome Hc1].
      split; [by apply Hkeep2 | by apply Hcov2]. }
  destruct (PyStr.truthy a2.1 && PyStr.truthy a2.2) eqn:Htruthy.
  - intros [= <-] Hne. cbn [Brand.st_db] in *.
    assert (Summary.returns_fact
              (Summary.execute_summary_queries_incremental None a2.1 a2.2 s2)
            = Summary.returns_fact s2) as Hfacts.
    { by destruct (RecomputeFacts.execute_sources None a2.1 a2.2 s2)
        as (_ & _ & Hf & _). }
    rewrite Hfacts in Hne |- *.
    destruct (Hchanged Hne) as [[amount Hsome] Hcov].
    destruct (BrandRunFacts.covers_truthy _ _ Hcov) as (lo & hi & -> & Hlo & Hhi & Hd & _).
    cbn [fst snd].
    change (Summary.execute_summary_queries_incremental None (Some lo) (Some hi) s2)
      with (Recompute.run lo hi s2).
    rewrite TableFacts.sales_row_of_run by done.
    rewrite decide_True by (by eapply SummaryFacts.refund_date_in_AllDates).
    eexists. split; [done |].
    cbn [Summary.sales_summary_select Summary.overall_returns].
    by apply SummaryFacts.refunds_by_date.
  - intros [= <-] Hne. cbn [Brand.st_db] in *.
    destruct (Hchanged Hne) as [_ Hcov].
    destruct (BrandRunFacts.covers_truthy _ _ Hcov) as (lo & hi & _ & _ & _ & _ & Ht).
    congruence.
Qed.


Lemma changed_refunds_reach_summaries_witness :
  ∃ row,
    Summary.sales_summary (Brand.st_db (backfill_run [refunded_snapshot 8]).1)
      !! "2024-02-10" = Some row
    ∧ Summary.overall_returns row
      = SummarySpec.refund_total
          (Summary.returns_fact (Brand.st_db (backfill_run [refunded_snapshot 8]).1))
          "2024-02-10".
Proof.
  apply (changed_refunds_reach_summaries IsoFormat.instant one_row_each id
           january_backfill (feed_of [refunded_snapshot 8]) (feed_of [])
           Window.Healthy Window.Healthy 1707000000 (Brand.mk_state empty_db None)
           (backfill_run [refunded_snapshot 8]).1 8 "2024-02-10").
  - assert ((backfill_run [refunded_snapshot 8]).2 = Returned tt) as Hret
      by (vm_compute; reflexivity).
    unfold backfill_run in *.
    destruct (Brand.process_single_brand _ _ _ _ _ _ _ _ _ _ _ _) as [st1 r].
    cbn [fst snd] in *. by subst.
  - vm_compute. discriminate.
Defined.

Module BackfillFacts.
Import Window Brand Summary.

Section Run.

Variable fromisoformat : string -> option Z.
Variable transform_orders_to_df_optimized : list order -> list order_row.
Variable env : backfill_env.

(** One feed under the backfill override: nothing is filtered. *)
Lemma process_orders_backfill f r s affected s' affected' :
  transform_orders_to_df_optimized [] = [] →
  BACKFILL_MODE env = true →
  fr_loads r = true →
  process_orders fromisoformat transform_orders_to_df_optimized env f r s affected
  = (s', Returned affected') →
  ∃ agg,
    aggregate fromisoformat (fr_fetched r) = Returned agg
    ∧ feed_table f s'
      = (feed_table f s ++ transform_orders_to_df_optimized (fr_fetched r))%list
    ∧ feed_table (other f) s' = feed_table (other f) s
    ∧ returns_fact s' = agg ∪ returns_fact s.
Proof.
  intros Hempty Hmode Hloads. unfold process_orders, feed_window.
  rewrite Hmode. unfold BACKFILL_MODE in Hmode.
  destruct (env_BACKFILL_MODE env); [| done].
  destruct (BACKFILL_START_IST env) as [start |]; [| done].
  destruct (BACKFILL_END_IST env) as [stop |]; [| done].
  cbn [existing_ids].
  destruct (fr_fetched r) as [| o fetched] eqn:Hfetched.
  { intros [= <- <-]. exists ∅. rewrite Hempty, app_nil_r.
    by rewrite (left_id_L ∅ (∪)). }
  unfold dedup. rewrite decide_True by done.
  destruct (track_affected _ _) as [tracked | e]; [| done].
  rewrite Hloads, upsert_returns_fact_from_orders_union.
  assert (returns_fact
            (with_feed_table f
               (load_data_to_sql_optimized
                  (transform_orders_to_df_optimized (o :: fetched)) (feed_table f s)) s)
          = returns_fact s) as -> by (by destruct f).
  destruct (aggregate fromisoformat (o :: fetched)) as [agg | e]; [| done].
  intros [= <- <-]. exists agg. by destruct f.
Qed.

End Run.

End BackfillFacts.

(** A backfill is not idempotent on the order tables: under the backfill
    override no fetched snapshot is filtered, so a run that returns appends
    the rows of every snapshot the two feeds fetched, and a second run that
    is given the same snapshots appends the same rows once more.  The fact
    store is the same after the second run as after the first. *)
Theorem backfill_rerun_appends_again (fromisoformat : string -> option Z)
    (transform_orders_to_df_optimized : list order -> list order_row)
    (update_sessions_summary : Summary.db -> Summary.db)
    (env : Window.backfill_env) (new updated : Brand.feed_run)
    (orders_cursor1 completion_cursor1 orders_cursor2 completion_cursor2 : Window.cursor)
    (now1 now2 : Z) (healthy_for1 healthy_for2 : option nat)
    (st st1 st2 : Brand.state) :
  transform_orders_to_df_optimized [] = [] →
  (∀ s, Summary.shopify_orders (update_sessions_summary s) = Summary.shopify_orders s
        ∧ Summary.shopify_orders_update (update_sessions_summary s)
          = Summary.shopify_orders_update s
        ∧ Summary.returns_fact (update_sessions_summary s) = Summary.returns_fact s) →
  Window.BACKFILL_MODE env = true →
  Brand.fr_loads new = true → Brand.fr_loads updated = true →
  Brand.process_single_brand fromisoformat transform_orders_to_df_optimized
    update_sessions_summary env true new updated orders_cursor1 completion_cursor1
    now1 healthy_for1 st = (st1, Returned tt) →
  Brand.process_single_brand fromisoformat transform_orders_to_df_optimized
    update_sessions_summary env true new updated orders_cursor2 completion_cursor2
    now2 healthy_for2 st1 = (st2, Returned tt) →
  Summary.shopify_orders (Brand.st_db st2)
  = (Summary.shopify_orders (Brand.st_db st)
     ++ transform_orders_to_df_optimized (Brand.fr_fetched new)
     ++ transform_orders_to_df_optimized (Brand.fr_fetched new))%list
  ∧ Summary.shopify_orders_update (Brand.st_db st2)
    = (Summary.shopify_orders_update (Brand.st_db st)
       ++ transform_orders_to_df_optimized (Brand.fr_fetched updated)
       ++ transform_orders_to_df_optimized (Brand.fr_fetched updated))%list
  ∧ Summary.returns_fact (Brand.st_db st2) = Summary.returns_fact (Brand.st_db st1).
Proof.
  intros Hempty Hsessions Hmode Hnew Hupdated.
  assert (∀ oc cc now hf a b,
            Brand.process_single_brand fromisoformat transform_orders_to_df_optimized
              update_sessions_summary env true new updated oc cc now hf a
            = (b, Returned tt) →
            ∃ aggN aggU,
              aggregate fromisoformat (Brand.fr_fetched new) = Returned aggN
              ∧ aggregate fromisoformat (Brand.fr_fetched updated) = Returned aggU
              ∧ Summary.shopify_orders (Brand.st_db b)
                = (Summary.shopify_orders (Brand.st_db a)
                   ++ transform_orders_to_df_optimized (Brand.fr_fetched new))%list
              ∧ Summary.shopify_orders_update (Brand.st_db b)
                = (Summary.shopify_orders_update (Brand.st_db a)
                   ++ transform_orders_to_df_optimized (Brand.fr_fetched updated))%list
              ∧ Summary.returns_fact (Brand.st_db b)
                = aggU ∪ (aggN ∪ Summary.returns_fact (Brand.st_db a))) as Hrun.
  { intros oc cc now hf a b. unfold Brand.process_single_brand. cbn [negb].
    destruct (Hsessions (Brand.st_db a)) as (Ho & Hu & Hf).
    set (s0 := update_sessions_summary (Brand.st_db a)) in *.
    destruct oc; [| done].
    destruct (Brand.process_orders _ _ _ Window.NEW new s0 (None, None))
      as [s1 [a1 | e]] eqn:H1; [| done].
    destruct (Brand.process_orders _ _ _ Window.UPDATED updated s1 a1)
      as [s2 [a2 | e]] eqn:H2; [| done].
    destruct cc; [| done].
    destruct (BackfillFacts.process_orders_backfill _ _ _ _ _ _ _ _ _
                Hempty Hmode Hnew H1) as (aggN & HN & Ht1 & Ho1 & Hf1).
    destruct (BackfillFacts.process_orders_backfill _ _ _ _ _ _ _ _ _
                Hempty Hmode Hupdated H2) as (aggU & HU & Ht2 & Ho2 & Hf2).
    cbn [Brand.feed_table Brand.other] in *.
    assert (∀ s, b = Brand.mk_state s (Some (Window.now_ist now)) →
                 Summary.shopify_orders s = Summary.shopify_orders s2 →
                 Summary.shopify_orders_update s = Summary.shopify_orders_update s2 →
                 Summary.returns_fact s = Summary.returns_fact s2 →
                 ∃ aggN aggU,
                   aggregate fromisoformat (Brand.fr_fetched new) = Returned aggN
                   ∧ aggregate fromisoformat (Brand.fr_fetched updated) = Returned aggU
                   ∧ Summary.shopify_orders (Brand.st_db b)
                     = (Summary.shopify_orders (Brand.st_db a)
                        ++ transform_orders_to_df_optimized (Brand.fr_fetched new))%list
                   ∧ Summary.shopify_orders_update (Brand.st_db b)
                     = (Summary.shopify_orders_update (Brand.st_db a)
                        ++ transform_orders_to_df_optimized (Brand.fr_fetched updated))%list
                   ∧ Summary.returns_fact (Brand.st_db b)
                     = aggU ∪ (aggN ∪ Summary.returns_fact (Brand.st_db a))) as Hend.
    { intros s -> Hso Hsu Hsf. exists aggN, aggU. cbn [Brand.st_db].
      rewrite Hso, Hsu, Hsf, Ho2, Ht1, Ho, Ht2, Ho1, Hu, Hf2, Hf1, Hf. done. }
    destruct (PyStr.truthy a2.1 && PyStr.truthy a2.2); intros [= <-].
    - destruct (RecomputeFacts.execute_sources hf a2.1 a2.2 s2)
        as (Hso & Hsu & Hsf & _).
      by apply (Hend _ eq_refl).
    - by apply (Hend _ eq_refl). }
  intros Hfirst Hsecond.
  destruct (Hrun _ _ _ _ _ _ Hfirst) as (aggN & aggU & HN & HU & Ho1 & Hu1 & Hf1).
  destruct (Hrun _ _ _ _ _ _ Hsecond) as (aggN' & aggU' & HN' & HU' & Ho2 & Hu2 & Hf2).
  rewrite HN in HN'. rewrite HU in HU'. injection HN' as <-. injection HU' as <-.
  rewrite Ho2, Ho1, Hu2, Hu1, <- !(assoc_L (++)). split; [done |]. split; [done |].
  rewrite Hf2, Hf1. apply map_eq. intros key. rewrite !lookup_union.
  by destruct (aggU !! key), (aggN !! key), (Summary.returns_fact (Brand.st_db st) !! key).
Qed.

Lemma backfill_rerun_appends_again_witness :
  Summary.shopify_orders (Brand.st_db (backfill_rerun [refunded_snapshot 8]).1)
  = (one_row_each [refunded_snapshot 8] ++ one_row_each [refunded_snapshot 8])%list.
Proof.
  assert ((backfill_run [refunded_snapshot 8]).2 = Returned tt) as Hfirst
    by (vm_compute; reflexivity).
  assert ((backfill_rerun [refunded_snapshot 8]).2 = Returned tt) as Hsecond
    by (vm_compute; reflexivity).
  refine (proj1 (backfill_rerun_appends_again IsoFormat.instant one_row_each id
                   january_backfill (feed_of [refunded_snapshot 8]) (feed_of [])
                   Window.Healthy Window.Healthy Window.Healthy Window.Healthy
                   1707000000 1707000600 None None (Brand.mk_state empty_db None)
                   (backfill_run [refunded_snapshot 8]).1
                   (backfill_rerun [refunded_snapshot 8]).1 _ _ _ _ _ _ _)).
  - reflexivity.
  - intros s. repeat split.
  - reflexivity.
  - reflexivity.
  - reflexivity.
  - revert Hfirst. unfold backfill_run.
    generalize (Brand.process_single_brand IsoFormat.instant one_row_each id
                  january_backfill true (feed_of [refunded_snapshot 8]) (feed_of [])
                  Window.Healthy Window.Healthy 1707000000 None
                  (Brand.mk_state empty_db None)).
    intros [st1 r]. cbn [fst snd]. by intros ->.
  - revert Hsecond. unfold backfill_rerun.
    generalize (Brand.process_single_brand IsoFormat.instant one_row_each id
                  january_backfill true (feed_of [refunded_snapshot 8]) (feed_of [])
                  Window.Healthy Window.Healthy 1707000600 None
                  (backfill_run [refunded_snapshot 8]).1).
    intros [st2 r]. cbn [fst snd]. by intros ->.
Defined.

(** ** Timestamp texts *)

Module TimestampFacts.
Import Timestamps.

Lemma split_cons (sep c : ascii) (rest : string) :
  PyStr.split sep (String c rest)
  = if Ascii.eqb c sep then EmptyString :: PyStr.split sep rest
    else match PyStr.split sep rest with
         | [] => [String c EmptyString]
         | hd :: tl => String c hd :: tl
         end.
Proof. reflexivity. Qed.

Lemma split_length (sep : ascii) (s : string) :
  length (PyStr.split sep s) = S (count sep s).
Proof.
  induction s as [| c rest IH]; [done |].
  rewrite split_cons. cbn [count].
  destruct (Ascii.eqb c sep); cbn [length]; [by rewrite IH |].
  destruct (PyStr.split sep rest) as [| hd tl]; [done |].
  cbn [length] in *. lia.
Qed.

Lemma split_none (sep : ascii) (s : string) :
  count sep s = 0%nat → PyStr.split sep s = [s].
Proof.
  induction s as [| c rest IH]; [done |].
  rewrite split_cons. cbn [count].
  destruct (Ascii.eqb c sep); [done |]. intros Hrest. by rewrite IH.
Qed.

Lemma append_nil (b : string) : "" +:+ b = b.
Proof. reflexivity. Qed.

Lemma append_cons (c : ascii) (a b : string) : String c a +:+ b = String c (a +:+ b).
Proof. reflexivity. Qed.

Lemma split_at (sep : ascii) (a b : string) :
  count sep a = 0%nat →
  PyStr.split sep (a +:+ String sep b) = a :: PyStr.split sep b.
Proof.
  induction a as [| c rest IH]; rewrite ?append_nil, ?append_cons.
  - intros _. by rewrite split_cons, Ascii.eqb_refl.
  - rewrite split_cons. cbn [count].
    destruct (Ascii.eqb c sep); [done |]. intros Hrest. by rewrite IH.
Qed.

Lemma count_app (c : ascii) (a b : string) :
  count c (a +:+ b) = (count c a + count c b)%nat.
Proof.
  induction a as [| c' rest IH]; [done |].
  rewrite append_cons. cbn [count]. rewrite IH. lia.
Qed.

End TimestampFacts.

(** [extract_date_time] gives back the two halves of a timestamp: for a date
    text and a time text without [T], the time text without [+], the
    timestamp [date T time + offset] splits into (date, time), and so does
    [date T time] without an offset.  A time text that ends in [Z] or
    carries a negative offset keeps it. *)
Theorem extract_date_time_splits (date time offset : string) :
  Timestamps.count "T" date = 0%nat →
  Timestamps.count "T" time = 0%nat →
  Timestamps.count "+" time = 0%nat →
  Timestamps.count "T" offset = 0%nat →
  Timestamps.extract_date_time (Some (date +:+ "T" +:+ time +:+ "+" +:+ offset))
  = Returned (Some date, Some time)
  ∧ Timestamps.extract_date_time (Some (date +:+ "T" +:+ time))
    = Returned (Some date, Some time).
Proof.
  intros Hd Ht Hp Ho.
  assert (∀ rest, PyStr.truthy (Some (date +:+ "T" +:+ rest)) = true) as Htruthy
    by (intros rest; by destruct date).
  unfold Timestamps.extract_date_time. rewrite !Htruthy.
  cbn [negb default from_option id].
  change (date +:+ "T" +:+ time +:+ "+" +:+ offset)
    with (date +:+ String "T" (time +:+ "+" +:+ offset)).
  change (date +:+ "T" +:+ time) with (date +:+ String "T" time).
  rewrite !TimestampFacts.split_at by done.
  rewrite (TimestampFacts.split_none "T" time) by done.
  rewrite (TimestampFacts.split_none "T" (time +:+ "+" +:+ offset)).
  2: { rewrite TimestampFacts.count_app, Ht. cbn. done. }
  change (time +:+ "+" +:+ offset) with (time +:+ String "+" offset).
  rewrite TimestampFacts.split_at by done.
  by rewrite (TimestampFacts.split_none "+" time).
Qed.

Lemma extract_date_time_splits_witness :
  Timestamps.extract_date_time (Some "2024-01-05T10:00:00+05:30")
  = Returned (Some "2024-01-05", Some "10:00:00")
  ∧ Timestamps.extract_date_time (Some "2024-01-05T10:00:00Z")
    = Returned (Some "2024-01-05", Some "10:00:00Z").
Proof.
  split.
  - apply (extract_date_time_splits "2024-01-05" "10:00:00" "05:30"); reflexivity.
  - apply (extract_date_time_splits "2024-01-05" "10:00:00Z" ""); reflexivity.
Defined.

(** [extract_date_time] returns exactly on [None], on the empty text and on
    a text with exactly one [T]; on any other text the unpacking of the
    split raises [ValueError]. *)
Theorem extract_date_time_one_T (s : string) :
  (∃ r, Timestamps.extract_date_time (Some s) = Returned r)
  ↔ s = "" ∨ Timestamps.count "T" s = 1%nat.
Proof.
  unfold Timestamps.extract_date_time.
  destruct s as [| c s]; [split; [auto | by eexists] |].
  cbn [PyStr.truthy negb default from_option id].
  pose proof (TimestampFacts.split_length "T" (String c s)) as Hlen.
  destruct (PyStr.split "T" (String c s)) as [| a [| b [| x l]]]; cbn [length] in Hlen.
  - lia.
  - split; [by intros [? ?] | intros [? | ?]; [done | lia]].
  - split; [intros _; right; lia | by eexists].
  - split; [by intros [? ?] | intros [? | ?]; [done | lia]].
Qed.

(** The timestamp sent to the sessions API never carries the offset of the
    datetime it formats: it is the wall-clock reading in the shape
    [YYYY-MM-DDTHH:MM:SS] followed by the fixed suffix, 27 characters in
    all, and it is the text [convert_to_desired_format] gives the naive
    datetime with the same reading. *)
Theorem session_timestamp_drops_offset (dt_obj : Window.datetime) :
  Timestamps.convert_to_desired_format_session dt_obj
  = Window.strftime_iso (Window.naive (Window.dt_wall dt_obj)) +:+ "%2B05:30"
  ∧ Timestamps.convert_to_desired_format_session dt_obj
    = Window.convert_to_desired_format (Window.naive (Window.dt_wall dt_obj))
  ∧ String.length (Timestamps.convert_to_desired_format_session dt_obj) = 27%nat.
Proof.
  assert (Timestamps.convert_to_desired_format_session dt_obj
          = Window.strftime_iso (Window.naive (Window.dt_wall dt_obj)) +:+ "%2B05:30")
    as Heq.
  { unfold Timestamps.convert_to_desired_format_session, Window.strftime_iso,
      PyStr.take, Window.naive.
    destruct dt_obj as [wall [off |]];
      cbn [Window.dt_wall Window.dt_utcoffset Window.strftime_z];
      destruct (Calendar.civil_from_days (wall / 86400)) as [[y m] d];
      [destruct (off <? 0) |]; reflexivity. }
  split; [exact Heq |]. split.
  - rewrite Heq. symmetry. apply WindowFacts.start_date_naive.
  - rewrite Heq. unfold Window.strftime_iso, Window.naive.
    cbn [Window.dt_wall Window.dt_utcoffset Window.strftime_z].
    destruct (Calendar.civil_from_days (Window.dt_wall dt_obj / 86400)) as [[y m] d].
    reflexivity.
Qed.
(** ** The flattening of snapshots into rows *)

Module FlattenFacts.
Import Flatten.

(** Takes a bind that returned apart. *)
Ltac bind_inv H :=
  repeat match type of H with
         | mbind _ ?m = Ok _ =>
             let E := fresh "E" in
             destruct m eqn:E; cbn [mbind result_bind] in H; [| discriminate H]
         end.

Lemma for_all_Forall2 {A B : Type} (f : A -> result B) (xs : list A) (ys : list B) :
  for_all f xs = Ok ys → Forall2 (fun x y => f x = Ok y) xs ys.
Proof.
  revert ys. induction xs as [| x xs IH]; intros ys H; cbn [for_all] in H.
  - injection H as <-. constructor.
  - bind_inv H. injection H as <-. constructor; [done | by apply IH].
Qed.

Lemma fold_lookup {A : Type} (body : row * Z -> A -> result (row * Z))
    (P : string -> Prop) (xs : list A) (acc acc' : row * Z) :
  (∀ a x a', body a x = Ok a' → ∀ col, P col → a'.1 !! col = a.1 !! col) →
  fold body xs acc = Ok acc' →
  ∀ col, P col → acc'.1 !! col = acc.1 !! col.
Proof.
  intros Hbody. revert acc. induction xs as [| x xs IH]; intros acc H col Hcol;
    cbn [fold] in H.
  - by injection H as <-.
  - bind_inv H. rewrite (IH _ H col Hcol). by eapply Hbody.
Qed.

Lemma prefix_append (p x : string) : String.prefix p (p +:+ x) = true.
Proof.
  induction p as [| c p IH]; [by destruct x |].
  change (String c p +:+ x) with (String c (p +:+ x)). cbn [String.prefix].
  by destruct (ascii_dec c c).
Qed.

Lemma prefix_item_name (n : Z) : String.prefix "_ITEM" (item_name n) = true.
Proof. apply prefix_append. Qed.

Lemma prefix_item_value (n : Z) : String.prefix "_ITEM" (item_value n) = true.
Proof. apply prefix_append. Qed.

Lemma fmap_concat {A B : Type} (f : A -> B) (l : list (list A)) :
  f <$> concat l = concat (fmap (M := list) f <$> l).
Proof.
  induction l as [| x l IH]; [done |]. cbn [concat fmap list_fmap].
  by rewrite fmap_app, IH.
Qed.

Lemma length_concat {A : Type} (l : list (list A)) :
  length (concat l) = sum_list (length <$> l).
Proof.
  induction l as [| x l IH]; [done |]. cbn [concat]. rewrite length_app, IH. done.
Qed.

Section Builtins.

Variable float_of_str : string -> option Z.
Variable int_of_str : string -> option Z.
Variable repr : value -> string.
Variable strip : string -> string.
Variable fromisoformat : string -> option Window.datetime.

Local Abbreviation line_item_row := (line_item_row float_of_str int_of_str repr strip).
Local Abbreviation line_item_rows := (line_item_rows float_of_str int_of_str repr strip).
Local Abbreviation base_of := (base_of float_of_str repr fromisoformat).
Local Abbreviation order_rows :=
  (order_rows float_of_str int_of_str repr strip fromisoformat).
Local Abbreviation transform :=
  (transform_orders_to_df_optimized float_of_str int_of_str repr strip fromisoformat).

Lemma property_step_lookup (a : row * Z) (prop : value) (a' : row * Z) :
  property_step strip a prop = Ok a' →
  ∀ col, String.prefix "_ITEM" col = false → a'.1 !! col = a.1 !! col.
Proof.
  destruct a as [r idx]. unfold property_step. intros H col Hcol.
  destruct (truthy prop); [| by injection H as <-].
  bind_inv H. destruct a as [| | | | name | |]; try discriminate H.
  destruct (String.prefix "_ITEM" name); [| by injection H as <-].
  bind_inv H. destruct (or_else a (Str "")) as [| | | | v | |]; try discriminate H.
  injection H as <-. cbn [fst].
  rewrite !lookup_insert_ne; [done | |].
  - intros <-. by rewrite prefix_item_name in Hcol.
  - intros <-. by rewrite prefix_item_value in Hcol.
Qed.

(** A row for a line item after the first holds nothing in a plain
    column. *)
Lemma line_item_row_plain order customer created_date created_time base i it r col :
  line_item_row order customer created_date created_time base (S i) it = Ok r →
  plain_column col → default PyNone (r !! col) = PyNone.
Proof.
  unfold Flatten.line_item_row. intros H (Hcarried & Hline & Hprefix).
  bind_inv H. injection H as <-.
  rewrite (fold_lookup (property_step strip)
             (fun col => String.prefix "_ITEM" col = false) _ _ _
             (property_step_lookup) E2 col Hprefix).
  cbn [fst]. unfold line_item_update in E0. bind_inv E0. injection E0 as <-.
  unfold update. rewrite !lookup_union.
  rewrite (not_elem_of_list_to_map_1 _ col) by exact Hline.
  rewrite (not_elem_of_list_to_map_1 _ col) by exact Hcarried.
  rewrite lookup_fmap.
  assert (item_defaults !! col = None) as ->.
  { apply not_elem_of_list_to_map_1. intros Hin.
    apply list_elem_of_fmap in Hin as ([k v] & -> & Hin).
    apply list_elem_of_In, in_flat_map in Hin as (n & _ & Hn).
    destruct Hn as [[= <- _] | [[= <- _] | []]]; cbn [fst] in Hprefix.
    - by rewrite prefix_item_name in Hprefix.
    - by rewrite prefix_item_value in Hprefix. }
  by destruct (base !! col).
Qed.

(** The rows of the line items from the index [i] on: one for each item
    that is not [None], and all but a row for the index 0 without
    anything in a plain_column column. *)
Lemma line_item_rows_spec order customer created_date created_time base i items rows :
  line_item_rows order customer created_date created_time base i items = Ok rows →
  length rows = length (List.filter (fun it => negb (is_none it)) items)
  ∧ Forall (fun it => is_none it = true ∨ ∃ fields, it = Dict fields) items
  ∧ ∀ j r col,
      rows !! j = Some r →
      (0 < i + j)%nat ∨ (∃ rest, items = PyNone :: rest) →
      plain_column col → default PyNone (r !! col) = PyNone.
Proof.
  revert i rows. induction items as [| it items IH]; intros i rows H;
    cbn [Flatten.line_item_rows] in H.
  - injection H as <-. split; [done |]. split; [constructor |]. by intros j r col.
  - destruct (is_none it) eqn:Hnone.
    + destruct (IH _ _ H) as (Hlen & Hitems & Hplain).
      cbn [List.filter]. rewrite Hnone. cbn [negb].
      split; [done |]. split; [constructor; [by left | done] |].
      intros j r col Hj _ Hcol. apply (Hplain j r col Hj); [left; lia | done].
    + bind_inv H. injection H as <-.
      destruct (IH _ _ E0) as (Hlen & Hitems & Hplain).
      cbn [List.filter]. rewrite Hnone. cbn [negb length].
      split; [by rewrite Hlen |]. split.
      { constructor; [| done]. right.
        unfold Flatten.line_item_row in E. bind_inv E.
        destruct it; try discriminate E1. by eexists. }
      intros [| j] r col Hj Hpos Hcol; cbn in Hj.
      * injection Hj as <-. destruct Hpos as [Hpos | [rest [= -> _]]]; [| done].
        destruct i as [| i]; [lia |].
        by eapply line_item_row_plain.
      * apply (Hplain j r col Hj); [left; lia | done].
Qed.

(** The rows of one snapshot. *)
Lemma order_rows_spec app_mapping order rows :
  order_rows app_mapping order = Ok rows →
  length rows = rows_of order
  ∧ ∀ j r col,
      rows !! j = Some r →
      (0 < j)%nat ∨ (∃ rest, line_items_of order = PyNone :: rest) →
      plain_column col → default PyNone (r !! col) = PyNone.
Proof.
  unfold Flatten.order_rows. intros H. bind_inv H.
  destruct order as [| | | | | | fields]; try discriminate E.
  change (Ok fields = Ok a) in E. injection E as <-.
  destruct a0 as [[[base customer] created_date] created_time].
  unfold rows_of, line_items_of, item in *.
  assert (∀ base, Ok [base] = Ok rows →
            length rows = 1%nat
            ∧ ∀ j r col,
                rows !! j = Some r →
                (0 < j)%nat ∨ (∃ rest : list value, [] = PyNone :: rest) →
                plain_column col → default PyNone (r !! col) = PyNone) as Hone.
  { intros b [= <-]. split; [done |].
    intros [| j] r col Hj [Hpos | [rest Hrest]]; try done. lia. }
  destruct (Flatten.lookup "line_items" fields) as [v |];
    [| cbn in H |- *; exact (Hone _ H)].
  destruct v as [| b | n | n | s | items | items];
    try (cbn in H |- *; exact (Hone _ H)).
  - destruct b; [done | cbn in H |- *; exact (Hone _ H)].
  - cbn [default from_option id truthy] in H.
    destruct (n =? 0); [cbn in H |- *; exact (Hone _ H) | done].
  - cbn [default from_option id truthy] in H.
    destruct (n =? 0); [cbn in H |- *; exact (Hone _ H) | done].
  - (* a string: its characters are no dicts *)
    destruct s as [| c s]; [cbn in H |- *; exact (Hone _ H) |].
    cbn in H. discriminate H.
  - destruct items as [| it items]; [cbn in H |- *; exact (Hone _ H) |].
    cbn [default from_option id truthy negb iterate mbind result_bind] in H.
    destruct (line_item_rows_spec _ _ _ _ _ _ _ _ H) as (Hlen & _ & Hplain).
    split; [done |]. intros j r col Hj Hpos Hcol.
    apply (Hplain j r col Hj); [| done].
    destruct Hpos as [? | ?]; [left; lia | by right].
  - (* a dict: its keys are no dicts *)
    destruct items as [| [k v] items]; [cbn in H |- *; exact (Hone _ H) |].
    cbn in H. discriminate H.
Qed.

(** What the frame keeps of a row. *)
Lemma frame_cell (cols : gset string) (r : row) (col : string) :
  default PyNone (r !! col) = PyNone →
  cell (replaced <$> (r ∪ gset_to_gmap PyNone cols)) col = PyNone.
Proof.
  unfold cell. rewrite lookup_fmap, lookup_union, lookup_gset_to_gmap.
  destruct (r !! col) as [v |]; cbn.
  - intros ->. by case_guard.
  - intros _. by case_guard.
Qed.

Lemma replaced_text (v : value) : replaced v ≠ Str "" ∧ replaced v ≠ Str "N/A".
Proof.
  destruct v as [| | | | s | |]; try done. cbn.
  destruct (String.eqb_spec s ""); [done |].
  destruct (String.eqb_spec s "N/A"); [done |]. cbn. split; congruence.
Qed.

Lemma elem_of_columns (order_data : list row) (r : row) :
  r ∈ order_data → dom r ⊆ columns order_data.
Proof.
  intros Hr col Hcol. unfold columns. apply elem_of_union_list.
  exists (dom r). split; [| done]. apply list_elem_of_fmap. by exists r.
Qed.

(** The frame of a batch, snapshot by snapshot. *)
Lemma transform_groups orders_list app_mapping df :
  transform orders_list app_mapping = Ok df →
  ∃ rows cols,
    Forall2 (fun o rs => order_rows app_mapping o = Ok rs) orders_list rows
    ∧ (∀ r, r ∈ concat rows → dom r ⊆ cols)
    ∧ df = concat (fmap (M := list)
                     (fun r : row => replaced <$> (r ∪ gset_to_gmap PyNone cols))
                     <$> rows).
Proof.
  unfold Flatten.transform_orders_to_df_optimized.
  destruct orders_list as [| o orders_list].
  - intros [= <-]. exists [], ∅. split; [constructor |]. split; [| done].
    intros r Hr. by apply elem_of_nil in Hr.
  - intros H. bind_inv H. injection H as <-.
    exists a, (columns (concat a)). split; [by apply for_all_Forall2 |].
    split; [apply elem_of_columns |].
    unfold DataFrame. apply fmap_concat.
Qed.

End Builtins.

End FlattenFacts.

(** The frame the flattening returns has one row for a snapshot without line
    items and one row for every line item that is not null of a snapshot
    with line items; its rows all have the same columns, and no cell holds
    the empty text or the text N/A. *)
Theorem one_row_per_line_item (float_of_str int_of_str : string -> option Z)
    (repr : Flatten.value -> string) (strip : string -> string)
    (fromisoformat : string -> option Window.datetime)
    (orders_list : list Flatten.value) (app_mapping : Flatten.value)
    (df : list (gmap string Flatten.value)) :
  Flatten.transform_orders_to_df_optimized float_of_str int_of_str repr strip
    fromisoformat orders_list app_mapping = Flatten.Ok df →
  length df = sum_list (Flatten.rows_of <$> orders_list)
  ∧ (∀ r r', r ∈ df → r' ∈ df → dom r = dom r')
  ∧ (∀ r col, r ∈ df →
              Flatten.cell r col ≠ Flatten.Str ""
              ∧ Flatten.cell r col ≠ Flatten.Str "N/A").
Proof.
  intros H.
  destruct (FlattenFacts.transform_groups _ _ _ _ _ _ _ _ H)
    as (rows & cols & Hrows & Hcols & ->).
  split; [| split].
  - rewrite FlattenFacts.length_concat. clear Hcols H.
    induction Hrows as [| o rs orders_list rows Ho _ IH]; [done |].
    cbn [fmap list_fmap sum_list sum_list_with]. rewrite length_fmap.
    destruct (FlattenFacts.order_rows_spec _ _ _ _ _ _ _ _ Ho) as [-> _].
    f_equal. exact IH.
  - assert (∀ r, r ∈ concat
                     (fmap (M := list)
                        (fun r : gmap string Flatten.value =>
                           Flatten.replaced <$> (r ∪ gset_to_gmap Flatten.PyNone cols))
                        <$> rows) →
                 dom r = cols) as Hdom.
    { intros r Hr. rewrite <- FlattenFacts.fmap_concat in Hr.
      apply list_elem_of_fmap in Hr as (r0 & -> & Hr0).
      rewrite dom_fmap_L, dom_union_L, dom_gset_to_gmap.
      by apply subseteq_union_1_L, Hcols. }
    intros r r' Hr Hr'. by rewrite (Hdom r Hr), (Hdom r' Hr').
  - intros r col Hr. rewrite <- FlattenFacts.fmap_concat in Hr.
    apply list_elem_of_fmap in Hr as (r0 & -> & Hr0).
    unfold Flatten.cell. rewrite lookup_fmap.
    destruct ((r0 ∪ gset_to_gmap Flatten.PyNone cols) !! col) as [v |]; [| done].
    apply FlattenFacts.replaced_text.
Qed.

(** The values of an order are written once: among the rows of a snapshot
    only the row of its first line item can hold anything in a column other
    than the eight columns carried over to every row, the eight columns of
    the line item and the [_ITEM] columns.  When the first line item is
    null no row of the snapshot holds the order identifier or its total
    price. *)
Theorem order_values_on_first_row_only (float_of_str int_of_str : string -> option Z)
    (repr : Flatten.value -> string) (strip : string -> string)
    (fromisoformat : string -> option Window.datetime)
    (orders_list : list Flatten.value) (app_mapping : Flatten.value)
    (df : list (gmap string Flatten.value)) :
  Flatten.transform_orders_to_df_optimized float_of_str int_of_str repr strip
    fromisoformat orders_list app_mapping = Flatten.Ok df →
  ∃ groups,
    df = concat groups
    ∧ Forall2
        (fun order rows =>
           length rows = Flatten.rows_of order
           ∧ ∀ j r col,
               rows !! j = Some r →
               (0 < j)%nat
               ∨ (∃ rest, Flatten.line_items_of order = Flatten.PyNone :: rest) →
               Flatten.plain_column col →
               Flatten.cell r col = Flatten.PyNone)
        orders_list groups.
Proof.
  intros H.
  destruct (FlattenFacts.transform_groups _ _ _ _ _ _ _ _ H)
    as (rows & cols & Hrows & _ & ->).
  eexists. split; [done |]. clear H.
  induction Hrows as [| o rs orders_list rows Ho _ IH]; [constructor |].
  cbn [fmap list_fmap]. constructor; [| exact IH].
  destruct (FlattenFacts.order_rows_spec _ _ _ _ _ _ _ _ Ho) as [Hlen Hplain].
  split; [by rewrite length_fmap |].
  intros j r col Hj Hpos Hcol. rewrite list_lookup_fmap in Hj.
  destruct (rs !! j) as [r0 |] eqn:Hr0; [| done]. injection Hj as <-.
  apply FlattenFacts.frame_cell. by apply (Hplain j r0 col).
Qed.
Lemma one_row_per_line_item_witness :
  ∃ df, flatten [snapshot_with "2024-02-10T09:30:00+05:30" [shirt; Flatten.PyNone; socks]]
        = Flatten.Ok df
        ∧ length df = 2%nat.
Proof.
  assert (match flatten [snapshot_with "2024-02-10T09:30:00+05:30"
                           [shirt; Flatten.PyNone; socks]] with
          | Flatten.Ok _ => true
          | Flatten.Raise _ => false
          end = true) as Hok by (vm_compute; reflexivity).
  destruct (flatten _) as [df | e] eqn:H; [| discriminate Hok].
  exists df. split; [done |].
  exact (proj1 (one_row_per_line_item _ _ _ _ _ _ _ _ H)).
Defined.

Lemma order_values_on_first_row_only_witness :
  ∃ r, flatten [snapshot_with "2024-02-10T09:30:00+05:30" [Flatten.PyNone; socks]]
       = Flatten.Ok [r]
       ∧ Flatten.cell r "order_id" = Flatten.PyNone
       ∧ Flatten.cell r "total_price" = Flatten.PyNone.
Proof.
  assert (match flatten [snapshot_with "2024-02-10T09:30:00+05:30"
                           [Flatten.PyNone; socks]] with
          | Flatten.Ok _ => true
          | Flatten.Raise _ => false
          end = true) as Hok by (vm_compute; reflexivity).
  destruct (flatten _) as [df | e] eqn:H; [| discriminate Hok].
  destruct (order_values_on_first_row_only _ _ _ _ _ _ _ _ H)
    as (groups & -> & Hgroups).
  inversion Hgroups as [| o rows os groups' [Hlen Hplain] Hrest]; subst.
  inversion Hrest; subst. cbn [concat]. rewrite app_nil_r.
  destruct rows as [| r [| r' rows]]; try discriminate Hlen.
  exists r. split; [done |].
  split; apply (Hplain 0%nat r); try done; try (right; by eexists);
    (split; [| split]; [| | done];
     unfold Flatten.carried_columns, Flatten.line_item_columns; intros Hin;
     repeat (apply elem_of_cons in Hin as [Hin | Hin]; [discriminate Hin |]);
     by apply elem_of_nil in Hin).
Defined.

Module FlattenErrors.
Import Flatten FlattenFacts.

Section Builtins.

Variable float_of_str : string -> option Z.
Variable int_of_str : string -> option Z.
Variable repr : value -> string.
Variable strip : string -> string.
Variable fromisoformat : string -> option Window.datetime.

(** A snapshot that is flattened has creation and update times that
    [extract_date_time] accepts. *)
Lemma order_rows_times app_mapping fields rows :
  order_rows float_of_str int_of_str repr strip fromisoformat app_mapping
    (Dict fields) = Ok rows →
  ∃ created updated,
    extract_date_time (item fields "created_at" (Str "")) = Ok created
    ∧ extract_date_time (item fields "updated_at" (Str "")) = Ok updated.
Proof.
  unfold order_rows. cbn [dict_items mbind result_bind]. intros H.
  destruct (base_of _ _ _ _ _) as [base |] eqn:Hbase; [| discriminate H].
  clear H. unfold base_of in Hbase. cbv zeta in Hbase. bind_inv Hbase.
  by eexists _, _.
Qed.

Lemma for_all_member {A B : Type} (f : A -> result B) (xs : list A) (ys : list B)
    (x : A) :
  for_all f xs = Ok ys → x ∈ xs → ∃ y, f x = Ok y.
Proof.
  intros H Hx. apply for_all_Forall2 in H.
  induction H as [| x' y xs ys Hxy _ IH]; [by apply elem_of_nil in Hx |].
  apply elem_of_cons in Hx as [-> | Hx]; [by eexists | by apply IH].
Qed.

End Builtins.

End FlattenErrors.

(** One snapshot whose creation or update time is a non-empty text without
    exactly one [T] makes the flattening of the whole batch raise: no row
    of any snapshot of the batch is returned. *)
Theorem malformed_time_aborts_batch (float_of_str int_of_str : string -> option Z)
    (repr : Flatten.value -> string) (strip : string -> string)
    (fromisoformat : string -> option Window.datetime)
    (orders_list : list Flatten.value) (app_mapping : Flatten.value)
    (fields : list (string * Flatten.value)) (key s : string) :
  Flatten.Dict fields ∈ orders_list →
  key = "created_at" ∨ key = "updated_at" →
  Flatten.lookup key fields = Some (Flatten.Str s) →
  s ≠ "" →
  Timestamps.count "T" s ≠ 1%nat →
  ∃ e, Flatten.transform_orders_to_df_optimized float_of_str int_of_str repr strip
         fromisoformat orders_list app_mapping = Flatten.Raise e.
Proof.
  intros Hin Hkey Hlookup Hs HT.
  destruct (Flatten.transform_orders_to_df_optimized _ _ _ _ _ _ _) as [df | e] eqn:H;
    [exfalso | by eexists].
  unfold Flatten.transform_orders_to_df_optimized in H.
  destruct orders_list as [| o orders_list]; [by apply elem_of_nil in Hin |].
  destruct (Flatten.for_all _ (o :: orders_list)) as [rows |] eqn:Hrows; [| done].
  destruct (FlattenErrors.for_all_member _ _ _ _ Hrows Hin) as [rs Hrs].
  destruct (FlattenErrors.order_rows_times _ _ _ _ _ _ _ _ Hrs)
    as (created & updated & Hcreated & Hupdated).
  assert (∃ r, Flatten.extract_date_time (Flatten.Str s) = Flatten.Ok r) as [r Hr].
  { unfold Flatten.item in *.
    destruct Hkey as [-> | ->]; rewrite Hlookup in *; by eexists. }
  unfold Flatten.extract_date_time, Timestamps.extract_date_time in Hr.
  destruct s as [| c s]; [done |].
  cbn [Flatten.truthy String.eqb negb PyStr.truthy default from_option id] in Hr.
  pose proof (TimestampFacts.split_length "T" (String c s)) as Hlen.
  destruct (PyStr.split "T" (String c s)) as [| a [| b [| x l]]];
    cbn [length] in Hlen; try discriminate Hr.
  lia.
Qed.

Lemma malformed_time_aborts_batch_witness :
  ∃ e, flatten [snapshot_with "2024-02-10T09:30:00+05:30" [shirt];
                snapshot_with "2024-02-10 09:30:00" [socks]]
       = Flatten.Raise e.
Proof.
  eapply (malformed_time_aborts_batch _ _ _ _ _ _ _ _ "created_at" "2024-02-10 09:30:00").
  - apply elem_of_cons. right. apply elem_of_cons. left. reflexivity.
  - by left.
  - reflexivity.
  - done.
  - vm_compute. lia.
Defined.
Module FetchedFacts.
Import Flatten FlattenFacts.

Lemma lookup_absent (fields : list (string * value)) (key : string) :
  key ∉ fields.*1 → Flatten.lookup key fields = None.
Proof.
  induction fields as [| [k v] fields IH]; [done |].
  cbn [fmap list_fmap fst Flatten.lookup]. intros Hkey.
  apply not_elem_of_cons in Hkey as [Hne Hkey].
  destruct (String.eqb_spec k key); [done | by apply IH].
Qed.

Lemma item_absent (fields : list (string * value)) (key : string) (dflt : value) :
  key ∉ fields.*1 → item fields key dflt = dflt.
Proof. intros Hkey. unfold item. by rewrite lookup_absent. Qed.

(** Decides that a text is not in a list of texts that is given. *)
Ltac not_listed :=
  let H := fresh in
  intros H; vm_compute in H;
  repeat match type of H with
         | _ ∨ _ => destruct H as [H | H]; [discriminate H |]
         | False => exact H
         end.

Section Builtins.

Variable float_of_str : string -> option Z.
Variable int_of_str : string -> option Z.
Variable repr : value -> string.
Variable strip : string -> string.
Variable fromisoformat : string -> option Window.datetime.

(** A snapshot without any key outside the field list of the fetcher
    gives its dict [base] alone, and only the columns filled from those
    fields hold something. *)
Lemma order_rows_requested app_mapping fields rows :
  (∀ key, key ∈ fields.*1 → key ∈ Flatten.requested) →
  order_rows float_of_str int_of_str repr strip fromisoformat app_mapping
    (Dict fields) = Ok rows →
  ∃ base,
    rows = [base]
    ∧ ∀ col, col ∉ Flatten.filled_columns → default PyNone (base !! col) = PyNone.
Proof.
  intros Hkeys.
  assert (∀ key dflt, ¬ In key Flatten.requested → item fields key dflt = dflt)
    as Habsent.
  { intros key dflt Hkey. apply item_absent. intros Hin.
    apply Hkey, list_elem_of_In, Hkeys, Hin. }
  unfold order_rows. cbn [dict_items mbind result_bind]. intros H.
  destruct (base_of _ _ _ _ _) as [[[[base customer] created_date] created_time] |]
    eqn:Hbase; [| discriminate H].
  rewrite (Habsent "line_items") in H by not_listed.
  cbn [truthy negb] in H. injection H as <-.
  exists base. split; [done |].
  unfold base_of in Hbase. cbv zeta in Hbase.
  rewrite !(Habsent "customer"), !(Habsent "shipping_address"),
    !(Habsent "billing_address"), !(Habsent "discount_codes"),
    !(Habsent "discount_applications"), !(Habsent "fulfillment_status"),
    !(Habsent "currency"), !(Habsent "total_shipping_price_set"),
    !(Habsent "current_total_tax"), !(Habsent "total_discounts"),
    !(Habsent "total_duties"), !(Habsent "tags"), !(Habsent "orig_referrer"),
    !(Habsent "full_url"), !(Habsent "customer_ip"), !(Habsent "pg_order_id"),
    !(Habsent "appmaker_platform"), !(Habsent "app_version") in Hbase
    by not_listed.
  change (or_else (List []) (List [])) with (List []) in Hbase.
  change (or_else PyNone (Dict [])) with (Dict []) in Hbase.
  change (or_else PyNone PyNone) with PyNone in Hbase.
  change (or_else PyNone (Str "Unfulfilled")) with (Str "Unfulfilled") in Hbase.
  cbn [joined for_truthy iterate List.filter for_all join join_strings str_or_none
       String.eqb mbind result_bind dict_items item Flatten.lookup default
       from_option id foldl float_if truthy str_if] in Hbase.
  bind_inv Hbase.
  pose proof (f_equal (fun r => match r with
                                | Ok (b, _, _, _) => b
                                | Raise _ => ∅
                                end) Hbase) as Hb.
  cbv beta iota in Hb. subst base. clear Hbase.
  intros col Hcol.
  match goal with
  | |- default PyNone (?m !! col) = PyNone =>
      destruct (m !! col) as [v |] eqn:Hv; [| done]
  end.
  apply elem_of_list_to_map_2 in Hv. cbn [default].
  repeat (apply elem_of_cons in Hv as [Hv | Hv];
          [injection Hv as -> ->;
           first [reflexivity
                 | exfalso; apply Hcol, list_elem_of_In; vm_compute; tauto] |]).
  by apply elem_of_nil in Hv.
Qed.


End Builtins.
End FetchedFacts.

(** The fetcher asks the upstream API for ten fields of an order, and line
    items, customer, discounts and addresses are not among them.  A batch of
    snapshots without any other key is flattened into exactly one row for
    each snapshot, and in these rows only the fifteen columns filled from
    those fields (with the default fulfilment status and the shipping price)
    can hold anything: every line-item, customer, discount, address and tag
    column is empty. *)
Theorem requested_fields_give_one_row (float_of_str int_of_str : string -> option Z)
    (repr : Flatten.value -> string) (strip : string -> string)
    (fromisoformat : string -> option Window.datetime)
    (orders_list : list Flatten.value) (app_mapping : Flatten.value)
    (df : list (gmap string Flatten.value)) :
  (∀ order, order ∈ orders_list →
            ∃ fields, order = Flatten.Dict fields
                      ∧ ∀ key, key ∈ fields.*1 → key ∈ Flatten.requested) →
  Flatten.transform_orders_to_df_optimized float_of_str int_of_str repr strip
    fromisoformat orders_list app_mapping = Flatten.Ok df →
  length df = length orders_list
  ∧ ∀ r col, r ∈ df → col ∉ Flatten.filled_columns →
             Flatten.cell r col = Flatten.PyNone.
Proof.
  intros Hkeys H.
  destruct (FlattenFacts.transform_groups _ _ _ _ _ _ _ _ H)
    as (rows & cols & Hrows & _ & ->).
  clear H.
  assert (Forall2 (fun (o : Flatten.value) (rs : list (gmap string Flatten.value)) =>
                     ∃ base, rs = [base]
                             ∧ ∀ col, col ∉ Flatten.filled_columns →
                                      default Flatten.PyNone (base !! col)
                                      = Flatten.PyNone)
                  orders_list rows) as Hone.
  { induction Hrows as [| o rs orders_list rows Ho _ IH]; [constructor |].
    constructor.
    - destruct (Hkeys o) as (fields & -> & Hfields); [by left |].
      by eapply FetchedFacts.order_rows_requested.
    - apply IH. intros o' Ho'. apply Hkeys. by right. }
  clear Hrows Hkeys.
  induction Hone as [| o rs orders_list rows (base & -> & Hbase) _ [IHlen IHcell]].
  - split; [done |]. intros r col Hr. by apply elem_of_nil in Hr.
  - cbn [fmap list_fmap concat app length]. split; [by rewrite IHlen |].
    intros r col Hr Hcol. apply elem_of_cons in Hr as [-> | Hr].
    + apply FlattenFacts.frame_cell. by apply Hbase.
    + by apply IHcell.
Qed.

Lemma requested_fields_give_one_row_witness :
  ∃ r, flatten [fetched_snapshot] = Flatten.Ok [r]
       ∧ Flatten.cell r "line_item_price" = Flatten.PyNone
       ∧ Flatten.cell r "customer_id" = Flatten.PyNone.
Proof.
  assert (match flatten [fetched_snapshot] with
          | Flatten.Ok _ => true
          | Flatten.Raise _ => false
          end = true) as Hok by (vm_compute; reflexivity).
  destruct (flatten _) as [df | e] eqn:H; [| discriminate Hok].
  assert (∀ order, order ∈ [fetched_snapshot] →
            ∃ fields, order = Flatten.Dict fields
                      ∧ ∀ key, key ∈ fields.*1 → key ∈ Flatten.requested) as Hkeys.
  { intros o Ho. apply list_elem_of_singleton in Ho as ->.
    eexists. split; [reflexivity |].
    intros key Hkey. apply list_elem_of_In in Hkey. apply list_elem_of_In.
    vm_compute in Hkey |- *. tauto. }
  destruct (requested_fields_give_one_row _ _ _ _ _ _ _ _ Hkeys H) as [Hlen Hcell].
  destruct df as [| r [| r' df]]; try discriminate Hlen.
  exists r. split; [done |].
  split; apply Hcell; try (by left);
    intros Hin; apply list_elem_of_In in Hin; vm_compute in Hin;
    repeat (destruct Hin as [Hin | Hin]; [discriminate Hin |]); exact Hin.
Defined.

(** ** The pagination cursor in the [Link] header *)

Module LinkFacts.
Import Fetcher Timestamps TimestampFacts.

Lemma prefix_refl (s : string) : String.prefix s s = true.
Proof.
  induction s as [| c s IH]; [done |].
  cbn [String.prefix]. destruct (ascii_dec c c); [done | congruence].
Qed.

Lemma contains_cons (needle : string) (c : ascii) (rest : string) :
  PyStr.contains needle (String c rest)
  = String.prefix needle (String c rest) || PyStr.contains needle rest.
Proof. reflexivity. Qed.

Lemma contains_refl (needle : string) : PyStr.contains needle needle = true.
Proof. destruct needle; cbn [PyStr.contains]; by rewrite prefix_refl. Qed.

Lemma contains_suffix (needle a : string) :
  PyStr.contains needle (a +:+ needle) = true.
Proof.
  induction a as [| c a IH]; rewrite ?append_nil, ?append_cons.
  - apply contains_refl.
  - by rewrite contains_cons, IH, orb_true_r.
Qed.

Lemma lstrip_cons (chars : list ascii) (c : ascii) (rest : string) :
  PyStr.lstrip chars (String c rest)
  = if PyStr.in_chars chars c then PyStr.lstrip chars rest else String c rest.
Proof. reflexivity. Qed.

Lemma rstrip_cons (chars : list ascii) (c : ascii) (rest : string) :
  PyStr.rstrip chars (String c rest)
  = match PyStr.rstrip chars rest with
    | EmptyString =>
        if PyStr.in_chars chars c then EmptyString else String c EmptyString
    | kept => String c kept
    end.
Proof. reflexivity. Qed.

Lemma lstrip_closing (u : string) :
  PyStr.lstrip brackets (u +:+ ">")
  = match PyStr.lstrip brackets u with
    | EmptyString => EmptyString
    | kept => kept +:+ ">"
    end.
Proof.
  induction u as [| c u IH]; [done |].
  rewrite append_cons, !lstrip_cons.
  by destruct (PyStr.in_chars brackets c).
Qed.

Lemma rstrip_closing (x : string) :
  PyStr.rstrip brackets (x +:+ ">") = PyStr.rstrip brackets x.
Proof.
  induction x as [| c x IH]; [done |].
  by rewrite append_cons, !rstrip_cons, IH.
Qed.

(** [strip('<> ')] takes the angle brackets off and, with them, what it
    would take off the text between them. *)
Lemma strip_bracketed (lead u : string) :
  PyStr.lstrip brackets lead = "" →
  PyStr.strip brackets (lead +:+ "<" +:+ u +:+ ">") = PyStr.strip brackets u.
Proof.
  intros Hlead. unfold PyStr.strip.
  assert (PyStr.lstrip brackets (lead +:+ "<" +:+ u +:+ ">")
          = PyStr.lstrip brackets (u +:+ ">")) as ->.
  { induction lead as [| c lead IH]; [done |].
    rewrite append_cons, lstrip_cons. rewrite lstrip_cons in Hlead.
    destruct (PyStr.in_chars brackets c); [by apply IH | done]. }
  rewrite lstrip_closing.
  destruct (PyStr.lstrip brackets u) as [| c kept]; [done |].
  apply (rstrip_closing (String c kept)).
Qed.

Lemma append_assoc (a b c : string) : (a +:+ b) +:+ c = a +:+ b +:+ c.
Proof.
  induction a as [| x a IH]; [done |]. by rewrite !append_cons, IH.
Qed.

(** The part of the header that carries the next link. *)
Lemma first_next_here (lead u : string) (rest : list string) :
  PyStr.lstrip brackets lead = "" →
  count ";" lead = 0%nat → count ";" u = 0%nat →
  first_next ((lead +:+ "<" +:+ u +:+ ">; " +:+ rel_next) :: rest)
  = Some (PyStr.strip brackets u).
Proof.
  intros Hlead Hcl Hcu. cbn [first_next].
  assert (PyStr.contains rel_next (lead +:+ "<" +:+ u +:+ ">; " +:+ rel_next) = true)
    as ->.
  { rewrite <- !append_assoc. apply contains_suffix. }
  change (">; " +:+ rel_next) with (">" +:+ String ";" (" " +:+ rel_next)).
  rewrite <- !append_assoc. rewrite split_at.
  - cbn [hd]. rewrite !append_assoc. f_equal. by apply strip_bracketed.
  - rewrite !count_app, Hcl, Hcu. reflexivity.
Qed.

End LinkFacts.

(** The fetcher recovers the next URL from the [Link] header the upstream
    API sends: for a URL without comma and semicolon, a header that holds the
    URL in angle brackets followed by [; rel="next"], alone or after one
    other link without comma, gives back the URL ([strip] takes nothing off
    a URL that neither starts nor ends with an angle bracket or a space). *)
Theorem next_url_of_link_header (u previous : string) :
  Timestamps.count "," u = 0%nat →
  Timestamps.count ";" u = 0%nat →
  Timestamps.count "," previous = 0%nat →
  PyStr.contains Fetcher.rel_next previous = false →
  Fetcher.next_url ("<" +:+ u +:+ ">; " +:+ Fetcher.rel_next)
  = Some (PyStr.strip Timestamps.brackets u)
  ∧ Fetcher.next_url
      (previous +:+ ", <" +:+ u +:+ ">; " +:+ Fetcher.rel_next)
    = Some (PyStr.strip Timestamps.brackets u).
Proof.
  intros Hcomma Hsemi Hprev Hnone. split.
  - unfold Fetcher.next_url.
    assert (PyStr.contains Fetcher.rel_next ("<" +:+ u +:+ ">; " +:+ Fetcher.rel_next)
            = true) as ->.
    { rewrite <- !LinkFacts.append_assoc. apply LinkFacts.contains_suffix. }
    rewrite TimestampFacts.split_none.
    + apply (LinkFacts.first_next_here "" u []); done.
    + rewrite !TimestampFacts.count_app, Hcomma. reflexivity.
  - unfold Fetcher.next_url.
    assert (PyStr.contains Fetcher.rel_next
              (previous +:+ ", <" +:+ u +:+ ">; " +:+ Fetcher.rel_next) = true) as ->.
    { rewrite <- !LinkFacts.append_assoc. apply LinkFacts.contains_suffix. }
    change (", <" +:+ u +:+ ">; " +:+ Fetcher.rel_next)
      with (String "," (" " +:+ "<" +:+ u +:+ ">; " +:+ Fetcher.rel_next)).
    rewrite TimestampFacts.split_at by done.
    rewrite TimestampFacts.split_none.
    + cbn [Fetcher.first_next]. rewrite Hnone.
      apply (LinkFacts.first_next_here " " u []); done.
    + rewrite !TimestampFacts.count_app, Hcomma. reflexivity.
Qed.

Lemma next_url_of_link_header_witness :
  Fetcher.next_url next_link
  = Some "https://shop.example/admin/api/2024-01/orders.json?page_info=p2".
Proof.
  apply (next_url_of_link_header
           "https://shop.example/admin/api/2024-01/orders.json?page_info=p2" "");
    reflexivity.
Defined.

(** ** Brand configuration and pooled connections *)

Module ConfigFacts.
Import Config.

Section Init.

Variable environ : gmap string string.
Variable pool_created : nat -> db_config -> bool.
Variable engine_created : nat -> string -> bool.

Lemma configure_brand_active (g : globals) (i : nat) :
  configured environ pool_created engine_created i →
  ∃ config c,
    active_brand_indices (configure_brand environ pool_created engine_created g i)
    = (active_brand_indices g ++ [i])%list
    ∧ db_connection_pools (configure_brand environ pool_created engine_created g i)
      = <[i := config]> (db_connection_pools g)
    ∧ sqlalchemy_engines (configure_brand environ pool_created engine_created g i)
      = <[i := c]> (sqlalchemy_engines g).
Proof.
  intros (h & u & p & d & c & Hh & Hu & Hp & Hd & Hpool & Hc & Hne & Heng).
  unfold configure_brand. rewrite Hh, Hu, Hp, Hd, Hpool, Hc.
  destruct c as [| a c]; [done |].
  cbn [PyStr.truthy default from_option id andb]. rewrite Heng.
  by eexists _, _.
Qed.

Lemma configure_brand_skipped (g : globals) (i : nat) :
  db_connection_pools g !! i = None →
  configured environ pool_created engine_created i
  ∨ (¬ configured environ pool_created engine_created i
     ∧ active_brand_indices
         (configure_brand environ pool_created engine_created g i)
       = active_brand_indices g
     ∧ db_connection_pools
         (configure_brand environ pool_created engine_created g i)
       = db_connection_pools g
     ∧ sqlalchemy_engines
         (configure_brand environ pool_created engine_created g i)
       = sqlalchemy_engines g).
Proof.
  intros Hnone. unfold configure_brand.
  destruct (environ !! key "DB_HOST" i) as [h |] eqn:Hh.
  2: { right. split; [| done]. intros (? & ? & ? & ? & ? & ? & _). congruence. }
  destruct (environ !! key "DB_USER" i) as [u |] eqn:Hu.
  2: { right. split; [| done]. intros (? & ? & ? & ? & ? & _ & ? & _). congruence. }
  destruct (environ !! key "DB_PASSWORD" i) as [p |] eqn:Hp.
  2: { right. split; [| done].
       intros (? & ? & ? & ? & ? & _ & _ & ? & _). congruence. }
  destruct (environ !! key "DB_DATABASE" i) as [d |] eqn:Hd.
  2: { right. split; [| done].
       intros (? & ? & ? & ? & ? & _ & _ & _ & ? & _). congruence. }
  destruct (pool_created i (mk_db_config h u p d)) eqn:Hpool.
  2: { right. split; [| done].
       intros (? & ? & ? & ? & ? & ? & ? & ? & ? & ? & _). congruence. }
  destruct (environ !! key "MYSQL_CONNECT" i) as [c |] eqn:Hc.
  2: { right. split.
       - intros (? & ? & ? & ? & ? & _ & _ & _ & _ & _ & ? & _). congruence.
       - cbn. split; [done |]. split; [| done].
         by rewrite delete_insert_eq, delete_id. }
  destruct c as [| a c].
  { right. split.
    - intros (? & ? & ? & ? & ? & _ & _ & _ & _ & _ & ? & ? & _). congruence.
    - cbn. split; [done |]. split; [| done].
      by rewrite delete_insert_eq, delete_id. }
  cbn [PyStr.truthy default from_option id andb].
  destruct (engine_created i (String a c)) eqn:Heng.
  - left. exists h, u, p, d, (String a c). by repeat split.
  - right. split.
    + intros (? & ? & ? & ? & ? & _ & _ & _ & _ & _ & ? & _ & ?). congruence.
    + cbn. split; [done |]. split; [| done].
      by rewrite delete_insert_eq, delete_id.
Qed.

Lemma sorted_snoc (l : list nat) (n : nat) :
  StronglySorted lt l → Forall (fun i => (i < n)%nat) l →
  StronglySorted lt (l ++ [n]).
Proof.
  induction 1 as [| a l Hl IH Hall]; intros Hlt.
  - repeat constructor.
  - apply Forall_cons in Hlt as [Ha Hlt]. cbn [app]. constructor; [by apply IH |].
    apply Forall_app. split; [done |]. by repeat constructor.
Qed.

Lemma configure_brand_step (n : nat) (g : globals) :
  initialised environ pool_created engine_created n g →
  initialised environ pool_created engine_created (S n)
    (configure_brand environ pool_created engine_created g n).
Proof.
  intros (Hact & Hpools & Hengines & Hsorted).
  assert (n ∉ active_brand_indices g) as Hfresh
    by (rewrite Hact; lia).
  assert (db_connection_pools g !! n = None) as Hnone.
  { apply eq_None_not_Some. by rewrite Hpools. }
  unfold initialised.
  destruct (configure_brand_skipped g n Hnone) as [Hconf | (Hnot & Hskip)].
  - destruct (configure_brand_active g n Hconf) as (config & c & -> & -> & ->).
    split; [| split; [| split]].
    + intros i. rewrite elem_of_app, list_elem_of_singleton, Hact.
      split.
      * intros [[? ?] | ->]; split; [lia | done | lia | done].
      * intros [Hlt Hc]. destruct (decide (i = n)) as [-> | ?]; [by right |].
        left. split; [lia | done].
    + intros i. rewrite elem_of_app, list_elem_of_singleton, <- Hpools.
      destruct (decide (i = n)) as [-> | ?].
      * rewrite lookup_insert_eq. split; [by right | by eexists].
      * rewrite lookup_insert_ne by done. split; [by left | by intros [? | ?]].
    + intros i. rewrite elem_of_app, list_elem_of_singleton, <- Hengines.
      destruct (decide (i = n)) as [-> | ?].
      * rewrite lookup_insert_eq. split; [by right | by eexists].
      * rewrite lookup_insert_ne by done. split; [by left | by intros [? | ?]].
    + apply sorted_snoc; [done |]. apply Forall_forall.
      intros i Hi. apply Hact in Hi. lia.
  - destruct Hskip as (-> & -> & ->).
    split; [| by split].
    intros i. rewrite Hact. split.
    + intros [? ?]. split; [lia | done].
    + intros [Hlt Hc]. destruct (decide (i = n)) as [-> | ?]; [done |].
      split; [lia | done].
Qed.

Lemma initialised_foldl (count n : nat) (g : globals) :
  initialised environ pool_created engine_created n g →
  initialised environ pool_created engine_created (n + count)
    (foldl (configure_brand environ pool_created engine_created) g (seq n count)).
Proof.
  revert n g. induction count as [| count IH]; intros n g Hinit.
  - by rewrite Nat.add_0_r.
  - cbn [seq foldl]. replace (n + S count)%nat with (S n + count)%nat by lia.
    apply IH. by apply configure_brand_step.
Qed.

End Init.

(** The retry loop, started after [tried] failed calls. *)
Lemma get_connection_loop_found pool n : ∀ tried attempts cnx,
  (∀ k, (tried <= k < tried + n)%nat → pool k = PoolExhausted) →
  pool (tried + n)%nat = Connection cnx →
  (n < attempts)%nat →
  get_connection_loop pool tried attempts = (inl cnx, (tried + n)%nat).
Proof.
  induction n as [| n IH]; intros tried attempts cnx Hfail Hfound Hlt.
  - destruct attempts as [| attempts]; [lia |].
    cbn [get_connection_loop]. rewrite Nat.add_0_r in *. by rewrite Hfound.
  - destruct attempts as [| attempts]; [lia |].
    cbn [get_connection_loop]. rewrite (Hfail tried) by lia.
    replace (tried + S n)%nat with (S tried + n)%nat in * by lia.
    apply IH; [| done | lia]. intros k Hk. apply Hfail. lia.
Qed.

Lemma get_connection_loop_exhausted pool attempts : ∀ tried,
  (∀ k, (tried <= k < tried + attempts)%nat → pool k = PoolExhausted) →
  get_connection_loop pool tried attempts = (inr PoolError, (tried + attempts)%nat).
Proof.
  induction attempts as [| attempts IH]; intros tried Hfail.
  - cbn. by rewrite Nat.add_0_r.
  - cbn [get_connection_loop]. rewrite (Hfail tried) by lia.
    replace (tried + S attempts)%nat with (S tried + attempts)%nat by lia.
    apply IH. intros k Hk. apply Hfail. lia.
Qed.

End ConfigFacts.

(** After [initialize_brand_configs] has run on the empty globals, the
    active brands are exactly the brands below [TOTAL_CONFIG_COUNT] with the
    four database variables, a pool that could be created, a non-empty
    [MYSQL_CONNECT] and an engine that could be created; they are listed in
    ascending order, each once; and a brand has a connection pool exactly
    when it has an engine, exactly when it is active (a pool whose engine
    could not be created has been dropped again). *)
Theorem active_brands_have_pool_and_engine (environ : gmap string string)
    (pool_created : nat -> Config.db_config -> bool)
    (engine_created : nat -> string -> bool) (total_count : Z) :
  let g := Config.initialize_brand_configs environ pool_created engine_created
             total_count Config.no_brands in
  (∀ i, i ∈ Config.active_brand_indices g
        ↔ (Z.of_nat i < total_count
           ∧ Config.configured environ pool_created engine_created i))
  ∧ (∀ i, is_Some (Config.db_connection_pools g !! i)
          ↔ i ∈ Config.active_brand_indices g)
  ∧ (∀ i, is_Some (Config.sqlalchemy_engines g !! i)
          ↔ i ∈ Config.active_brand_indices g)
  ∧ StronglySorted lt (Config.active_brand_indices g)
  ∧ NoDup (Config.active_brand_indices g).
Proof.
  intros g.
  assert (Config.initialised environ pool_created engine_created 0 Config.no_brands)
    as Hinit.
  { split; [| split; [| split]].
    - intros i. cbn. rewrite elem_of_nil. split; [done | lia].
    - intros i. cbn. rewrite lookup_empty, elem_of_nil. split; [by intros [? ?] | done].
    - intros i. cbn. rewrite lookup_empty, elem_of_nil. split; [by intros [? ?] | done].
    - constructor. }
  apply (ConfigFacts.initialised_foldl environ pool_created engine_created
           (Z.to_nat total_count)) in Hinit.
  destruct Hinit as (Hact & Hpools & Hengines & Hsorted).
  fold (Config.initialize_brand_configs environ pool_created engine_created
          total_count Config.no_brands) in Hact, Hpools, Hengines, Hsorted.
  fold g in Hact, Hpools, Hengines, Hsorted.
  split; [| split; [done | split; [done | split; [done |]]]].
  - intros i. rewrite Hact. split; intros [? ?]; (split; [lia | done]).
  - clear Hact Hpools Hengines.
    induction Hsorted as [| a l Hl IH Hall]; constructor; [| done].
    intros Hin. rewrite Forall_forall in Hall. specialize (Hall a Hin). lia.
Qed.

(** [get_db_connection] hands out the first connection the pool gives
    within [attempts] calls, after one sleep per exhausted call before it;
    when the pool is exhausted at every one of the [attempts] calls it raises
    [PoolError] after [attempts] sleeps (at once when [attempts] is not
    positive); and without a pool for the brand it raises before any call. *)
Theorem get_db_connection_retries (pools : gmap nat (nat -> Config.pool_reply))
    (brand_index : nat) (attempts : Z) :
  (∀ pool n cnx,
     pools !! brand_index = Some pool →
     (∀ k, (k < n)%nat → pool k = Config.PoolExhausted) →
     pool n = Config.Connection cnx →
     Z.of_nat n < attempts →
     Config.get_db_connection pools brand_index attempts = (inl cnx, n))
  ∧ (∀ pool,
       pools !! brand_index = Some pool →
       (∀ k, Z.of_nat k < attempts → pool k = Config.PoolExhausted) →
       Config.get_db_connection pools brand_index attempts
       = (inr Config.PoolError, Z.to_nat attempts))
  ∧ (pools !! brand_index = None →
     Config.get_db_connection pools brand_index attempts
     = (inr Config.NoPool, 0%nat)).
Proof.
  unfold Config.get_db_connection. split; [| split].
  - intros pool n cnx -> Hfail Hfound Hlt.
    apply (ConfigFacts.get_connection_loop_found pool n 0); [| done | lia].
    intros k Hk. apply Hfail. lia.
  - intros pool -> Hfail.
    apply (ConfigFacts.get_connection_loop_exhausted pool (Z.to_nat attempts) 0).
    intros k Hk. apply Hfail. lia.
  - by intros ->.
Qed.

Lemma get_db_connection_retries_witness :
  Config.get_db_connection
    {[ 0%nat := fun k => if (k <? 2)%nat then Config.PoolExhausted
                         else Config.Connection 7 ]} 0 10
  = (inl 7%nat, 2%nat).
Proof.
  apply (proj1 (get_db_connection_retries _ 0 10)
           (fun k => if (k <? 2)%nat then Config.PoolExhausted
                     else Config.Connection 7) 2%nat 7%nat).
  - apply lookup_singleton_eq.
  - intros k Hk. destruct k as [| [| k]]; [done | done | lia].
  - done.
  - lia.
Defined.

(** ** Hourly sessions *)

Module SessionFacts.
Import Sessions.

Lemma hour_floor_eq (t : Z) : hour_floor t = hour * (t / hour).
Proof. unfold hour_floor, hour. Z.div_mod_to_equations. lia. Qed.

Lemma hour_floor_add (t k : Z) : hour_floor (t + k * hour) = hour_floor t + k * hour.
Proof.
  rewrite !hour_floor_eq. rewrite Z.div_add by (unfold hour; lia). lia.
Qed.

Lemma hour_floor_mono (a b : Z) : a <= b → hour_floor a <= hour_floor b.
Proof.
  intros Hab. rewrite !hour_floor_eq.
  pose proof (Z.div_le_mono a b hour ltac:(unfold hour; lia) Hab).
  unfold hour in *. lia.
Qed.

Lemma hour_floor_le (t : Z) : hour_floor t <= t < hour_floor t + hour.
Proof. unfold hour_floor, hour. Z.div_mod_to_equations. lia. Qed.

(** The loop, given fuel for the hours that are left. *)
Lemma time_slots_loop_spec (end_time_ist : Z) (fuel : nat) :
  ∀ current_time acc,
    (current_time < end_time_ist →
     (end_time_ist - current_time) / hour + 1 <= Z.of_nat fuel) →
    ∃ slots,
      time_slots_loop fuel current_time end_time_ist acc = Some slots
      ∧ ∀ t, t ∈ slots
             ↔ t ∈ acc
               ∨ ∃ k, 0 <= k ∧ current_time + k * hour < end_time_ist
                      ∧ t = hour_floor current_time + k * hour.
Proof.
  induction fuel as [| fuel IH]; intros current_time acc Hfuel.
  - cbn [time_slots_loop]. case_decide as Hlt.
    + specialize (Hfuel Hlt). exfalso.
      assert (0 <= (end_time_ist - current_time) / hour)
        by (apply Z.div_pos; unfold hour; lia).
      lia.
    + eexists. split; [done |]. intros t. split; [auto |].
      intros [? | (k & Hk & Hlt' & _)]; [done |]. unfold hour in *. lia.
  - cbn [time_slots_loop]. case_decide as Hlt.
    + specialize (Hfuel Hlt).
      destruct (IH (current_time + hour) ({[hour_floor current_time]} ∪ acc))
        as (slots & -> & Hslots).
      { intros Hlt'.
        replace (end_time_ist - (current_time + hour))
          with (end_time_ist - current_time + (-1) * hour) by lia.
        rewrite Z.div_add by (unfold hour; lia). lia. }
      exists slots. split; [done |]. intros t. rewrite Hslots.
      rewrite elem_of_union, elem_of_singleton. split.
      * intros [[-> | ?] | (k & Hk & Hlt' & ->)].
        -- right. exists 0. split; [lia |]. split; lia.
        -- by left.
        -- right. exists (k + 1). split; [lia |]. split; [lia |].
           replace (current_time + hour) with (current_time + 1 * hour) by lia.
           rewrite hour_floor_add. lia.
      * intros [? | (k & Hk & Hlt' & ->)]; [by left; right |].
        destruct (decide (k = 0)) as [-> | Hne].
        -- left. left. lia.
        -- right. exists (k - 1). split; [lia |]. split; [lia |].
           replace (current_time + hour) with (current_time + 1 * hour) by lia.
           rewrite hour_floor_add. lia.
    + eexists. split; [done |]. intros t. split; [auto |].
      intros [? | (k & Hk & Hlt' & _)]; [done |]. unfold hour in *. lia.
Qed.

(** The slots between two instants: every whole hour from the hour of the
    first to the hour of the second. *)
Lemma time_slots_spec (start_time_ist end_time_ist : Z) :
  start_time_ist < end_time_ist →
  ∃ slots,
    time_slots start_time_ist end_time_ist = Some slots
    ∧ ∀ t, t ∈ slots
           ↔ ∃ k, 0 <= k ∧ t = hour_floor start_time_ist + k * hour
                  ∧ t <= hour_floor end_time_ist.
Proof.
  intros Hlt. unfold time_slots.
  destruct (time_slots_loop_spec end_time_ist
              (Z.to_nat ((end_time_ist - start_time_ist) / hour + 1))
              start_time_ist ∅) as (slots & -> & Hslots).
  { intros _.
    assert (0 <= (end_time_ist - start_time_ist) / hour)
      by (apply Z.div_pos; unfold hour; lia).
    lia. }
  eexists. split; [done |]. intros t.
  rewrite elem_of_union, elem_of_singleton, Hslots, elem_of_empty.
  split.
  - intros [-> | [[] | (k & Hk & Hlt' & ->)]].
    + exists (end_time_ist / hour - start_time_ist / hour).
      pose proof (Z.div_le_mono start_time_ist end_time_ist hour
                    ltac:(unfold hour; lia) ltac:(lia)).
      split; [lia |]. split; [| lia]. rewrite !hour_floor_eq. lia.
    + exists k. split; [done |]. split; [done |].
      rewrite <- hour_floor_add. apply hour_floor_mono. lia.
  - intros (k & Hk & -> & Hle).
    destruct (decide (start_time_ist + k * hour < end_time_ist)) as [Hin | Hout].
    + right. right. by exists k.
    + left. rewrite <- hour_floor_add in Hle |- *.
      pose proof (hour_floor_mono end_time_ist (start_time_ist + k * hour)
                    ltac:(lia)).
      lia.
Qed.

Lemma sorted_seqZ (n : nat) : ∀ m, StronglySorted Z.le (seqZ m (Z.of_nat n)).
Proof.
  induction n as [| n IH]; intros m.
  - rewrite seqZ_nil by lia. constructor.
  - rewrite seqZ_cons by lia. constructor.
    + replace (Z.pred (Z.of_nat (S n))) with (Z.of_nat n) by lia. apply IH.
    + apply Forall_seqZ. lia.
Qed.

(** The order in which the slots are requested. *)
Lemma sorted_reverse_slots (slots : gset Z) (first last : Z) :
  first <= last →
  (∀ t, t ∈ slots ↔ ∃ k, 0 <= k ∧ t = hour * first + k * hour ∧ t <= hour * last) →
  sorted_reverse slots
  = reverse ((fun k => hour * first + k * hour) <$> seqZ 0 (last - first + 1)).
Proof.
  intros Hle Hslots. unfold sorted_reverse. f_equal.
  apply (StronglySorted_unique Z.le).
  - apply StronglySorted_merge_sort; apply _.
  - apply (StronglySorted_fmap _ Z.le Z.le).
    + intros x y Hxy. unfold hour. lia.
    + replace (last - first + 1) with (Z.of_nat (Z.to_nat (last - first + 1))) by lia.
      apply sorted_seqZ.
  - rewrite merge_sort_Permutation. apply NoDup_Permutation.
    + apply NoDup_elements.
    + apply NoDup_fmap_2; [| apply NoDup_seqZ].
      intros x y Hxy. unfold hour in Hxy. lia.
    + intros t. rewrite elem_of_elements, Hslots, list_elem_of_fmap.
      split.
      * intros (k & Hk & -> & Hlast). exists k. split; [done |].
        apply elem_of_seqZ. unfold hour in *. lia.
      * intros (k & -> & Hk%elem_of_seqZ). exists k. unfold hour. lia.
Qed.

End SessionFacts.

(** The sessions API is asked for every whole hour from the hour of the last
    fetch to the hour of the current instant, each hour once, the latest
    first: the loop that collects the slots ends, the set it leaves holds
    exactly those hours, and the requests go down from the current hour one
    hour at a time. *)
Theorem session_slots_every_hour (start_time_ist end_time_ist : Z) :
  start_time_ist < end_time_ist →
  ∃ slots,
    Sessions.time_slots start_time_ist end_time_ist = Some slots
    ∧ (∀ t, t ∈ slots
            ↔ ∃ k, 0 <= k ∧ t = Sessions.hour_floor start_time_ist + k * Sessions.hour
                   ∧ t <= Sessions.hour_floor end_time_ist)
    ∧ Sessions.sorted_reverse slots
      = reverse ((fun k => Sessions.hour_floor start_time_ist + k * Sessions.hour)
                   <$> seqZ 0 (end_time_ist / Sessions.hour
                               - start_time_ist / Sessions.hour + 1)).
Proof.
  intros Hlt.
  destruct (SessionFacts.time_slots_spec start_time_ist end_time_ist Hlt)
    as (slots & Hslots & Hin).
  exists slots. split; [done |]. split; [done |].
  rewrite !SessionFacts.hour_floor_eq.
  apply SessionFacts.sorted_reverse_slots.
  - apply Z.div_le_mono; [unfold Sessions.hour |]; lia.
  - intros t. rewrite Hin, !SessionFacts.hour_floor_eq. done.
Qed.

Lemma session_slots_every_hour_witness :
  ∃ slots,
    Sessions.time_slots 1704450600000000 1704457800000000 = Some slots
    ∧ Sessions.sorted_reverse slots
      = [1704456000000000; 1704452400000000; 1704448800000000].
Proof.
  destruct (session_slots_every_hour 1704450600000000 1704457800000000)
    as (slots & Hslots & _ & Hsorted); [done |].
  exists slots. split; [done |]. rewrite Hsorted. vm_compute. reflexivity.
Defined.

Module SessionLoopFacts.
Import Sessions.

Lemma last_cons_default (l : list Z) : ∀ x d, List.last (x :: l) d = List.last l x.
Proof.
  induction l as [| y l IH]; intros x d; [done |].
  change (List.last (x :: y :: l) d) with (List.last (y :: l) d).
  by rewrite !IH.
Qed.

Section Loop.

Variable api : Z -> session_reply.

Lemma slot_step_ok (p : progress) (slot_start : Z) (c0 c a0 a : Z) (key : string * Z) :
  api slot_start = SessionResponse 200 (Count c) (Count a) →
  next_hour_cum_sess p = Count c0 → next_hour_cum_atc p = Count a0 →
  slot_key slot_start = Some key →
  slot_step api p slot_start
  = inl (mk_progress (Count c) (Count a)
           (<[key := Summary.mk_hourly_sessions_row
                       (Some (Z.max 0 (c - c0))) (Some (Z.max 0 (a - a0)))]>
              (hourly p))).
Proof.
  intros Hapi Hs Ha Hkey. unfold slot_step. by rewrite Hapi, Hs, Ha, Hkey.
Qed.

(** The loop writes the rows of its own slots only. *)
Lemma slots_loop_other (slots : list Z) : ∀ p p' key,
  slots_loop api slots p = inl p' →
  Some key ∉ slot_key <$> slots →
  hourly p' !! key = hourly p !! key.
Proof.
  induction slots as [| slot rest IH]; intros p p' key; cbn [slots_loop].
  - by intros [= <-].
  - destruct (slot_step api p slot) as [p1 | e] eqn:Hstep; [| done].
    intros Hloop Hnot. rewrite fmap_cons, not_elem_of_cons in Hnot.
    destruct Hnot as [Hne Hnot].
    rewrite (IH _ _ _ Hloop Hnot).
    unfold slot_step in Hstep.
    destruct (api slot) as [status cs ca |]; [| done].
    destruct (status =? 200); [| done].
    destruct (this_hour cs (next_hour_cum_sess p)); [| done].
    destruct (this_hour ca (next_hour_cum_atc p)); [| done].
    destruct (slot_key slot) as [k |]; [| done].
    injection Hstep as <-. cbn [hourly].
    apply lookup_insert_ne. congruence.
Qed.

(** A slot whose request does not come back with status 200 ends the
    loop with an exception, wherever it stands. *)
Lemma slots_loop_fails (slots : list Z) (slot : Z) : ∀ p,
  slot ∈ slots →
  (∀ cs ca, api slot ≠ SessionResponse 200 cs ca) →
  ∃ e, slots_loop api slots p = inr e.
Proof.
  induction slots as [| s rest IH]; intros p Hin Hbad.
  - by apply elem_of_nil in Hin.
  - cbn [slots_loop]. destruct (slot_step api p s) as [p1 | e] eqn:Hstep;
      [| by eexists].
    apply elem_of_cons in Hin as [<- | Hin]; [| by apply IH].
    exfalso. unfold slot_step in Hstep.
    destruct (api slot) as [status cs ca |]; [| done].
    destruct (Z.eqb_spec status 200) as [-> | ?]; [| done].
    by apply (Hbad cs ca).
Qed.

(** With totals that do not decrease along the slots, the figures the
    loop stores for them add up to the last total. *)
Lemma slots_loop_sum (slots : list Z) : ∀ p c0 a0,
  next_hour_cum_sess p = Count c0 → next_hour_cum_atc p = Count a0 →
  NoDup (slot_key <$> slots) →
  Forall (fun slot => is_Some (slot_key slot)
                      ∧ ∃ c a, api slot = SessionResponse 200 (Count c) (Count a))
         slots →
  Sorted Z.le (c0 :: (sessions_total api <$> slots)) →
  ∃ p',
    slots_loop api slots p = inl p'
    ∧ c0 + sumZ (stored_sessions (hourly p') <$> slots)
      = figure_value (next_hour_cum_sess p')
    ∧ figure_value (next_hour_cum_sess p')
      = List.last (sessions_total api <$> slots) c0
    ∧ Forall (fun slot => 0 <= stored_sessions (hourly p') slot) slots.
Proof.
  induction slots as [| slot rest IH]; intros p c0 a0 Hs Ha Hnd Hall Hsorted.
  - exists p. cbn. rewrite Hs. cbn. split; [done |]. split; [lia |]. by split.
  - rewrite fmap_cons in Hnd. apply NoDup_cons in Hnd as [Hfresh Hnd].
    apply Forall_cons in Hall as [[[key Hkey] (c & a & Hapi)] Hall].
    rewrite fmap_cons in Hsorted.
    apply Sorted_inv in Hsorted as [Hsorted Hhd].
    assert (sessions_total api slot = c) as Htotal
      by (unfold sessions_total; by rewrite Hapi).
    rewrite Htotal in Hsorted, Hhd.
    apply HdRel_inv in Hhd.
    cbn [slots_loop]. rewrite (slot_step_ok p slot c0 c a0 a key) by done.
    destruct (IH (mk_progress (Count c) (Count a)
                    (<[key := Summary.mk_hourly_sessions_row
                                (Some (Z.max 0 (c - c0))) (Some (Z.max 0 (a - a0)))]>
                       (hourly p))) c a eq_refl eq_refl Hnd Hall Hsorted)
      as (p' & Hloop & Hsum & Hlast & Hpos).
    exists p'. split; [done |].
    assert (stored_sessions (hourly p') slot = c - c0) as Hstored.
    { assert (Some key ∉ slot_key <$> rest) as Hfresh'
        by (rewrite <- Hkey; exact Hfresh).
      unfold stored_sessions. rewrite Hkey. cbn [mbind option_bind].
      rewrite (slots_loop_other rest _ _ key Hloop Hfresh').
      cbn [hourly]. rewrite lookup_insert_eq. cbn. lia. }
    split; [| split].
    + rewrite fmap_cons, sumZ_cons, Hstored. lia.
    + rewrite Hlast, fmap_cons, Htotal. symmetry. apply last_cons_default.
    + apply Forall_cons. split; [lia | done].
Qed.

End Loop.

End SessionLoopFacts.

(** When every request of a run comes back with status 200 and the totals
    the API reports do not decrease from one requested slot to the next
    (the latest hour is requested first), the sessions the loop stores for
    the slots add up to the total reported for the last slot requested, the
    earliest hour; each stored figure is at least zero. *)
Theorem hourly_sessions_add_up (api : Z -> Sessions.session_reply) (slots : list Z)
    (stored : gmap (string * Z) Summary.hourly_sessions_row) :
  NoDup (Sessions.slot_key <$> slots) →
  Forall (fun slot => is_Some (Sessions.slot_key slot)
                      ∧ ∃ c a, api slot
                               = Sessions.SessionResponse 200 (Sessions.Count c)
                                   (Sessions.Count a))
         slots →
  Sorted Z.le (0 :: (Sessions.sessions_total api <$> slots)) →
  ∃ p,
    Sessions.slots_loop api slots
      (Sessions.mk_progress Sessions.zero Sessions.zero stored) = inl p
    ∧ sumZ (Sessions.stored_sessions (Sessions.hourly p) <$> slots)
      = List.last (Sessions.sessions_total api <$> slots) 0
    ∧ Forall (fun slot => 0 <= Sessions.stored_sessions (Sessions.hourly p) slot) slots.
Proof.
  intros Hnd Hall Hsorted.
  destruct (SessionLoopFacts.slots_loop_sum api slots
              (Sessions.mk_progress Sessions.zero Sessions.zero stored) 0 0
              eq_refl eq_refl Hnd Hall Hsorted) as (p & Hloop & Hsum & Hlast & Hpos).
  exists p. split; [done |]. split; [lia | done].
Qed.

Lemma hourly_sessions_add_up_witness :
  ∃ p,
    Sessions.slots_loop sessions_api three_slots
      (Sessions.mk_progress Sessions.zero Sessions.zero ∅) = inl p
    ∧ sumZ (Sessions.stored_sessions (Sessions.hourly p) <$> three_slots) = 180.
Proof.
  destruct (hourly_sessions_add_up sessions_api three_slots ∅)
    as (p & Hloop & Hsum & _).
  - assert (Sessions.slot_key <$> three_slots
            = [Some ("2024-01-05", 12); Some ("2024-01-05", 11);
               Some ("2024-01-05", 10)]) as -> by (vm_compute; reflexivity).
    repeat (apply NoDup_cons; split;
            [rewrite ?elem_of_cons, elem_of_nil; intros H;
             repeat destruct H as [H | H]; congruence |]).
    apply NoDup_nil_2.
  - unfold three_slots. repeat apply Forall_cons_2; [.. | apply Forall_nil_2];
      (split; [vm_compute; by eexists | vm_compute; by eexists _, _]).
  - assert (Sessions.sessions_total sessions_api <$> three_slots = [70; 150; 180])
      as -> by (vm_compute; reflexivity).
    repeat constructor; lia.
  - exists p. split; [done |]. rewrite Hsum. vm_compute. reflexivity.
Defined.

Module SessionUpdateFacts.
Import Sessions.

Lemma elem_of_sorted_reverse (slots : gset Z) (t : Z) :
  t ∈ sorted_reverse slots ↔ t ∈ slots.
Proof.
  unfold sorted_reverse.
  by rewrite elem_of_reverse, merge_sort_Permutation, elem_of_elements.
Qed.

Lemma lookup_rollup start_date hourly daily d :
  rollup start_date hourly daily !! d
  = union_with on_duplicate
      (if decide (d ∈ Summary.group_keys (rollup_key start_date) (map_to_list hourly))
       then Some (rollup_select start_date hourly d) else None)
      (daily !! d).
Proof.
  unfold rollup. by rewrite lookup_union_with, SummaryFacts.lookup_result_set.
Qed.

End SessionUpdateFacts.

(** One request that does not come back with status 200 makes the sessions
    update give the whole run up: for any hour between the hour of the last
    fetch and the current hour whose request fails, the two session tables
    and the fetch checkpoint are left as they were, so the next run asks for
    the same hours again. *)
Theorem failed_slot_keeps_checkpoint (api : Z -> Sessions.session_reply) (now : Z)
    (s : Sessions.store) (slot : Z) (k : Z) :
  let start_time_ist :=
    default (now - 60 * 60000000) (Sessions.last_session_fetch_timestamp s) in
  0 <= k →
  slot = Sessions.hour_floor start_time_ist + k * Sessions.hour →
  slot <= Sessions.hour_floor now →
  (∀ cs ca, api slot ≠ Sessions.SessionResponse 200 cs ca) →
  Sessions.update_sessions_summary api now s = s.
Proof.
  intros start_time_ist Hk Hslot Hle Hbad. unfold Sessions.update_sessions_summary.
  fold start_time_ist. case_decide as Hwindow; [done |].
  destruct (SessionFacts.time_slots_spec start_time_ist now ltac:(lia))
    as (slots & -> & Hslots).
  destruct (SessionLoopFacts.slots_loop_fails api (Sessions.sorted_reverse slots) slot
              (Sessions.mk_progress Sessions.zero Sessions.zero
                 (Sessions.hourly_sessions_summary s))) as [e ->]; [| done | done].
  apply SessionUpdateFacts.elem_of_sorted_reverse, Hslots. by exists k.
Qed.

Lemma failed_slot_keeps_checkpoint_witness :
  Sessions.update_sessions_summary sessions_api 1704461400000000 (sessions_store None)
  = sessions_store None.
Proof.
  apply (failed_slot_keeps_checkpoint sessions_api 1704461400000000
           (sessions_store None) 1704459600000000 3).
  - lia.
  - vm_compute. reflexivity.
  - vm_compute. discriminate.
  - intros cs ca. vm_compute. discriminate.
Defined.

(** The sessions update never loses a daily row and never overwrites its
    [adjusted_number_of_sessions]: whatever the API answers, a date that has
    a row in [sessions_summary] before the update has one after it, with the
    same adjusted figure. *)
Theorem sessions_update_keeps_adjusted (api : Z -> Sessions.session_reply) (now : Z)
    (s : Sessions.store) (d : string) (row : Summary.sessions_row) :
  Sessions.sessions_summary s !! d = Some row →
  ∃ row',
    Sessions.sessions_summary (Sessions.update_sessions_summary api now s) !! d
    = Some row'
    ∧ Summary.adjusted_number_of_sessions row'
      = Summary.adjusted_number_of_sessions row.
Proof.
  intros Hrow. unfold Sessions.update_sessions_summary.
  case_decide; [by exists row |].
  destruct (Sessions.time_slots _ _) as [slots |]; [| by exists row].
  destruct (Sessions.slots_loop _ _ _) as [p | e]; [| by exists row].
  destruct (Sessions.date_of _) as [start_date |]; [| by exists row].
  cbn [Sessions.sessions_summary].
  rewrite SessionUpdateFacts.lookup_rollup, Hrow.
  case_decide; [| by exists row].
  eexists. split; [done |]. done.
Qed.

Lemma sessions_update_keeps_adjusted_witness :
  ∃ row',
    Sessions.sessions_summary
      (Sessions.update_sessions_summary sessions_api 1704457800000000
         (sessions_store (Some 42))) !! "2024-01-05" = Some row'
    ∧ Summary.adjusted_number_of_sessions row' = Some 42.
Proof.
  apply (sessions_update_keeps_adjusted sessions_api 1704457800000000
           (sessions_store (Some 42)) "2024-01-05"
           (Summary.mk_sessions_row (Some 5) (Some 1) (Some 42))).
  unfold sessions_store. cbn [Sessions.sessions_summary]. apply lookup_insert_eq.
Defined.
